(** * Event-processing workers of Enterprise-Event-Analytics

    A shallow embedding of the three workers under [backend/workers]
    (lead scoring, blockchain events, chat analysis), the properties their
    specification states about them and, in the last part, further
    properties of the same code: the worker loop, error paths, ranges and
    how the analyses compose.

    Conventions of the embedding.
    - A Python [str] is the list of its code points ([pystr]); dictionary
      keys, which the code only ever writes as ASCII literals, are Rocq
      strings.
    - A value decoded from JSON is a [json]; a Python [dict] is an
      association list in insertion order.
    - Python floats are exact rationals ([Q]); the IEEE special values and
      rounding error of binary doubles are outside the embedding. Where a
      result reports [round(x, n)], the properties of [x] are stated of the
      value computed, and the reported field is that value rounded.
    - A computation that can raise returns an [outcome]; one that also talks
      to the clock, Redis, the relational store, Neo4j or the AI service is
      an [M], which threads a [world] holding the trace of those
      interactions.
    - What the interpreter, its libraries and the external services do is
      taken from an [env]: every theorem holds for every [env]. *)

From Stdlib Require Import ZArith QArith Qround Qabs String Ascii List Bool Lia Lqa
  DecimalString.
Import ListNotations.
Open Scope string_scope.
Open Scope list_scope.
Open Scope Z_scope.

Set Warnings "-register-all".

Declare Scope py_scope.
Delimit Scope py_scope with py.

(** ** Python strings *)

Definition pystr := list N.

Fixpoint cps (s : string) : pystr :=
  match s with
  | EmptyString => []
  | String a r => N_of_ascii a :: cps r
  end.

Coercion cps : string >-> pystr.
Bind Scope string_scope with pystr.

Definition str_cat (a b : pystr) : pystr := (a ++ b)%list.

Infix "+++" := str_cat (at level 60, right associativity).

Fixpoint str_eqb (a b : pystr) : bool :=
  match a, b with
  | [], [] => true
  | x :: a', y :: b' => N.eqb x y && str_eqb a' b'
  | _, _ => false
  end.

Fixpoint starts_with (p s : pystr) : bool :=
  match p, s with
  | [], _ => true
  | _ :: _, [] => false
  | x :: p', y :: s' => N.eqb x y && starts_with p' s'
  end.

(** [needle in hay] on two strings. *)
Fixpoint str_contains (needle hay : pystr) : bool :=
  starts_with needle hay ||
  match hay with
  | [] => false
  | _ :: t => str_contains needle t
  end.

(** [s.count(c)] for a one-character [c]. *)
Definition str_count (c : N) (s : pystr) : nat :=
  List.length (filter (N.eqb c) s).

Definition is_ascii (c : N) : bool := (c <? 128)%N.

Definition ascii_lower (c : N) : N :=
  if ((65 <=? c) && (c <=? 90))%N then (c + 32)%N else c.

Definition ascii_upper (c : N) : N :=
  if ((97 <=? c) && (c <=? 122))%N then (c - 32)%N else c.

(** [[A-Za-z0-9_]], the ASCII part of the class [\w]. *)
Definition ascii_word (c : N) : bool :=
  ((48 <=? c) && (c <=? 57) || (65 <=? c) && (c <=? 90) ||
   (97 <=? c) && (c <=? 122) || (c =? 95))%N.

(** Elements in order of first occurrence, as [dict.fromkeys] and [set]
    keep them. *)
Fixpoint uniq_by {A} (eqb : A -> A -> bool) (l : list A) (seen : list A) : list A :=
  match l with
  | [] => []
  | x :: l' =>
      if existsb (eqb x) seen then uniq_by eqb l' seen
      else x :: uniq_by eqb l' (x :: seen)
  end.

(** [str(n)] for an integer. *)
Definition str_of_Z (z : Z) : pystr := cps (NilZero.string_of_int (Z.to_int z)).

(** ** JSON values and dictionaries *)

Inductive json : Type :=
| JNull
| JBool (b : bool)
| JInt (z : Z)
| JFloat (q : Q)
| JStr (s : pystr)
| JArr (l : list json)
| JObj (m : list (string * json)).

Definition dict := list (string * json).

Fixpoint dict_find (k : string) (d : dict) : option json :=
  match d with
  | [] => None
  | (k', v) :: d' => if String.eqb k k' then Some v else dict_find k d'
  end.

(** [d.get(k, default)] *)
Definition dict_get (d : dict) (k : string) (default : json) : json :=
  match dict_find k d with
  | Some v => v
  | None => default
  end.

(** [d[k] = v]: an existing key keeps its place, a new one goes last. *)
Fixpoint dict_set (k : string) (v : json) (d : dict) : dict :=
  match d with
  | [] => [(k, v)]
  | (k', v') :: d' =>
      if String.eqb k k' then (k, v) :: d' else (k', v') :: dict_set k v d'
  end.

(** [d.update(u)] *)
Definition dict_update (d u : dict) : dict :=
  fold_left (fun acc kv => dict_set (fst kv) (snd kv) acc) u d.

(** Truth value of a JSON value, as [bool(v)] gives it. *)
Definition truthy (v : json) : bool :=
  match v with
  | JNull => false
  | JBool b => b
  | JInt z => negb (z =? 0)
  | JFloat q => negb (Qeq_bool q 0)
  | JStr s => match s with [] => false | _ => true end
  | JArr l => match l with [] => false | _ => true end
  | JObj m => match m with [] => false | _ => true end
  end.

Definition jstrs (l : list pystr) : json := JArr (map JStr l).

(** ** Exceptions *)

Inductive exn : Type :=
| KeyError (key : string)
| TypeError (msg : pystr)
| AttributeError (msg : pystr)
| ValueError (msg : pystr)
| JSONDecodeError (msg : pystr)
| ZeroDivisionError
| ServiceError (msg : pystr).

(** [str(e)]; the texts of the interpreter's own errors are carried in the
    constructor. *)
Definition str_of_exn (e : exn) : pystr :=
  match e with
  | KeyError k => cps ("'" ++ k ++ "'")
  | TypeError m => m
  | AttributeError m => m
  | ValueError m => m
  | JSONDecodeError m => m
  | ZeroDivisionError => "division by zero"
  | ServiceError m => m
  end.

Inductive outcome (A : Type) : Type :=
| Ret (a : A)
| Raise (e : exn).

Arguments Ret {A} a.
Arguments Raise {A} e.

Definition obind {A B} (o : outcome A) (f : A -> outcome B) : outcome B :=
  match o with
  | Ret a => f a
  | Raise e => Raise e
  end.

Notation "x <~ c ;; k" := (obind c (fun x => k))
  (at level 61, c at next level, right associativity) : py_scope.

Open Scope py_scope.

(** [k in v] for a string literal [k]. *)
Definition py_contains (v : json) (k : string) : outcome bool :=
  match v with
  | JObj m => Ret (match dict_find k m with Some _ => true | None => false end)
  | JStr s => Ret (str_contains (cps k) s)
  | JArr l =>
      Ret (existsb (fun x => match x with JStr s => str_eqb s (cps k) | _ => false end) l)
  | _ => Raise (TypeError "argument is not iterable")
  end.

(** [v[k]] for a string literal [k]. *)
Definition py_getitem (v : json) (k : string) : outcome json :=
  match v with
  | JObj m =>
      match dict_find k m with
      | Some x => Ret x
      | None => Raise (KeyError k)
      end
  | JStr _ => Raise (TypeError "string indices must be integers")
  | JArr _ => Raise (TypeError "list indices must be integers or slices")
  | _ => Raise (TypeError "object is not subscriptable")
  end.

(** [v.get(k, default)] *)
Definition py_get (v : json) (k : string) (default : json) : outcome json :=
  match v with
  | JObj m => Ret (dict_get m k default)
  | _ => Raise (AttributeError "object has no attribute 'get'")
  end.

Definition Qmin (a b : Q) : Q := if Qle_bool a b then a else b.
Definition Qmax (a b : Q) : Q := if Qle_bool a b then b else a.
Definition Qltb (a b : Q) : bool := negb (Qle_bool b a).
Definition Qnat (n : nat) : Q := inject_Z (Z.of_nat n).

(** The value of a number; a comparison or product with anything else
    raises. *)
Definition py_num (v : json) : outcome Q :=
  match v with
  | JInt z => Ret (inject_Z z)
  | JFloat q => Ret q
  | JBool b => Ret (if b then 1 else 0)%Q
  | _ => Raise (TypeError "unsupported operand type(s)")
  end.

(** [a + b] *)
Definition py_add (a b : json) : outcome json :=
  match a, b with
  | JStr x, JStr y => Ret (JStr (x +++ y))
  | JArr x, JArr y => Ret (JArr (x ++ y))
  | JInt x, JInt y => Ret (JInt (x + y))
  | JInt x, JBool y => Ret (JInt (x + if y then 1 else 0))
  | JBool x, JInt y => Ret (JInt ((if x then 1 else 0) + y))
  | JBool x, JBool y => Ret (JInt ((if x then 1 else 0) + if y then 1 else 0))
  | JFloat x, (JInt _ | JBool _ | JFloat _) =>
      y <~ py_num b ;; Ret (JFloat (x + y))
  | (JInt _ | JBool _), JFloat y =>
      x <~ py_num a ;; Ret (JFloat (x + y))
  | _, _ => Raise (TypeError "unsupported operand type(s) for +")
  end.

(** [a == s] for a string literal [s] *)
Definition py_eq_str (a : json) (s : string) : bool :=
  match a with
  | JStr x => str_eqb x (cps s)
  | _ => false
  end.

(** [max(f, n)] for a float [f] and an integer [n]: the first argument
    unless the second is greater. *)
Definition py_max_fi (f : Q) (n : Z) : json :=
  if Qltb f (inject_Z n) then JInt n else JFloat f.

(** [all(f(k) for k in keys)] *)
Fixpoint py_all (f : string -> outcome bool) (keys : list string) : outcome bool :=
  match keys with
  | [] => Ret true
  | k :: rest => b <~ f k ;; if b then py_all f rest else Ret false
  end.

(** [any(n in hay for n in needles)] *)
Definition any_in (needles : list string) (hay : pystr) : bool :=
  existsb (fun n => str_contains (cps n) hay) needles.

(** [s in options] *)
Definition one_of (options : list string) (s : pystr) : bool :=
  existsb (fun o => str_eqb s (cps o)) options.

(** [a / b] on floats. *)
Definition py_truediv (a b : Q) : outcome Q :=
  if Qeq_bool b 0 then Raise ZeroDivisionError else Ret (a / b)%Q.

(** The integer nearest to [y], an exact tie going to the even one. *)
Definition round_half_even (y : Q) : Z :=
  let lo := Qfloor y in
  let frac := (y - inject_Z lo)%Q in
  if Qltb frac (1 # 2) then lo
  else if Qltb (1 # 2) frac then lo + 1
  else if Z.even lo then lo else lo + 1.

(** [round(x, n)]: the multiple of [10^-n] nearest to [x]. An exact tie
    goes to the even multiple here; Python decides it on the binary double,
    so nothing below depends on how a tie falls. *)
Definition py_round (n : nat) (x : Q) : Q :=
  let scale := 10 ^ Z.of_nat n in
  Qred (inject_Z (round_half_even (x * inject_Z scale)) / inject_Z scale)%Q.

(** ** The environment: interpreter, libraries and external services *)

Record instant := { unix_seconds : Z; isoformat : pystr }.

Record env := {
  (** [datetime.utcnow()] at the n-th interaction *)
  utcnow : nat -> instant;
  (** the exception text of a Redis, relational or Neo4j call that fails *)
  redis_fault : nat -> option pystr;
  db_fault : nat -> option pystr;
  neo4j_fault : nat -> option pystr;
  (** [chat.completions.create(...).choices[0].message.content] *)
  ai_completion : nat -> json -> outcome (option pystr);
  (** what [brpop] hands over *)
  brpop_reply : nat -> outcome (option pystr);
  (** [json.loads] ([None]: [JSONDecodeError]) and [json.dumps] *)
  json_loads : pystr -> option json;
  json_dumps : json -> pystr;
  (** [int(s)] and [float(s)] on a string ([None]: [ValueError]) *)
  str_to_int : pystr -> option Z;
  str_to_float : pystr -> option Q;
  (** [str.lower] and [str.upper] on text that is not plain ASCII *)
  unicode_lower : pystr -> pystr;
  unicode_upper : pystr -> pystr;
  (** the class [\w] and [str.isupper] beyond ASCII *)
  unicode_word : N -> bool;
  unicode_isupper : N -> bool;
  (** [hash] of a hashable value *)
  py_hash : json -> Z;
  (** [str(v)] of a value that is not a string *)
  py_repr : json -> pystr;
  (** [settings.AI_MODEL] *)
  ai_model : pystr;
  (** [re.search(p, s) is not None], the first group of that match,
      [re.findall(p, s)] *)
  re_search : string -> pystr -> bool;
  re_search_group : string -> pystr -> option pystr;
  re_findall : string -> pystr -> list pystr
}.

Inductive effect : Type :=
| ClockRead (t : instant)
| AiRequest (data : json)
| RedisSetex (key : pystr) (ttl : Z) (value : pystr)
| RedisBrpop (queue : pystr)
| DbSession
| GraphQuery (params : dict)
| Sleep (seconds : Z).

Record world := { tick : nat; trace : list effect }.

Definition M (A : Type) : Type := world -> outcome A * world.

Definition mret {A} (a : A) : M A := fun w => (Ret a, w).

Definition mraise {A} (e : exn) : M A := fun w => (Raise e, w).

Definition mbind {A B} (c : M A) (f : A -> M B) : M B :=
  fun w =>
    match c w with
    | (Ret a, w') => f a w'
    | (Raise e, w') => (Raise e, w')
    end.

Definition lift {A} (o : outcome A) : M A := fun w => (o, w).

(** [try: c  except Exception as e: h e] *)
Definition try_except {A} (c : M A) (h : exn -> M A) : M A :=
  fun w =>
    match c w with
    | (Ret a, w') => (Ret a, w')
    | (Raise e, w') => h e w'
    end.

Notation "x <- c ;; k" := (mbind c (fun x => k))
  (at level 61, c at next level, right associativity) : py_scope.
Notation "c ;; k" := (mbind c (fun _ => k))
  (at level 61, right associativity) : py_scope.

(** One interaction with the outside: it is recorded and the clock of
    interactions advances. *)
Definition interact (e : effect) (w : world) : world :=
  {| tick := S (tick w); trace := e :: trace w |}.

Definition faulty (f : option pystr) : outcome unit :=
  match f with
  | Some msg => Raise (ServiceError msg)
  | None => Ret tt
  end.

Section Services.
Variable E : env.

Definition now : M instant :=
  fun w => let t := utcnow E (tick w) in (Ret t, interact (ClockRead t) w).

Definition redis_setex (key : pystr) (ttl : Z) (value : pystr) : M unit :=
  fun w => (faulty (redis_fault E (tick w)), interact (RedisSetex key ttl value) w).

Definition redis_brpop (queue : pystr) : M (option pystr) :=
  fun w => (brpop_reply E (tick w), interact (RedisBrpop queue) w).

Definition db_session : M unit :=
  fun w => (faulty (db_fault E (tick w)), interact DbSession w).

Definition neo4j_execute (params : dict) : M unit :=
  fun w => (faulty (neo4j_fault E (tick w)), interact (GraphQuery params) w).

Definition ai_chat (data : json) : M (option pystr) :=
  fun w => (ai_completion E (tick w) data, interact (AiRequest data) w).

Definition sleep (seconds : Z) : M unit :=
  fun w => (Ret tt, interact (Sleep seconds) w).

(** [s.lower()], [s.upper()] *)
Definition str_lower (s : pystr) : pystr :=
  if forallb is_ascii s then map ascii_lower s else unicode_lower E s.

Definition str_upper (s : pystr) : pystr :=
  if forallb is_ascii s then map ascii_upper s else unicode_upper E s.

(** the class [\w] *)
Definition is_word (c : N) : bool :=
  if is_ascii c then ascii_word c else unicode_word E c.

(** [c.isupper()] *)
Definition is_upper (c : N) : bool :=
  if is_ascii c then ((65 <=? c) && (c <=? 90))%N else unicode_isupper E c.

(** [v.lower()] on whatever [v] is *)
Definition py_lower (v : json) : outcome pystr :=
  match v with
  | JStr s => Ret (str_lower s)
  | _ => Raise (AttributeError "object has no attribute 'lower'")
  end.

(** [int(v)] *)
Definition py_int (v : json) : outcome Z :=
  match v with
  | JInt z => Ret z
  | JBool b => Ret (if b then 1 else 0)
  | JFloat q => Ret (Z.quot (Qnum q) (Z.pos (Qden q)))
  | JStr s =>
      match str_to_int E s with
      | Some z => Ret z
      | None => Raise (ValueError "invalid literal for int() with base 10")
      end
  | _ => Raise (TypeError "int() argument must be a string or a real number")
  end.

(** [float(v)] *)
Definition py_float (v : json) : outcome Q :=
  match v with
  | JInt z => Ret (inject_Z z)
  | JBool b => Ret (if b then 1 else 0)%Q
  | JFloat q => Ret q
  | JStr s =>
      match str_to_float E s with
      | Some q => Ret q
      | None => Raise (ValueError "could not convert string to float")
      end
  | _ => Raise (TypeError "float() argument must be a string or a real number")
  end.

(** [f"{v}"] *)
Definition py_format (v : json) : pystr :=
  match v with
  | JStr s => s
  | _ => py_repr E v
  end.

(** [hash(v)]: lists and dictionaries are unhashable. *)
Definition hash_of (v : json) : outcome Z :=
  match v with
  | JArr _ => Raise (TypeError "unhashable type: 'list'")
  | JObj _ => Raise (TypeError "unhashable type: 'dict'")
  | _ => Ret (py_hash E v)
  end.

(** The body of the [while True] loop of [listen_and_process], the same
    in the three workers up to the queue and the [process_event] called. *)
Definition listen_iteration (worker_type : pystr) (process_event : json -> M json)
  : M unit :=
  fun w =>
    match (result <- redis_brpop ("events:" +++ worker_type) ;;
           match result with
           | None => mret tt
           | Some event_json =>
               match json_loads E event_json with
               | None => mraise (JSONDecodeError "Expecting value")
               | Some event_data =>
                   processed_result <- process_event event_data ;;
                   _ <- lift (py_contains processed_result "error") ;;
                   mret tt
               end
           end) w with
    | (Ret _, w') => (Ret tt, w')
    | (Raise (JSONDecodeError _), w') => (Ret tt, w')
    | (Raise _, w') => sleep 5 w'
    end.

End Services.

(** ** workers/lead_scoring_worker.py *)

Module Lead.
Section Worker.
Variable E : env.

Definition worker_type : pystr := "lead_scoring".

Definition validate_event (event_data : json) : outcome bool :=
  let required_fields := ["name"; "email"] in
  py_all
    (fun field =>
       present <~ py_contains event_data field ;;
       if present then v <~ py_getitem event_data field ;; Ret (truthy v)
       else Ret false)
    required_fields.

(** The score and category of the rule-based scorer, before they are
    written into its report. *)
Definition fallback_score (data : json) : outcome (Z * pystr) :=
  let score := 50 in
  email_v <~ py_get data "email" (JStr "") ;;
  email <~ py_lower E email_v ;;
  let score :=
    if any_in ["gmail.com"; "yahoo.com"; "hotmail.com"] email then score - 10
    else if any_in [".edu"; ".gov"; ".org"] email then score + 15
    else score + 5 in
  size_v <~ py_get data "company_size" (JStr "") ;;
  company_size <~ py_lower E size_v ;;
  let score :=
    if str_contains "enterprise" company_size || str_contains "1000+" company_size
    then score + 20
    else if str_contains "medium" company_size || str_contains "100-1000" company_size
    then score + 10
    else score in
  title_v <~ py_get data "title" (JStr "") ;;
  title <~ py_lower E title_v ;;
  let score :=
    if any_in ["ceo"; "cto"; "vp"; "director"; "manager"] title then score + 15
    else score in
  source_v <~ py_get data "source" (JStr "") ;;
  source <~ py_lower E source_v ;;
  let score :=
    if one_of ["referral"; "linkedin"; "conference"] source then score + 10
    else if one_of ["cold_email"; "advertisement"] source then score - 5
    else score in
  let score := Z.max 0 (Z.min 100 score) in
  let category : pystr :=
    if score >=? 80 then "hot" else if score >=? 60 then "warm" else "cold" in
  Ret (score, category).

Definition fallback_report (score : Z) (category : pystr) : json :=
  JObj [ ("score", JInt score);
         ("category", JStr category);
         ("reasoning",
           JStr ("Rule-based scoring: " +++ str_of_Z score +++
                 "/100 based on email domain, company size, title, and source"));
         ("strengths", jstrs ["Automated scoring available" : pystr]);
         ("concerns", jstrs ["AI analysis unavailable" : pystr]);
         ("next_actions",
           jstrs ["Follow up within 24 hours" : pystr; "Qualify budget and timeline" : pystr])
       ].

Definition fallback_scoring (data : json) : outcome pystr :=
  sc <~ fallback_score data ;;
  Ret (json_dumps E (fallback_report (fst sc) (snd sc))).

(** The prompt is a function of [data] and the model name; the service is
    handed [data] itself. *)
Definition analyze_lead_with_ai (data : json) : M (option pystr) :=
  try_except (ai_chat E data)
    (fun _ => s <- lift (fallback_scoring data) ;; mret (Some s)).

Definition score_pattern : string :=
  String (ascii_of_nat 34) "score" ++ String (ascii_of_nat 34) ":\s*(\d+)".

Definition extract_score_from_analysis (ai_analysis : option pystr) : outcome Z :=
  let parsed :=
    match ai_analysis with
    | None => Raise (TypeError "the JSON object must be str, bytes or bytearray")
    | Some text =>
        match json_loads E text with
        | None => Raise (JSONDecodeError "Expecting value")
        | Some analysis_data =>
            v <~ py_get analysis_data "score" (JInt 50) ;; py_int E v
        end
    end in
  match parsed with
  | Ret score => Ret score
  | Raise _ =>
      match ai_analysis with
      | None => Raise (TypeError "expected string or bytes-like object")
      | Some text =>
          match re_search_group E score_pattern text with
          | Some digits => py_int E (JStr digits)
          | None => Ret 50
          end
      end
  end.

Definition categorize_lead (score : Z) : pystr :=
  if score >=? 80 then "hot"
  else if score >=? 60 then "warm"
  else "cold".

Definition get_recommendations (category : pystr) (score : Z) : list pystr :=
  if str_eqb category "hot" then
    [ "Contact within 1 hour" : pystr; "Schedule demo call" : pystr;
      "Send personalized proposal" : pystr; "Assign to senior sales rep" : pystr ]
  else if str_eqb category "warm" then
    [ "Follow up within 24 hours" : pystr; "Send relevant case studies" : pystr;
      "Schedule discovery call" : pystr; "Add to nurture campaign" : pystr ]
  else
    [ "Add to long-term nurture sequence" : pystr; "Send educational content" : pystr;
      "Follow up in 1 week" : pystr; "Qualify budget and timeline" : pystr ].

(** The value returned ([True]/[False]) is never looked at by a caller. *)
Definition save_to_database (data : json) : M bool :=
  try_except
    (id <- lift (py_getitem data "id") ;;
     let key := "processed:" +++ worker_type +++ ":" +++ py_format E id in
     redis_setex E key 3600 (json_dumps E data) ;;
     db_session E ;;
     mret true)
    (fun _ => mret false).

Definition update_graph_relationships (data : json) : M unit :=
  try_except
    (original_data <- lift (py_get data "original_data" (JObj [])) ;;
     id <- lift (py_getitem data "id") ;;
     name <- lift (py_get original_data "name" (JStr "")) ;;
     email <- lift (py_get original_data "email" (JStr "")) ;;
     company <- lift (py_get original_data "company" (JStr "")) ;;
     score <- lift (py_get data "lead_score" (JInt 0)) ;;
     category <- lift (py_get data "category" (JStr "")) ;;
     processed_at <- lift (py_getitem data "processed_at") ;;
     user_id <- lift (py_get data "processed_by" (JInt 0)) ;;
     neo4j_execute E
       [ ("lead_id", id); ("name", name); ("email", email); ("company", company);
         ("score", score); ("category", category); ("processed_at", processed_at);
         ("user_id", user_id) ])
    (fun _ => mret tt).

Definition analysis_json (a : option pystr) : json :=
  match a with Some s => JStr s | None => JNull end.

(** The [try] block of [process_event]. *)
Definition process_body (event_data : json) : M json :=
  data <- lift (py_getitem event_data "data") ;;
  user_id <- lift (py_get event_data "user_id" JNull) ;;
  valid <- lift (validate_event data) ;;
  if negb valid then mraise (ValueError "Invalid lead data: missing required fields")
  else
    ai_analysis <- analyze_lead_with_ai data ;;
    lead_score <- lift (extract_score_from_analysis ai_analysis) ;;
    let category := categorize_lead lead_score in
    t_id <- now E ;;
    t_at <- now E ;;
    let processed_data :=
      JObj [ ("id", JStr ("lead_" +++ str_of_Z (unix_seconds t_id)));
             ("type", JStr "lead_scoring");
             ("original_data", data);
             ("ai_analysis", analysis_json ai_analysis);
             ("lead_score", JInt lead_score);
             ("category", JStr category);
             ("model_used", JStr (ai_model E));
             ("processed_at", JStr (isoformat t_at));
             ("processed_by", user_id);
             ("worker", JStr "lead_scoring_worker");
             ("recommendations", jstrs (get_recommendations category lead_score))
           ] in
    save_to_database processed_data ;;
    update_graph_relationships processed_data ;;
    mret processed_data.

(** The [except Exception as e] block of [process_event]. *)
Definition process_handler (event_data : json) (e : exn) : M json :=
  t_id <- now E ;;
  original_data <- lift (py_get event_data "data" (JObj [])) ;;
  t_at <- now E ;;
  let error_data :=
    JObj [ ("id", JStr ("lead_error_" +++ str_of_Z (unix_seconds t_id)));
           ("type", JStr "lead_scoring_error");
           ("error", JStr (str_of_exn e));
           ("original_data", original_data);
           ("processed_at", JStr (isoformat t_at));
           ("worker", JStr "lead_scoring_worker")
         ] in
  save_to_database error_data ;;
  mret error_data.

Definition process_event (event_data : json) : M json :=
  try_except (process_body event_data) (process_handler event_data).

Definition listen_and_process_step : M unit :=
  listen_iteration E worker_type process_event.

End Worker.
End Lead.

(** ** workers/blockchain_worker.py *)

Module Blockchain.
Section Worker.
Variable E : env.

Definition worker_type : pystr := "blockchain_events".

Definition validate_event (event_data : json) : outcome bool :=
  let required_fields := ["event_type"] in
  py_all (fun field => py_contains event_data field) required_fields.

(** [hash(collection)] is the only step of the [try] block that can
    raise. *)
Definition get_market_data (collection currency : json) : dict :=
  match hash_of E collection with
  | Ret h =>
      [ ("floor_price", py_max_fi (1 # 10) (h mod 10));
        ("volume_24h", JInt (Z.max 100 (h mod 10000)));
        ("trend",
          JStr (nth (Z.to_nat (h mod 3))
                  ["bullish" : pystr; "bearish" : pystr; "neutral" : pystr] []));
        ("holders", JInt (Z.max 100 (h mod 5000)));
        ("total_supply", JInt (Z.max 1000 (h mod 10000))) ]
  | Raise _ =>
      [ ("floor_price", JInt 0); ("volume_24h", JInt 0); ("trend", JStr "neutral") ]
  end.

(** [token[:8]] and [token[:4].upper()] are defined on a string only; on
    anything else one of them raises and the fallback is returned. *)
Definition get_token_info (token : json) : dict :=
  match token with
  | JStr t =>
      let h := py_hash E token in
      [ ("name", JStr ("Token " +++ firstn 8 t));
        ("symbol", JStr (str_upper E (firstn 4 t)));
        ("price_usd", JFloat (Qmax (1 # 100) (inject_Z (h mod 1000) / 100)));
        ("market_cap", JInt (Z.max 1000000 (h mod 100000000)));
        ("volume_24h", JInt (Z.max 10000 (h mod 1000000))) ]
  | _ =>
      [ ("name", JStr "Unknown"); ("symbol", JStr "UNK"); ("price_usd", JInt 0) ]
  end.

Definition get_transaction_details (signature : json) : M dict :=
  try_except
    (h <- lift (hash_of E signature) ;;
     t <- now E ;;
     mret [ ("block_height", JInt (h mod 1000000));
            ("timestamp", JStr (isoformat t));
            ("fee", JFloat (inject_Z (h mod 100) / 1000000));
            ("status", JStr "confirmed") ])
    (fun _ => mret [ ("status", JStr "unknown") ]).

Definition categorize_price (premium_percentage : Q) : pystr :=
  if Qltb 50 premium_percentage then "premium"
  else if Qltb 0 premium_percentage then "above_floor"
  else if Qltb (-20) premium_percentage then "near_floor"
  else "below_floor".

Definition categorize_swap_size (usd_value : Q) : pystr :=
  if Qltb 100000 usd_value then "whale"
  else if Qltb 10000 usd_value then "large"
  else if Qltb 1000 usd_value then "medium"
  else "small".

Definition analyze_transfer_pattern (from_addr to_addr : json) (amount : Q)
  : outcome dict :=
  let amount_category : pystr :=
    if Qltb 1000 amount then "large" else if Qltb 100 amount then "medium" else "small" in
  pair <~ py_add from_addr to_addr ;;
  h <~ hash_of E pair ;;
  Ret [ ("transfer_type", JStr "peer_to_peer");
        ("amount_category", JStr amount_category);
        ("risk_score", JInt (Z.min 100 (Z.max 0 (h mod 100))));
        ("pattern", JStr "normal") ].

Definition generate_nft_insights (price floor_price premium : Q) : list pystr :=
  (if Qltb 100 premium then ["Exceptional premium sale - potential rare trait" : pystr]
   else if Qltb 50 premium then ["High premium sale - strong buyer interest" : pystr]
   else if Qltb premium (-10) then ["Below floor sale - potential distressed seller" : pystr]
   else []) ++
  (if Qltb 10 price then ["High-value transaction - monitor for market impact" : pystr]
   else []).

Definition generate_transfer_insights (amount usd_value : Q) (analysis : dict)
  : outcome (list pystr) :=
  risk <~ py_num (dict_get analysis "risk_score" (JInt 0)) ;;
  Ret ((if Qltb 100000 usd_value
        then ["Large transfer detected - potential whale movement" : pystr] else []) ++
       (if Qltb 80 risk
        then ["High risk transfer - review for compliance" : pystr] else [])).

Definition generate_swap_insights (usd_value slippage : Q) (dex : json) : list pystr :=
  (if Qltb 5 slippage
   then ["High slippage detected - large trade or low liquidity" : pystr] else []) ++
  (if Qltb 50000 usd_value
   then ["Large swap - potential market impact" : pystr] else []).

(** Lines 113-116 of [process_nft_sale]. *)
Definition premium_of (price floor_price : Q) : outcome Q :=
  if Qltb 0 floor_price then
    r <~ py_truediv (price - floor_price) floor_price ;; Ret (r * 100)%Q
  else Ret 0%Q.

(** The [try] block of [process_nft_sale]. *)
Definition nft_sale_body (data : json) : M dict :=
  collection <- lift (py_get data "collection" (JStr "Unknown")) ;;
  token_id <- lift (py_get data "token_id" (JStr "Unknown")) ;;
  price_v <- lift (py_get data "price" (JInt 0)) ;;
  price <- lift (py_float E price_v) ;;
  currency <- lift (py_get data "currency" (JStr "SOL")) ;;
  buyer <- lift (py_get data "buyer" (JStr "Unknown")) ;;
  seller <- lift (py_get data "seller" (JStr "Unknown")) ;;
  signature <- lift (py_get data "signature" (JStr "")) ;;
  let market_data := get_market_data collection currency in
  transaction_details <-
    (if truthy signature then get_transaction_details signature else mret []) ;;
  floor_price <- lift (py_num (dict_get market_data "floor_price" (JInt 0))) ;;
  premium_percentage <- lift (premium_of price floor_price) ;;
  t <- now E ;;
  mret [ ("sale_id", JStr ("nft_sale_" +++ str_of_Z (unix_seconds t)));
         ("collection", collection);
         ("token_id", token_id);
         ("price", JFloat price);
         ("currency", currency);
         ("buyer", buyer);
         ("seller", seller);
         ("signature", signature);
         ("transaction_details", JObj transaction_details);
         ("market_data", JObj market_data);
         ("analysis",
           JObj [ ("floor_price", dict_get market_data "floor_price" (JInt 0));
                  ("premium_percentage", JFloat (py_round 2 premium_percentage));
                  ("price_category", JStr (categorize_price premium_percentage));
                  ("market_trend", dict_get market_data "trend" (JStr "neutral"));
                  ("volume_24h", dict_get market_data "volume_24h" (JInt 0)) ]);
         ("insights",
           jstrs (generate_nft_insights price floor_price premium_percentage)) ].

Definition process_nft_sale (data : json) : M dict :=
  try_except (nft_sale_body data)
    (fun e =>
       t <- now E ;;
       collection <- lift (py_get data "collection" (JStr "Unknown")) ;;
       price <- lift (py_get data "price" (JInt 0)) ;;
       mret [ ("sale_id", JStr ("nft_sale_error_" +++ str_of_Z (unix_seconds t)));
              ("error", JStr (str_of_exn e));
              ("collection", collection);
              ("price", price) ]).

(** The [try] block of [process_token_transfer]. *)
Definition token_transfer_body (data : json) : M dict :=
  from_address <- lift (py_get data "from" (JStr "Unknown")) ;;
  to_address <- lift (py_get data "to" (JStr "Unknown")) ;;
  amount_v <- lift (py_get data "amount" (JInt 0)) ;;
  amount <- lift (py_float E amount_v) ;;
  token <- lift (py_get data "token" (JStr "Unknown")) ;;
  signature <- lift (py_get data "signature" (JStr "")) ;;
  let token_info := get_token_info token in
  usd_value <-
    lift (if truthy (dict_get token_info "price_usd" JNull) then
            p <~ py_getitem (JObj token_info) "price_usd" ;;
            p <~ py_num p ;; Ret (amount * p)%Q
          else Ret 0%Q) ;;
  transfer_analysis <- lift (analyze_transfer_pattern from_address to_address amount) ;;
  t <- now E ;;
  insights <- lift (generate_transfer_insights amount usd_value transfer_analysis) ;;
  mret [ ("transfer_id", JStr ("token_transfer_" +++ str_of_Z (unix_seconds t)));
         ("from_address", from_address);
         ("to_address", to_address);
         ("amount", JFloat amount);
         ("token", token);
         ("signature", signature);
         ("token_info", JObj token_info);
         ("usd_value", JFloat (py_round 2 usd_value));
         ("analysis", JObj transfer_analysis);
         ("insights", jstrs insights) ].

Definition process_token_transfer (data : json) : M dict :=
  try_except (token_transfer_body data)
    (fun e =>
       t <- now E ;;
       token <- lift (py_get data "token" (JStr "Unknown")) ;;
       amount <- lift (py_get data "amount" (JInt 0)) ;;
       mret [ ("transfer_id",
                JStr ("token_transfer_error_" +++ str_of_Z (unix_seconds t)));
              ("error", JStr (str_of_exn e));
              ("token", token);
              ("amount", amount) ]).

(** The [try] block of [process_defi_swap]. *)
Definition defi_swap_body (data : json) : M dict :=
  user_address <- lift (py_get data "user" (JStr "Unknown")) ;;
  token_in <- lift (py_get data "token_in" (JStr "Unknown")) ;;
  token_out <- lift (py_get data "token_out" (JStr "Unknown")) ;;
  amount_in_v <- lift (py_get data "amount_in" (JInt 0)) ;;
  amount_in <- lift (py_float E amount_in_v) ;;
  amount_out_v <- lift (py_get data "amount_out" (JInt 0)) ;;
  amount_out <- lift (py_float E amount_out_v) ;;
  dex <- lift (py_get data "dex" (JStr "Unknown")) ;;
  let token_in_info := get_token_info token_in in
  let token_out_info := get_token_info token_out in
  price_in <- lift (py_num (dict_get token_in_info "price_usd" (JInt 0))) ;;
  let usd_value_in := (amount_in * price_in)%Q in
  price_out <- lift (py_num (dict_get token_out_info "price_usd" (JInt 0))) ;;
  let usd_value_out := (amount_out * price_out)%Q in
  slippage <-
    lift (if Qltb 0 usd_value_in then
            r <~ py_truediv (usd_value_in - usd_value_out) usd_value_in ;;
            Ret (r * 100)%Q
          else Ret 0%Q) ;;
  t <- now E ;;
  mret [ ("swap_id", JStr ("defi_swap_" +++ str_of_Z (unix_seconds t)));
         ("user_address", user_address);
         ("token_in", token_in);
         ("token_out", token_out);
         ("amount_in", JFloat amount_in);
         ("amount_out", JFloat amount_out);
         ("dex", dex);
         ("token_in_info", JObj token_in_info);
         ("token_out_info", JObj token_out_info);
         ("analysis",
           JObj [ ("usd_value_in", JFloat (py_round 2 usd_value_in));
                  ("usd_value_out", JFloat (py_round 2 usd_value_out));
                  ("slippage_percentage", JFloat (py_round 2 slippage));
                  ("swap_category", JStr (categorize_swap_size usd_value_in)) ]);
         ("insights", jstrs (generate_swap_insights usd_value_in slippage dex)) ].

Definition process_defi_swap (data : json) : M dict :=
  try_except (defi_swap_body data)
    (fun e =>
       t <- now E ;;
       dex <- lift (py_get data "dex" (JStr "Unknown")) ;;
       mret [ ("swap_id", JStr ("defi_swap_error_" +++ str_of_Z (unix_seconds t)));
              ("error", JStr (str_of_exn e));
              ("dex", dex) ]).

Definition save_to_database (data : json) : M bool :=
  try_except
    (id <- lift (py_getitem data "id") ;;
     let key := "processed:" +++ worker_type +++ ":" +++ py_format E id in
     redis_setex E key 3600 (json_dumps E data) ;;
     mret true)
    (fun _ => mret false).

Definition update_graph_relationships (data : json) : M unit :=
  try_except
    (id <- lift (py_getitem data "id") ;;
     type <- lift (py_get data "type" (JStr "blockchain_event")) ;;
     processed_at <- lift (py_getitem data "processed_at") ;;
     user_id <- lift (py_get data "processed_by" (JInt 0)) ;;
     neo4j_execute E
       [ ("event_id", id); ("event_type", type); ("processed_at", processed_at);
         ("data", JStr (json_dumps E data)); ("user_id", user_id) ])
    (fun _ => mret tt).

(** The [try] block of [process_event]. *)
Definition process_body (event_data : json) : M json :=
  data <- lift (py_getitem event_data "data") ;;
  user_id <- lift (py_get event_data "user_id" JNull) ;;
  valid <- lift (validate_event data) ;;
  if negb valid then mraise (ValueError "Invalid blockchain event data")
  else
    event_type <- lift (py_get data "event_type" (JStr "unknown")) ;;
    processed <-
      (if py_eq_str event_type "nft_sale" then process_nft_sale data
       else if py_eq_str event_type "token_transfer" then process_token_transfer data
       else if py_eq_str event_type "defi_swap" then process_defi_swap data
       else mraise (ValueError ("Unknown blockchain event type: " +++
                                py_format E event_type))) ;;
    t_id <- now E ;;
    t_at <- now E ;;
    let processed_data :=
      JObj (dict_update processed
              [ ("id", JStr ("blockchain_" +++ str_of_Z (unix_seconds t_id)));
                ("type", JStr "blockchain_event");
                ("original_data", data);
                ("processed_at", JStr (isoformat t_at));
                ("processed_by", user_id);
                ("worker", JStr "blockchain_worker") ]) in
    save_to_database processed_data ;;
    update_graph_relationships processed_data ;;
    mret processed_data.

(** The [except Exception as e] block of [process_event]. *)
Definition process_handler (event_data : json) (e : exn) : M json :=
  t_id <- now E ;;
  original_data <- lift (py_get event_data "data" (JObj [])) ;;
  t_at <- now E ;;
  let error_data :=
    JObj [ ("id", JStr ("blockchain_error_" +++ str_of_Z (unix_seconds t_id)));
           ("type", JStr "blockchain_error");
           ("error", JStr (str_of_exn e));
           ("original_data", original_data);
           ("processed_at", JStr (isoformat t_at));
           ("worker", JStr "blockchain_worker") ] in
  save_to_database error_data ;;
  mret error_data.

Definition process_event (event_data : json) : M json :=
  try_except (process_body event_data) (process_handler event_data).

Definition listen_and_process_step : M unit :=
  listen_iteration E worker_type process_event.

End Worker.
End Blockchain.

(** ** workers/chat_analysis_worker.py *)

Module Chat.

Record sentiment := {
  s_score : Q;
  s_label : pystr;
  s_confidence : Q;
  s_positive_words : nat;
  s_negative_words : nat;
  s_positive_matches : list pystr;
  s_negative_matches : list pystr
}.

Record toxicity := {
  t_is_toxic : bool;
  t_score : Q;
  t_level : pystr;
  t_confidence : Q;
  t_toxic_words : list pystr;
  t_categories : list pystr
}.

Record spam := {
  sp_is_spam : bool;
  sp_score : Q;
  sp_confidence : Q;
  sp_indicators : list pystr;
  sp_risk_level : pystr
}.

Definition positive_words : list string :=
  [ "good"; "great"; "awesome"; "amazing"; "excellent"; "fantastic";
    "wonderful"; "brilliant"; "outstanding"; "superb"; "perfect";
    "love"; "like"; "enjoy"; "happy"; "excited"; "thrilled";
    "bullish"; "moon"; "rocket"; "gem"; "diamond"; "hands";
    "hodl"; "buy"; "pump"; "green"; "profit"; "gains";
    "best"; "top"; "winner"; "success"; "victory"; "champion";
    "positive"; "optimistic"; "confident"; "strong"; "solid";
    "thank"; "thanks"; "grateful"; "appreciate"; "blessed" ].

Definition negative_words : list string :=
  [ "bad"; "terrible"; "awful"; "horrible"; "disgusting"; "hate";
    "dislike"; "angry"; "mad"; "furious"; "disappointed"; "sad";
    "bearish"; "dump"; "crash"; "red"; "loss"; "losses";
    "scam"; "fraud"; "fake"; "lie"; "lying"; "cheat";
    "worst"; "bottom"; "loser"; "failure"; "defeat"; "disaster";
    "negative"; "pessimistic"; "worried"; "concerned"; "afraid";
    "panic"; "fear"; "scared"; "anxious"; "stressed"; "broken" ].

Definition toxic_words : list string :=
  [ "spam"; "scam"; "fraud"; "fake"; "bot"; "shill";
    "pump"; "dump"; "rugpull"; "ponzi"; "pyramid";
    "hate"; "toxic"; "troll"; "fud"; "manipulation";
    "stupid"; "idiot"; "moron"; "dumb"; "retard";
    "kill"; "die"; "death"; "suicide"; "harm" ].

Definition spam_patterns : list string :=
  [ "(?i)click\s+here";
    "(?i)free\s+money";
    "(?i)guaranteed\s+profit";
    "(?i)100%\s+returns?";
    "(?i)risk\s+free";
    "(?i)limited\s+time";
    "(?i)act\s+now";
    "(?i)dm\s+me";
    "(?i)private\s+message";
    "https?://[^\s]+";
    "(?i)telegram\.me";
    "(?i)whatsapp\.com" ].

Definition stop_words : list string :=
  [ "the"; "a"; "an"; "and"; "or"; "but"; "in"; "on"; "at"; "to"; "for";
    "of"; "with"; "by"; "is"; "are"; "was"; "were"; "be"; "been"; "being";
    "have"; "has"; "had"; "do"; "does"; "did"; "will"; "would"; "could";
    "should"; "may"; "might"; "must"; "can"; "this"; "that"; "these"; "those" ].

(** The character class of [calculate_engagement_score]'s emoji pattern. *)
Definition is_emoji (c : N) : bool :=
  ((0x1F600 <=? c) && (c <=? 0x1F64F) || (0x1F300 <=? c) && (c <=? 0x1F5FF) ||
   (0x1F680 <=? c) && (c <=? 0x1F6FF) || (0x1F1E0 <=? c) && (c <=? 0x1F1FF))%N.

Section Worker.
Variable E : env.

Definition worker_type : pystr := "chat_analysis".

(** [re.findall(r'\b\w+\b', s)]: the maximal runs of word characters.
    [cur] is the run being read, last character first. *)
Fixpoint word_runs (s : pystr) (cur : pystr) : list pystr :=
  match s with
  | [] => match cur with [] => [] | _ => [rev cur] end
  | c :: s' =>
      if is_word E c then word_runs s' (c :: cur)
      else match cur with
           | [] => word_runs s' []
           | _ => rev cur :: word_runs s' []
           end
  end.

Definition tokenize_message (message : pystr) : list pystr :=
  word_runs (str_lower E message) [].

(** [re.findall(tag + r'(\w+)', s)] for a one-character [tag] that is not
    a word character: the run of word characters after each [tag] that
    has one. [cur] is [None] outside a match, and inside one the run read
    so far, last character first. *)
Fixpoint tagged_runs (tag : N) (s : pystr) (cur : option pystr) : list pystr :=
  let emit :=
    match cur with
    | Some (c :: r) => [rev (c :: r)]
    | _ => []
    end in
  match s with
  | [] => emit
  | c :: s' =>
      match cur with
      | Some r =>
          if is_word E c then tagged_runs tag s' (Some (c :: r))
          else emit ++ tagged_runs tag s' (if N.eqb c tag then Some [] else None)
      | None => tagged_runs tag s' (if N.eqb c tag then Some [] else None)
      end
  end.

Definition words_in (set : list string) (words : list pystr) : list pystr :=
  filter (one_of set) words.

(** Lines 174-187 of [analyze_sentiment]: the score and its label. *)
Definition sentiment_score (positive_count negative_count word_count : nat)
  : outcome (Q * pystr) :=
  let total_sentiment_words := (positive_count + negative_count)%nat in
  if (total_sentiment_words =? 0)%nat then Ret (0%Q, "neutral" : pystr)
  else
    score <~ py_truediv (inject_Z (Z.of_nat positive_count - Z.of_nat negative_count))
                        (Qnat word_count) ;;
    let score := Qmax (-1) (Qmin 1 score) in
    let label : pystr :=
      if Qltb (1 # 10) score then "positive"
      else if Qltb score (- (1 # 10)) then "negative"
      else "neutral" in
    Ret (score, label).

Definition analyze_sentiment (message : pystr) : outcome sentiment :=
  let words := tokenize_message message in
  let positive_count := List.length (words_in positive_words words) in
  let negative_count := List.length (words_in negative_words words) in
  let total_sentiment_words := (positive_count + negative_count)%nat in
  sl <~ sentiment_score positive_count negative_count (List.length words) ;;
  density <~ py_truediv (Qnat total_sentiment_words)
                        (Qnat (Nat.max 1 (List.length words))) ;;
  let confidence := Qmin 1 density in
  Ret {| s_score := py_round 3 (fst sl);
         s_label := snd sl;
         s_confidence := py_round 3 confidence;
         s_positive_words := positive_count;
         s_negative_words := negative_count;
         s_positive_matches := words_in positive_words words;
         s_negative_matches := words_in negative_words words |}.

Definition categorize_toxicity (toxic : list pystr) : list pystr :=
  let hate_words := ["hate"; "toxic"; "stupid"; "idiot"; "moron"; "dumb"] in
  let spam_words := ["spam"; "scam"; "fraud"; "fake"; "bot"; "shill"] in
  let threat_words := ["kill"; "die"; "death"; "suicide"; "harm"] in
  (if existsb (one_of hate_words) toxic then ["hate_speech" : pystr] else []) ++
  (if existsb (one_of spam_words) toxic then ["spam" : pystr] else []) ++
  (if existsb (one_of threat_words) toxic then ["threats" : pystr] else []).

(** Line 212 of [detect_toxicity]. *)
Definition toxicity_score (toxic_count word_count : nat) : outcome Q :=
  r <~ py_truediv (Qnat toxic_count) (Qnat (Nat.max 1 word_count)) ;;
  Ret (Qmin 1 (r * 10)).

Definition detect_toxicity (message : pystr) : outcome toxicity :=
  let words := tokenize_message message in
  let toxic_matches := words_in toxic_words words in
  let toxic_count := List.length toxic_matches in
  score <~ toxicity_score toxic_count (List.length words) ;;
  let level : pystr :=
    if Qltb (7 # 10) score then "high"
    else if Qltb (3 # 10) score then "medium"
    else if Qltb 0 score then "low"
    else "none" in
  let is_toxic := Qltb (3 # 10) score in
  r <~ py_truediv (Qnat toxic_count) (Qnat (Nat.max 1 (List.length words))) ;;
  Ret {| t_is_toxic := is_toxic;
         t_score := py_round 3 score;
         t_level := level;
         t_confidence := Qmin 1 (r * 5);
         t_toxic_words := toxic_matches;
         t_categories := categorize_toxicity toxic_matches |}.

(** Lines 237-252 of [detect_spam]: the indicators found. *)
Definition spam_indicators (message : pystr) : outcome (list pystr) :=
  let by_pattern := map cps (filter (fun p => re_search E p message) spam_patterns) in
  let too_long :=
    if (500 <? List.length message)%nat then ["excessive_length" : pystr] else [] in
  let shouting :=
    if (5 <? str_count 33 message)%nat then ["excessive_punctuation" : pystr] else [] in
  diversity <~ py_truediv
                 (Qnat (List.length (uniq_by N.eqb (str_lower E message) [])))
                 (Qnat (Nat.max 1 (List.length message))) ;;
  let monotonous :=
    if Qltb diversity (3 # 10) then ["low_diversity" : pystr] else [] in
  Ret (by_pattern ++ too_long ++ shouting ++ monotonous).

(** Line 255 of [detect_spam]. *)
Definition spam_score (indicator_count : nat) : Q :=
  Qmin 1 (Qnat indicator_count / 5).

Definition detect_spam (message : pystr) : outcome spam :=
  indicators <~ spam_indicators message ;;
  let score := spam_score (List.length indicators) in
  Ret {| sp_is_spam := Qltb (1 # 2) score;
         sp_score := py_round 3 score;
         sp_confidence := Qmin 1 (Qnat (List.length indicators) / 3);
         sp_indicators := indicators;
         sp_risk_level :=
           if Qltb (7 # 10) score then "high"
           else if Qltb (3 # 10) score then "medium"
           else "low" |}.

Definition extract_keywords (message : pystr) : list pystr :=
  let words := tokenize_message message in
  let keywords :=
    filter (fun w => (3 <? List.length w)%nat && negb (one_of stop_words w)) words in
  firstn 10 (uniq_by str_eqb keywords []).

Definition extract_entities (message : pystr) : dict :=
  let entities :=
    [ ("mentions", tagged_runs 64 message None);
      ("hashtags", tagged_runs 35 message None);
      ("urls", re_findall E "https?://[^\s]+" message);
      ("emails",
        re_findall E "\b[A-Za-z0-9._%+-]+@[A-Za-z0-9.-]+\.[A-Z|a-z]{2,}\b" message);
      ("phone_numbers", re_findall E "\b\d{3}[-.]?\d{3}[-.]?\d{4}\b" message);
      ("crypto_addresses",
        re_findall E "\b[13][a-km-zA-HJ-NP-Z1-9]{25,34}\b" message) ] in
  map (fun kv => (fst kv, jstrs (snd kv)))
      (filter (fun kv => match snd kv with [] => false | _ => true end) entities).

(** On a [message] that is not a string one of [len], [count] and
    [re.findall] raises. *)
Definition calculate_engagement_score (data : json) : outcome Z :=
  message_v <~ py_get data "message" (JStr "") ;;
  match message_v with
  | JStr message =>
      let score := 50 in
      let length := List.length message in
      let score :=
        if ((50 <=? length) && (length <=? 200))%nat then score + 10
        else if (500 <? length)%nat then score - 10
        else if (length <? 10)%nat then score - 5
        else score in
      let score := score + Z.min 10 (Z.of_nat (str_count 63 message) * 5) in
      let score := score + Z.min 10 (Z.of_nat (str_count 33 message) * 2) in
      let mentions := List.length (tagged_runs 64 message None) in
      let score := score + Z.min 15 (Z.of_nat mentions * 5) in
      let hashtags := List.length (tagged_runs 35 message None) in
      let score := score + Z.min 10 (Z.of_nat hashtags * 3) in
      let emojis := List.length (filter is_emoji message) in
      let score := score + Z.min 15 (Z.of_nat emojis * 3) in
      Ret (Z.max 0 (Z.min 100 score))
  | _ => Raise (TypeError "expected string or bytes-like object")
  end.

Definition detect_language (message : pystr) : outcome dict :=
  let english_words :=
    ["the"; "and"; "or"; "but"; "is"; "are"; "was"; "were"; "have"; "has"] in
  let words := tokenize_message message in
  let english_count := List.length (words_in english_words words) in
  english_ratio <~ py_truediv (Qnat english_count)
                              (Qnat (Nat.max 1 (List.length words))) ;;
  let lc : pystr * Q :=
    if Qltb (1 # 10) english_ratio then ("en" : pystr, Qmin 1 (english_ratio * 2))
    else ("unknown" : pystr, 1 # 2) in
  Ret [ ("language", JStr (fst lc)); ("confidence", JFloat (py_round 3 (snd lc))) ].

(** [re.split] on a pattern without groups returns one piece more than
    there are matches. *)
Definition get_message_stats (message : pystr) : outcome dict :=
  let words := tokenize_message message in
  avg <~ py_truediv
           (Qnat (fold_right (fun w n => (List.length w + n)%nat) 0%nat words))
           (Qnat (Nat.max 1 (List.length words))) ;;
  upper <~ py_truediv (Qnat (List.length (filter (is_upper E) message)))
                      (Qnat (Nat.max 1 (List.length message))) ;;
  Ret [ ("character_count", JInt (Z.of_nat (List.length message)));
        ("word_count", JInt (Z.of_nat (List.length words)));
        ("sentence_count",
          JInt (Z.of_nat (S (List.length (re_findall E "[.!?]+" message)))));
        ("avg_word_length", JFloat (py_round 2 avg));
        ("uppercase_ratio", JFloat (py_round 3 upper));
        ("punctuation_count",
          JInt (Z.of_nat (List.length (re_findall E "[^\w\s]" message)))) ].

Definition get_moderation_flags (tox : toxicity) (sp : spam) : dict :=
  let toxic_flags : list pystr * list pystr :=
    if t_is_toxic tox then
      (["toxic_content" : pystr],
       if str_eqb (t_level tox) "high" then ["auto_remove" : pystr]
       else ["flag_for_review" : pystr])
    else ([], []) in
  let spam_flags : list pystr * list pystr :=
    if sp_is_spam sp then (["spam_content" : pystr], ["flag_for_review" : pystr])
    else ([], []) in
  let flags := fst toxic_flags ++ fst spam_flags in
  let actions := snd toxic_flags ++ snd spam_flags in
  [ ("flags", jstrs flags);
    ("recommended_actions", jstrs actions);
    ("requires_human_review", JBool (0 <? List.length flags)%nat);
    ("auto_moderate", JBool (existsb (fun a => str_eqb a "auto_remove") actions)) ].

Definition generate_insights (sent : sentiment) (tox : toxicity) (engagement : Z)
  : list pystr :=
  (if str_eqb (s_label sent) "positive" && (70 <? engagement)
   then ["High-engagement positive message - potential viral content" : pystr]
   else []) ++
  (if str_eqb (s_label sent) "negative" && Qltb (7 # 10) (s_confidence sent)
   then ["Strong negative sentiment detected - monitor for escalation" : pystr]
   else []) ++
  (if t_is_toxic tox
   then ["Toxic content detected - requires moderation" : pystr] else []) ++
  (if 80 <? engagement
   then ["High engagement potential - consider promoting" : pystr]
   else if engagement <? 30
   then ["Low engagement - content may need improvement" : pystr]
   else []).

Definition validate_event (event_data : json) : outcome bool :=
  let required_fields := ["message"; "user"] in
  py_all
    (fun field =>
       present <~ py_contains event_data field ;;
       if present then v <~ py_getitem event_data field ;; Ret (truthy v)
       else Ret false)
    required_fields.

Definition sentiment_json (s : sentiment) : json :=
  JObj [ ("score", JFloat (s_score s));
         ("label", JStr (s_label s));
         ("confidence", JFloat (s_confidence s));
         ("positive_words", JInt (Z.of_nat (s_positive_words s)));
         ("negative_words", JInt (Z.of_nat (s_negative_words s)));
         ("details",
           JObj [ ("positive_matches", jstrs (s_positive_matches s));
                  ("negative_matches", jstrs (s_negative_matches s)) ]) ].

Definition toxicity_json (t : toxicity) : json :=
  JObj [ ("is_toxic", JBool (t_is_toxic t));
         ("score", JFloat (t_score t));
         ("level", JStr (t_level t));
         ("confidence", JFloat (t_confidence t));
         ("toxic_words", jstrs (t_toxic_words t));
         ("categories", jstrs (t_categories t)) ].

Definition spam_json (s : spam) : json :=
  JObj [ ("is_spam", JBool (sp_is_spam s));
         ("score", JFloat (sp_score s));
         ("confidence", JFloat (sp_confidence s));
         ("indicators", jstrs (sp_indicators s));
         ("risk_level", JStr (sp_risk_level s)) ].

Definition save_to_database (data : json) : M bool :=
  try_except
    (id <- lift (py_getitem data "id") ;;
     let key := "processed:" +++ worker_type +++ ":" +++ py_format E id in
     redis_setex E key 3600 (json_dumps E data) ;;
     mret true)
    (fun _ => mret false).

Definition update_graph_relationships (data : json) : M unit :=
  try_except
    (id <- lift (py_getitem data "id") ;;
     content <- lift (py_get data "message" (JStr "")) ;;
     analysis <- lift (py_get data "analysis" (JObj [])) ;;
     sent <- lift (py_get analysis "sentiment" (JObj [])) ;;
     label <- lift (py_get sent "label" (JStr "")) ;;
     analysis' <- lift (py_get data "analysis" (JObj [])) ;;
     engagement <- lift (py_get analysis' "engagement_score" (JInt 0)) ;;
     processed_at <- lift (py_getitem data "processed_at") ;;
     username <- lift (py_get data "user" (JStr "")) ;;
     channel <- lift (py_get data "channel" (JStr "")) ;;
     processor_id <- lift (py_get data "processed_by" (JInt 0)) ;;
     neo4j_execute E
       [ ("message_id", id); ("content", content); ("sentiment", label);
         ("engagement", engagement); ("processed_at", processed_at);
         ("username", username); ("channel", channel);
         ("processor_id", processor_id) ])
    (fun _ => mret tt).

(** [message.lower()], the first thing [tokenize_message] does. *)
Definition as_message (v : json) : outcome pystr :=
  match v with
  | JStr s => Ret s
  | _ => Raise (AttributeError "object has no attribute 'lower'")
  end.

(** The [try] block of [process_event]. *)
Definition process_body (event_data : json) : M json :=
  data <- lift (py_getitem event_data "data") ;;
  user_id <- lift (py_get event_data "user_id" JNull) ;;
  valid <- lift (validate_event data) ;;
  if negb valid then mraise (ValueError "Invalid chat event data")
  else
    message_v <- lift (py_get data "message" (JStr "")) ;;
    user <- lift (py_get data "user" (JStr "Unknown")) ;;
    channel <- lift (py_get data "channel" (JStr "general")) ;;
    platform <- lift (py_get data "platform" (JStr "unknown")) ;;
    message <- lift (as_message message_v) ;;
    sentiment_analysis <- lift (analyze_sentiment message) ;;
    toxicity_analysis <- lift (detect_toxicity message) ;;
    spam_analysis <- lift (detect_spam message) ;;
    let keywords := extract_keywords message in
    let entities := extract_entities message in
    engagement_score <- lift (calculate_engagement_score data) ;;
    language_info <- lift (detect_language message) ;;
    t_id <- now E ;;
    message_stats <- lift (get_message_stats message) ;;
    t_at <- now E ;;
    let processed_data :=
      JObj [ ("id", JStr ("chat_" +++ str_of_Z (unix_seconds t_id)));
             ("type", JStr "chat_analysis");
             ("original_data", data);
             ("message", message_v);
             ("user", user);
             ("channel", channel);
             ("platform", platform);
             ("analysis",
               JObj [ ("sentiment", sentiment_json sentiment_analysis);
                      ("toxicity", toxicity_json toxicity_analysis);
                      ("spam", spam_json spam_analysis);
                      ("keywords", jstrs keywords);
                      ("entities", JObj entities);
                      ("language", JObj language_info);
                      ("engagement_score", JInt engagement_score);
                      ("message_stats", JObj message_stats) ]);
             ("moderation",
               JObj (get_moderation_flags toxicity_analysis spam_analysis));
             ("insights",
               jstrs (generate_insights sentiment_analysis toxicity_analysis
                        engagement_score));
             ("processed_at", JStr (isoformat t_at));
             ("processed_by", user_id);
             ("worker", JStr "chat_analysis_worker") ] in
    save_to_database processed_data ;;
    update_graph_relationships processed_data ;;
    mret processed_data.

(** The [except Exception as e] block of [process_event]. *)
Definition process_handler (event_data : json) (e : exn) : M json :=
  t_id <- now E ;;
  original_data <- lift (py_get event_data "data" (JObj [])) ;;
  t_at <- now E ;;
  let error_data :=
    JObj [ ("id", JStr ("chat_error_" +++ str_of_Z (unix_seconds t_id)));
           ("type", JStr "chat_analysis_error");
           ("error", JStr (str_of_exn e));
           ("original_data", original_data);
           ("processed_at", JStr (isoformat t_at));
           ("worker", JStr "chat_analysis_worker") ] in
  save_to_database error_data ;;
  mret error_data.

Definition process_event (event_data : json) : M json :=
  try_except (process_body event_data) (process_handler event_data).

Definition listen_and_process_step : M unit :=
  listen_iteration E worker_type process_event.

End Worker.
End Chat.

(** ** Test doubles

    Environments at which the theorems below are instantiated. In
    [offline_env] every service answers, the AI service excepted: it is
    unreachable, so lead scoring takes the rule-based path; the queue holds
    one envelope with an empty payload. In [online_env] the AI service
    answers with a score above the range it was asked for. *)

Definition dq : string := String (ascii_of_nat 34) EmptyString.

(** The text of an envelope whose payload is empty. *)
Definition queued_item : pystr := cps ("{" ++ dq ++ "data" ++ dq ++ ": {}}").

(** The text of an AI reply with the score 150. *)
Definition overshoot_reply : pystr := cps ("{" ++ dq ++ "score" ++ dq ++ ": 150}").

Definition offline_env : env :=
  {| utcnow := fun n =>
       {| unix_seconds := 1700000000 + Z.of_nat n; isoformat := "2023-11-14T22:13:20" |};
     redis_fault := fun _ => None;
     db_fault := fun _ => None;
     neo4j_fault := fun _ => None;
     ai_completion := fun _ _ => Raise (ServiceError "Connection error.");
     brpop_reply := fun _ => Ret (Some queued_item);
     json_loads := fun s =>
       if str_eqb s queued_item then Some (JObj [("data", JObj [])])
       else if str_eqb s overshoot_reply then Some (JObj [("score", JInt 150)])
       else None;
     json_dumps := fun _ => "{}";
     str_to_int := fun _ => None;
     str_to_float := fun _ => None;
     unicode_lower := fun s => s;
     unicode_upper := fun s => s;
     unicode_word := fun _ => false;
     unicode_isupper := fun _ => false;
     py_hash := fun _ => 7;
     py_repr := fun _ => "None";
     ai_model := "anthropic/claude-3-haiku";
     re_search := fun _ _ => false;
     re_search_group := fun _ _ => None;
     re_findall := fun _ _ => [] |}.

Definition online_env : env :=
  {| utcnow := utcnow offline_env;
     redis_fault := redis_fault offline_env;
     db_fault := db_fault offline_env;
     neo4j_fault := neo4j_fault offline_env;
     ai_completion := fun _ _ => Ret (Some overshoot_reply);
     brpop_reply := brpop_reply offline_env;
     json_loads := json_loads offline_env;
     json_dumps := json_dumps offline_env;
     str_to_int := str_to_int offline_env;
     str_to_float := str_to_float offline_env;
     unicode_lower := unicode_lower offline_env;
     unicode_upper := unicode_upper offline_env;
     unicode_word := unicode_word offline_env;
     unicode_isupper := unicode_isupper offline_env;
     py_hash := py_hash offline_env;
     py_repr := py_repr offline_env;
     ai_model := ai_model offline_env;
     re_search := re_search offline_env;
     re_search_group := re_search_group offline_env;
     re_findall := re_findall offline_env |}.

Definition world0 : world := {| tick := 0; trace := [] |}.

(** * Statements

    The notions the properties are stated with: the thresholds, formulas and
    predicates of the specification, in its words, and the shapes and traces
    by which a run of [process_event] is described. *)

(** The thresholds of section 4.3: hot from 80, warm from 60, cold below. *)
Definition by_thresholds (category : pystr) (score : Z) : Prop :=
  (category = cps "hot" <-> 80 <= score) /\
  (category = cps "warm" <-> 60 <= score < 80) /\
  (category = cps "cold" <-> score < 60).

(** The adjustments of the rule-based scorer as section 4.3 lists them, on
    the lower-cased fields. *)
Definition email_adjustment (email : pystr) : Z :=
  if any_in ["gmail.com"; "yahoo.com"; "hotmail.com"] email then -10
  else if any_in [".edu"; ".gov"; ".org"] email then 15
  else 5.

Definition company_size_adjustment (company_size : pystr) : Z :=
  if str_contains "enterprise" company_size || str_contains "1000+" company_size then 20
  else if str_contains "medium" company_size || str_contains "100-1000" company_size then 10
  else 0.

Definition title_adjustment (title : pystr) : Z :=
  if any_in ["ceo"; "cto"; "vp"; "director"; "manager"] title then 15 else 0.

Definition source_adjustment (source : pystr) : Z :=
  if one_of ["referral"; "linkedin"; "conference"] source then 10
  else if one_of ["cold_email"; "advertisement"] source then -5
  else 0.

Definition rule_based_score (email company_size title source : pystr) : Z :=
  Z.max 0 (Z.min 100
    (50 + email_adjustment email + company_size_adjustment company_size +
     title_adjustment title + source_adjustment source)).

(** The lead of scenario B. *)
Definition scenario_b_lead : json :=
  JObj [ ("email", JStr "x@acmecorp.com");
         ("company_size", JStr "1000+ employees");
         ("title", JStr "VP of Sales");
         ("source", JStr "linkedin") ].

(** An envelope of the lead queue, with the lead of scenario B under a
    name. *)
Definition sample_lead_event : json :=
  JObj [ ("data",
           JObj [ ("name", JStr "Ada"); ("email", JStr "x@acmecorp.com");
                  ("company_size", JStr "1000+ employees");
                  ("title", JStr "VP of Sales"); ("source", JStr "linkedin") ]);
         ("user_id", JInt 7) ].

(** The writes to Redis a trace holds, latest first. *)
Definition setex_log (tr : list effect) : list (pystr * Z * pystr) :=
  flat_map (fun e => match e with
                     | RedisSetex k ttl v => [(k, ttl, v)]
                     | _ => []
                     end) tr.

(** A computation that writes nothing to Redis, whatever its outcome. *)
Definition quiet {A} (c : M A) : Prop :=
  forall w, setex_log (trace (snd (c w))) = setex_log (trace w).

(** The result [r] has been written once, under its own key, between the
    worlds [w] and [w']. *)
Definition persisted (E : env) (worker_type : pystr) (r : json) (w w' : world) : Prop :=
  exists id,
    py_getitem r "id" = Ret id /\
    setex_log (trace w') =
      ("processed:" +++ worker_type +++ ":" +++ py_format E id, 3600, json_dumps E r)
        :: setex_log (trace w).

(** A computation that writes the result it returns, once, and nothing when
    it raises. *)
Definition saves_result (E : env) (worker_type : pystr) (c : M json) : Prop :=
  forall w,
    match c w with
    | (Ret r, w') => persisted E worker_type r w w'
    | (Raise _, w') => setex_log (trace w') = setex_log (trace w)
    end.

(** A processed result: the id, type and worker name of a completed run. *)
Definition processed_shape (id_prefix type worker : string) (r : json) : Prop :=
  exists t_id,
    py_getitem r "id" = Ret (JStr (id_prefix +++ str_of_Z t_id)) /\
    py_getitem r "type" = Ret (JStr type) /\
    py_getitem r "worker" = Ret (JStr worker).

(** The error result of the exception [e] for an envelope. *)
Definition error_shape (id_prefix type worker : string) (envelope : dict) (e : exn)
  (r : json) : Prop :=
  exists t_id t_at,
    r = JObj [ ("id", JStr (id_prefix +++ str_of_Z (unix_seconds t_id)));
               ("type", JStr type);
               ("error", JStr (str_of_exn e));
               ("original_data", dict_get envelope "data" (JObj []));
               ("processed_at", JStr (isoformat t_at));
               ("worker", JStr worker) ].

(** What [process_event] does with an envelope: it returns [r], has written
    [r] once, and [r] is a processed result when the [try] block completed
    and the error result of the exception otherwise. *)
Definition terminal_result (E : env) (worker_type : pystr)
  (process_event process_body : json -> M json)
  (id_prefix type error_prefix error_type worker : string)
  (envelope : dict) (w : world) : Prop :=
  exists r w',
    process_event (JObj envelope) w = (Ret r, w') /\
    persisted E worker_type r w w' /\
    ((process_body (JObj envelope) w = (Ret r, w') /\
      processed_shape id_prefix type worker r) \/
     (exists e w1,
        process_body (JObj envelope) w = (Raise e, w1) /\
        error_shape error_prefix error_type worker envelope e r)).

(** The computation [c] ends in the error result with the message [msg]:
    it returns that result, and all it has done is read the clock twice and
    write the result (the lead worker then opens its relational session
    when the write went through). No request went to the AI service or to
    the graph. *)
Definition error_run (E : env) (worker_type : pystr) (c : M json)
  (error_prefix error_type worker : string) (envelope : dict) (msg : pystr)
  (w : world) : Prop :=
  let t_id := utcnow E (tick w) in
  let t_at := utcnow E (S (tick w)) in
  let id := error_prefix +++ str_of_Z (unix_seconds t_id) in
  let r := JObj [ ("id", JStr id);
                  ("type", JStr error_type);
                  ("error", JStr msg);
                  ("original_data", dict_get envelope "data" (JObj []));
                  ("processed_at", JStr (isoformat t_at));
                  ("worker", JStr worker) ] in
  exists w' extra,
    c w = (Ret r, w') /\
    trace w' =
      extra ++ [ RedisSetex ("processed:" +++ worker_type +++ ":" +++ id) 3600
                   (json_dumps E r);
                 ClockRead t_at; ClockRead t_id ] ++ trace w /\
    (extra = [] \/ extra = [DbSession]).

(** The required-field predicates of section 4.2. *)
Definition field_nonempty (payload : dict) (k : string) : bool :=
  match dict_find k payload with
  | Some v => truthy v
  | None => false
  end.

Definition lead_required (payload : dict) : bool :=
  field_nonempty payload "name" && field_nonempty payload "email".

Definition chat_required (payload : dict) : bool :=
  field_nonempty payload "message" && field_nonempty payload "user".

Definition blockchain_required (payload : dict) : bool :=
  match dict_find "event_type" payload with
  | Some _ => true
  | None => false
  end.

(** [process_event] rejects the envelope with the message [msg]. *)
Definition rejected (E : env) (worker_type : pystr) (process_event : json -> M json)
  (error_prefix error_type worker : string) (envelope : dict) (msg : pystr)
  (w : world) : Prop :=
  error_run E worker_type (process_event (JObj envelope))
    error_prefix error_type worker envelope msg w.







(** The [try] block of the sub-analyzer that [event_type] selects raises [e]
    on the payload [d]. *)
Definition sub_analyzer_fails (E : env) (d : dict) (w : world) (e : exn) : Prop :=
  (dict_find "event_type" d = Some (JStr "nft_sale") /\
   exists w1, Blockchain.nft_sale_body E (JObj d) w = (Raise e, w1)) \/
  (dict_find "event_type" d = Some (JStr "token_transfer") /\
   exists w1, Blockchain.token_transfer_body E (JObj d) w = (Raise e, w1)) \/
  (dict_find "event_type" d = Some (JStr "defi_swap") /\
   exists w1, Blockchain.defi_swap_body E (JObj d) w = (Raise e, w1)).

(** [x] clamped to the interval from [lo] to [hi]. *)
Definition clamp (lo hi x : Q) : Q :=
  if Qltb x lo then lo else if Qltb hi x then hi else x.

(** The label of a score, by the strict thresholds at 0.1 and -0.1. *)
Definition labelled (label : pystr) (score : Q) : Prop :=
  (label = cps "positive" <-> (1 # 10 < score)%Q) /\
  (label = cps "negative" <-> (score < - (1 # 10))%Q) /\
  (label = cps "neutral" <-> (- (1 # 10) <= score)%Q /\ (score <= 1 # 10)%Q).

(** The message of scenario A. *)
Definition scenario_a_message : pystr := "good great amazing!!! @alice #win".

Definition scenario_a_data : json :=
  JObj [ ("message", JStr scenario_a_message); ("user", JStr "bob") ].

(** The engagement formula of section 4.5, on the length of the message and
    its counts of question marks, exclamation marks, mentions, hashtags and
    emojis. *)
Definition engagement_formula
  (length questionmarks exclamations mentions hashtags emojis : nat) : Z :=
  let length_bonus :=
    if ((50 <=? length) && (length <=? 200))%nat then 10
    else if (500 <? length)%nat then -10
    else if (length <? 10)%nat then -5
    else 0 in
  Z.max 0 (Z.min 100
    (50 + length_bonus
     + Z.min 10 (Z.of_nat questionmarks * 5)
     + Z.min 10 (Z.of_nat exclamations * 2)
     + Z.min 15 (Z.of_nat mentions * 5)
     + Z.min 10 (Z.of_nat hashtags * 3)
     + Z.min 15 (Z.of_nat emojis * 3))).

(** Scenario A as section 8 words it, the +10 for an optimal length
    included. *)
Definition scenario_a_as_stated (E : env) : Prop :=
  (exists s, Chat.analyze_sentiment E scenario_a_message = Ret s /\
             Chat.s_label s = cps "positive") /\
  dict_find "mentions" (Chat.extract_entities E scenario_a_message)
    = Some (jstrs [cps "alice"]) /\
  dict_find "hashtags" (Chat.extract_entities E scenario_a_message)
    = Some (jstrs [cps "win"]) /\
  Chat.calculate_engagement_score E scenario_a_data = Ret (50 + 10 + 6 + 5 + 3).

(** ** Notions of the further properties

    More test doubles, and the notions in which the properties of the last
    part are stated: what the loop does with an item, what a payload is,
    the ranges and formulas the analyses keep to. *)

(** A queue that hands over, in turn, a text that is no JSON, the text of
    a JSON list and nothing, and then cannot be reached. *)
Definition broken_item : pystr := "{oops".

Definition list_item : pystr := "[]".

Definition faulty_queue_env : env :=
  {| utcnow := utcnow offline_env;
     redis_fault := redis_fault offline_env;
     db_fault := db_fault offline_env;
     neo4j_fault := neo4j_fault offline_env;
     ai_completion := ai_completion offline_env;
     brpop_reply := fun n =>
       match n with
       | 0%nat => Ret (Some broken_item)
       | 1%nat => Ret (Some list_item)
       | 2%nat => Ret None
       | _ => Raise (ServiceError "Connection refused")
       end;
     json_loads := fun s =>
       if str_eqb s list_item then Some (JArr []) else json_loads offline_env s;
     json_dumps := json_dumps offline_env;
     str_to_int := str_to_int offline_env;
     str_to_float := str_to_float offline_env;
     unicode_lower := unicode_lower offline_env;
     unicode_upper := unicode_upper offline_env;
     unicode_word := unicode_word offline_env;
     unicode_isupper := unicode_isupper offline_env;
     py_hash := py_hash offline_env;
     py_repr := py_repr offline_env;
     ai_model := ai_model offline_env;
     re_search := re_search offline_env;
     re_search_group := re_search_group offline_env;
     re_findall := re_findall offline_env |}.

(** The world after [n] interactions nobody recorded. *)
Definition world_at (n : nat) : world := {| tick := n; trace := [] |}.

(** A JSON object, the only kind of value an envelope can be. *)
Definition is_object (v : json) : bool :=
  match v with
  | JObj _ => true
  | _ => false
  end.

(** The back-offs a trace holds: the [asyncio.sleep] of the worker loop. *)
Definition backoffs (tr : list effect) : nat :=
  List.length (filter (fun e => match e with Sleep _ => true | _ => false end) tr).

(** A computation that never sleeps, whatever its outcome. *)
Definition calm {A} (c : M A) : Prop :=
  forall w, backoffs (trace (snd (c w))) = backoffs (trace w).

(** A free-text answer of the AI service that mentions its score the way
    the JSON form would. *)
Definition prose_reply : pystr :=
  cps ("I would say " ++ dq ++ "score" ++ dq ++ ": 85 for this lead").

(** The text [json.dumps] makes of the rule-based report on scenario B. *)
Definition report_text : pystr := "<report>".

(** An environment whose clock stays within one second while the AI
    service is unreachable: [json.loads] reads the rule-based report of
    scenario B back from its text, and the score pattern finds the 85 of
    [prose_reply]. *)
Definition frozen_env : env :=
  {| utcnow := fun _ =>
       {| unix_seconds := 1700000000; isoformat := "2023-11-14T22:13:20" |};
     redis_fault := redis_fault offline_env;
     db_fault := db_fault offline_env;
     neo4j_fault := neo4j_fault offline_env;
     ai_completion := ai_completion offline_env;
     brpop_reply := brpop_reply offline_env;
     json_loads := fun s =>
       if str_eqb s report_text then Some (Lead.fallback_report 100 "hot")
       else json_loads offline_env s;
     json_dumps := fun _ => report_text;
     str_to_int := fun s => if str_eqb s "85" then Some 85 else None;
     str_to_float := str_to_float offline_env;
     unicode_lower := unicode_lower offline_env;
     unicode_upper := unicode_upper offline_env;
     unicode_word := unicode_word offline_env;
     unicode_isupper := unicode_isupper offline_env;
     py_hash := py_hash offline_env;
     py_repr := py_repr offline_env;
     ai_model := ai_model offline_env;
     re_search := re_search offline_env;
     re_search_group := fun _ s => if str_eqb s prose_reply then Some (cps "85") else None;
     re_findall := re_findall offline_env |}.

(** A JSON string, the only kind of value that has [lower]. *)
Definition is_string (v : json) : bool :=
  match v with
  | JStr _ => true
  | _ => false
  end.

(** The fields the rule-based scorer lower-cases. *)
Definition scored_fields : list string := ["email"; "company_size"; "title"; "source"].

(** A lead whose company size is null. *)
Definition null_size_lead : dict :=
  [ ("name", JStr "Ada"); ("email", JStr "x@acmecorp.com"); ("company_size", JNull) ].

(** The id and type of a result [r] made at the second [s]: those of a
    processed result or those of an error result. *)
Definition stamped (id_prefix type error_prefix error_type : string) (s : Z) (r : json)
  : Prop :=
  (py_getitem r "type" = Ret (JStr type) /\
   py_getitem r "id" = Ret (JStr (id_prefix +++ str_of_Z s))) \/
  (py_getitem r "type" = Ret (JStr error_type) /\
   py_getitem r "id" = Ret (JStr (error_prefix +++ str_of_Z s))).

(** The values [hash] accepts: every JSON value but a list or an object. *)
Definition is_hashable (v : json) : bool :=
  match v with
  | JArr _ | JObj _ => false
  | _ => true
  end.

(** The slippage of a swap, from the dollar values that go in and come
    out. *)
Definition slippage_formula (usd_value_in usd_value_out : Q) : Q :=
  if Qltb 0 usd_value_in
  then ((usd_value_in - usd_value_out) / usd_value_in * 100)%Q
  else 0%Q.

(** The price the worker takes a token to have. *)
Definition token_price (E : env) (token : json) : outcome Q :=
  py_num (dict_get (Blockchain.get_token_info E token) "price_usd" (JInt 0)).

(** A transfer between two addresses, and one whose receiver is a
    number. *)
Definition sample_transfer : dict :=
  [ ("event_type", JStr "token_transfer"); ("from", JStr "alice"); ("to", JStr "bob");
    ("amount", JInt 250); ("token", JStr "SOL") ].

Definition odd_transfer : dict :=
  [ ("event_type", JStr "token_transfer"); ("from", JStr "alice"); ("to", JInt 7);
    ("amount", JInt 250) ].

(** A swap of 100 of one token for 90 of another. *)
Definition sample_swap : dict :=
  [ ("event_type", JStr "defi_swap"); ("token_in", JStr "SOL"); ("token_out", JStr "USDC");
    ("amount_in", JInt 100); ("amount_out", JInt 90); ("dex", JStr "Raydium") ].

(** [[a-z0-9_]]: what is left of the ASCII word characters once a text has
    been lower-cased. *)
Definition lower_word_char (c : N) : bool :=
  ((48 <=? c) && (c <=? 57) || (97 <=? c) && (c <=? 122) || (c =? 95))%N.

(** The insight [generate_insights] has for a score below 30. *)
Definition low_engagement_insight : pystr :=
  "Low engagement - content may need improvement".

(** A chat payload whose message is a number. *)
Definition numeric_message : dict := [ ("message", JInt 5); ("user", JStr "bob") ].

(** The keys [extract_entities] can return. *)
Definition entity_kinds : list string :=
  ["mentions"; "hashtags"; "urls"; "emails"; "phone_numbers"; "crypto_addresses"].

(** An AI service that answers without content. *)
Definition mute_env : env :=
  {| utcnow := utcnow offline_env;
     redis_fault := redis_fault offline_env;
     db_fault := db_fault offline_env;
     neo4j_fault := neo4j_fault offline_env;
     ai_completion := fun _ _ => Ret None;
     brpop_reply := brpop_reply offline_env;
     json_loads := json_loads offline_env;
     json_dumps := json_dumps offline_env;
     str_to_int := str_to_int offline_env;
     str_to_float := str_to_float offline_env;
     unicode_lower := unicode_lower offline_env;
     unicode_upper := unicode_upper offline_env;
     unicode_word := unicode_word offline_env;
     unicode_isupper := unicode_isupper offline_env;
     py_hash := py_hash offline_env;
     py_repr := py_repr offline_env;
     ai_model := ai_model offline_env;
     re_search := re_search offline_env;
     re_search_group := re_search_group offline_env;
     re_findall := re_findall offline_env |}.

(** The six keys [process_event] sets on every blockchain result. *)
Definition envelope_keys : list string :=
  ["id"; "type"; "original_data"; "processed_at"; "processed_by"; "worker"].

(** The [try] block of the sub-analyzer that [event_type] selects returns
    [sub] on the payload [d]. *)
Definition sub_analyzer_returns (E : env) (d : dict) (w : world) (sub : dict) (w1 : world)
  : Prop :=
  (dict_find "event_type" d = Some (JStr "nft_sale") /\
   Blockchain.nft_sale_body E (JObj d) w = (Ret sub, w1)) \/
  (dict_find "event_type" d = Some (JStr "token_transfer") /\
   Blockchain.token_transfer_body E (JObj d) w = (Ret sub, w1)) \/
  (dict_find "event_type" d = Some (JStr "defi_swap") /\
   Blockchain.defi_swap_body E (JObj d) w = (Ret sub, w1)).

(** An AI service that answers every lead with the score 72. *)
Definition plain_reply : pystr := cps ("{" ++ dq ++ "score" ++ dq ++ ": 72}").

Definition sober_env : env :=
  {| utcnow := utcnow offline_env;
     redis_fault := redis_fault offline_env;
     db_fault := db_fault offline_env;
     neo4j_fault := neo4j_fault offline_env;
     ai_completion := fun _ _ => Ret (Some plain_reply);
     brpop_reply := brpop_reply offline_env;
     json_loads := fun s =>
       if str_eqb s plain_reply then Some (JObj [("score", JInt 72)])
       else json_loads offline_env s;
     json_dumps := json_dumps offline_env;
     str_to_int := str_to_int offline_env;
     str_to_float := str_to_float offline_env;
     unicode_lower := unicode_lower offline_env;
     unicode_upper := unicode_upper offline_env;
     unicode_word := unicode_word offline_env;
     unicode_isupper := unicode_isupper offline_env;
     py_hash := py_hash offline_env;
     py_repr := py_repr offline_env;
     ai_model := ai_model offline_env;
     re_search := re_search offline_env;
     re_search_group := re_search_group offline_env;
     re_findall := re_findall offline_env |}.

(** * Properties *)

(** ** Arithmetic and strings *)

Lemma Qltb_lt (a b : Q) : Qltb a b = true <-> (a < b)%Q.
Proof.
  unfold Qltb. rewrite negb_true_iff.
  split; intro H.
  - apply Qnot_le_lt. intro L. apply Qle_bool_iff in L. congruence.
  - destruct (Qle_bool b a) eqn:L; [|reflexivity].
    apply Qle_bool_iff in L. exfalso. exact (Qlt_not_le _ _ H L).
Qed.

Lemma Qltb_ge (a b : Q) : Qltb a b = false <-> (b <= a)%Q.
Proof.
  unfold Qltb. rewrite negb_false_iff. apply Qle_bool_iff.
Qed.

Lemma Qmin_le_mono (c a b : Q) : (a <= b)%Q -> (Qmin c a <= Qmin c b)%Q.
Proof.
  intro H. unfold Qmin.
  destruct (Qle_bool c a) eqn:Ha, (Qle_bool c b) eqn:Hb.
  - apply Qle_refl.
  - apply Qle_bool_iff in Ha.
    assert (Hc : (c <= b)%Q) by (eapply Qle_trans; eassumption).
    apply Qle_bool_iff in Hc. congruence.
  - assert (Hn : ~ (c <= a)%Q) by (rewrite <- Qle_bool_iff; congruence).
    apply Qnot_le_lt in Hn. apply Qlt_le_weak. exact Hn.
  - exact H.
Qed.

Lemma Qnat_le (n m : nat) : (n <= m)%nat -> (Qnat n <= Qnat m)%Q.
Proof.
  intro H. unfold Qnat. rewrite <- Zle_Qle. lia.
Qed.

Lemma Qnat_max1_pos (n : nat) : (0 < Qnat (Nat.max 1 n))%Q.
Proof.
  unfold Qnat. change 0%Q with (inject_Z 0). rewrite <- Zlt_Qlt. lia.
Qed.

Lemma py_truediv_defined (a b : Q) : ~ (b == 0)%Q -> py_truediv a b = Ret (a / b)%Q.
Proof.
  intro H. unfold py_truediv.
  destruct (Qeq_bool b 0) eqn:B; [|reflexivity].
  apply Qeq_bool_iff in B. contradiction.
Qed.

Lemma py_truediv_max1 (a : Q) (n : nat) :
  py_truediv a (Qnat (Nat.max 1 n)) = Ret (a / Qnat (Nat.max 1 n))%Q.
Proof.
  apply py_truediv_defined. intro H.
  pose proof (Qnat_max1_pos n) as P. rewrite H in P. exact (Qlt_irrefl _ P).
Qed.

(** Two string literals that differ are different strings. *)
Ltac str_neq := let H := fresh in intro H; vm_compute in H; discriminate H.

(** ** The monad of effects *)

Lemma mbind_ret_inv {A B} (c : M A) (f : A -> M B) w b w' :
  mbind c f w = (Ret b, w') ->
  exists a w1, c w = (Ret a, w1) /\ f a w1 = (Ret b, w').
Proof.
  unfold mbind. destruct (c w) as [[a|e] w1]; intro H.
  - exists a, w1. split; [reflexivity | exact H].
  - discriminate H.
Qed.

Lemma lift_inv {A} (o : outcome A) w r w' : lift o w = (r, w') -> o = r /\ w' = w.
Proof. unfold lift. intro H. inversion H. split; reflexivity. Qed.

Lemma mbind_ret_step {A B} (c : M A) (f : A -> M B) w a w1 :
  c w = (Ret a, w1) -> mbind c f w = f a w1.
Proof. unfold mbind. intro H. rewrite H. reflexivity. Qed.

Lemma try_except_ret {A} (c : M A) (h : exn -> M A) w a w1 :
  c w = (Ret a, w1) -> try_except c h w = (Ret a, w1).
Proof. unfold try_except. intro H. rewrite H. reflexivity. Qed.

Lemma try_except_raise {A} (c : M A) (h : exn -> M A) w e w1 :
  c w = (Raise e, w1) -> try_except c h w = h e w1.
Proof. unfold try_except. intro H. rewrite H. reflexivity. Qed.

(** A handler that always returns makes the whole [try] return. *)
Lemma try_except_total {A} (c : M A) (h : exn -> M A) :
  (forall e w, exists a w', h e w = (Ret a, w')) ->
  forall w, exists a w', try_except c h w = (Ret a, w').
Proof.
  intros H w. unfold try_except.
  destruct (c w) as [[a|e] w1].
  - exists a, w1. reflexivity.
  - apply H.
Qed.

(** Peels the binds of a computation known to have returned. *)
Ltac minv H :=
  repeat
    match type of H with
    | mbind _ _ _ = (Ret _, _) =>
        let a := fresh "a" in
        let w := fresh "w" in
        let Hc := fresh "Hc" in
        apply mbind_ret_inv in H; destruct H as (a & w & Hc & H);
        lazymatch type of Hc with
        | lift _ _ = _ => apply lift_inv in Hc; destruct Hc as [Hc ?]; subst w
        | _ => idtac
        end
    end.

(** ** Lead scoring *)

Lemma threshold_rule (score : Z) :
  by_thresholds
    (if score >=? 80 then cps "hot" else if score >=? 60 then cps "warm" else cps "cold")
    score.
Proof.
  unfold by_thresholds.
  destruct (Z.geb_spec score 80) as [H80|H80];
    [|destruct (Z.geb_spec score 60) as [H60|H60]];
    repeat split; intros; try lia; try reflexivity;
    match goal with
    | H : _ = _ |- _ => exfalso; revert H; str_neq
    end.
Qed.

Lemma categorize_lead_thresholds (score : Z) :
  by_thresholds (Lead.categorize_lead score) score.
Proof. apply threshold_rule. Qed.

Lemma fallback_score_thresholds E data score category :
  Lead.fallback_score E data = Ret (score, category) -> by_thresholds category score.
Proof.
  unfold Lead.fallback_score, obind.
  repeat match goal with
         | |- match ?o with Ret _ => _ | Raise _ => _ end = _ -> _ =>
             destruct o; [|discriminate]
         end.
  intro H. inversion H. apply threshold_rule.
Qed.

Lemma fallback_score_range E data score category :
  Lead.fallback_score E data = Ret (score, category) -> 0 <= score <= 100.
Proof.
  unfold Lead.fallback_score, obind.
  repeat match goal with
         | |- match ?o with Ret _ => _ | Raise _ => _ end = _ -> _ =>
             destruct o; [|discriminate]
         end.
  intro H. inversion H. lia.
Qed.

(** What [process_body] returns when it returns. *)
Lemma lead_body_result E event_data w r w' :
  Lead.process_body E event_data w = (Ret r, w') ->
  exists data user_id analysis score t_id t_at,
    r = JObj [ ("id", JStr ("lead_" +++ str_of_Z (unix_seconds t_id)));
               ("type", JStr "lead_scoring");
               ("original_data", data);
               ("ai_analysis", Lead.analysis_json analysis);
               ("lead_score", JInt score);
               ("category", JStr (Lead.categorize_lead score));
               ("model_used", JStr (ai_model E));
               ("processed_at", JStr (isoformat t_at));
               ("processed_by", user_id);
               ("worker", JStr "lead_scoring_worker");
               ("recommendations",
                 jstrs (Lead.get_recommendations (Lead.categorize_lead score) score)) ] /\
    py_getitem event_data "data" = Ret data /\
    Lead.validate_event data = Ret true /\
    Lead.extract_score_from_analysis E analysis = Ret score.
Proof.
  unfold Lead.process_body. intro H. minv H.
  destruct a1; cbn [negb] in H; [|discriminate H].
  minv H.
  unfold mret in H. injection H as Hr Hw. subst r.
  do 6 eexists. split; [reflexivity|]. repeat split; eassumption.
Qed.

Lemma lead_handler_result E event_data e w r w' :
  Lead.process_handler E event_data e w = (Ret r, w') ->
  exists original_data t_id t_at,
    r = JObj [ ("id", JStr ("lead_error_" +++ str_of_Z (unix_seconds t_id)));
               ("type", JStr "lead_scoring_error");
               ("error", JStr (str_of_exn e));
               ("original_data", original_data);
               ("processed_at", JStr (isoformat t_at));
               ("worker", JStr "lead_scoring_worker") ] /\
    py_get event_data "data" (JObj []) = Ret original_data.
Proof.
  unfold Lead.process_handler. intro H. minv H.
  unfold mret in H. injection H as Hr Hw. subst r.
  do 3 eexists. split; [reflexivity | eassumption].
Qed.

Lemma try_except_cases {A} (c : M A) (h : exn -> M A) w r w' :
  try_except c h w = (Ret r, w') ->
  c w = (Ret r, w') \/ exists e w1, c w = (Raise e, w1) /\ h e w1 = (Ret r, w').
Proof.
  unfold try_except. destruct (c w) as [[a|e] w1]; intro H.
  - left. exact H.
  - right. exists e, w1. split; [reflexivity | exact H].
Qed.

(** C2. A lead's category follows its score by the thresholds 80 and 60:
    in [categorize_lead], which decides the category of every result
    whatever path produced the score, and in the rule-based scorer's own
    report. *)
Theorem lead_category_thresholds (E : env) :
  (forall score, by_thresholds (Lead.categorize_lead score) score) /\
  (forall data score category,
     Lead.fallback_score E data = Ret (score, category) ->
     by_thresholds category score) /\
  (forall event_data w r w',
     Lead.process_event E event_data w = (Ret r, w') ->
     py_getitem r "type" = Ret (JStr "lead_scoring") ->
     exists score category,
       py_getitem r "lead_score" = Ret (JInt score) /\
       py_getitem r "category" = Ret (JStr category) /\
       by_thresholds category score).
Proof.
  split; [exact categorize_lead_thresholds|].
  split; [exact (fallback_score_thresholds E)|].
  intros event_data w r w' H T.
  apply try_except_cases in H. destruct H as [H | (e & w1 & _ & H)].
  - apply lead_body_result in H.
    destruct H as (data & uid & an & score & t1 & t2 & Hr & _).
    subst r. exists score, (Lead.categorize_lead score).
    split; [reflexivity|]. split; [reflexivity|].
    apply categorize_lead_thresholds.
  - apply lead_handler_result in H. destruct H as (o & t1 & t2 & Hr & _).
    subst r. exfalso. revert T. cbn. intro T. injection T as T.
    revert T. str_neq.
Qed.

Lemma lead_category_thresholds_witness :
  by_thresholds (cps "hot") 100 /\
  exists score category,
    py_getitem (match fst (Lead.process_event offline_env sample_lead_event world0) with
                | Ret r => r
                | Raise _ => JNull
                end) "lead_score" = Ret (JInt score) /\
    py_getitem (match fst (Lead.process_event offline_env sample_lead_event world0) with
                | Ret r => r
                | Raise _ => JNull
                end) "category" = Ret (JStr category) /\
    by_thresholds category score.
Proof.
  split.
  - apply (proj1 (proj2 (lead_category_thresholds offline_env)) scenario_b_lead).
    vm_compute. reflexivity.
  - destruct (Lead.process_event offline_env sample_lead_event world0) as [o w'] eqn:Ev.
    destruct o as [r|e]; [|vm_compute in Ev; discriminate Ev].
    apply (proj2 (proj2 (lead_category_thresholds offline_env)) sample_lead_event world0 r w' Ev).
    vm_compute in Ev. injection Ev as Er _. subst r. vm_compute. reflexivity.
Defined.



(** *** Stepping through a computation *)

Lemma bind_lift_ret {A B} (o : outcome A) (f : A -> M B) w a :
  o = Ret a -> mbind (lift o) f w = f a w.
Proof. intro H. subst o. reflexivity. Qed.

Lemma bind_lift_raise {A B} (o : outcome A) (f : A -> M B) w e :
  o = Raise e -> mbind (lift o) f w = (Raise e, w).
Proof. intro H. subst o. reflexivity. Qed.

Lemma bind_now {B} E (f : instant -> M B) w :
  mbind (now E) f w =
  f (utcnow E (tick w)) (interact (ClockRead (utcnow E (tick w))) w).
Proof. reflexivity. Qed.

Lemma lead_save_returns E d w :
  exists b w', Lead.save_to_database E d w = (Ret b, w').
Proof.
  apply try_except_total. intros e w0. exists false, w0. reflexivity.
Qed.

Lemma try_except_unit (c : M unit) w :
  exists w', try_except c (fun _ => mret tt) w = (Ret tt, w').
Proof.
  unfold try_except. destruct (c w) as [[[]|e] w1]; eexists; reflexivity.
Qed.

Lemma lead_graph_returns E d w :
  exists w', Lead.update_graph_relationships E d w = (Ret tt, w').
Proof. apply try_except_unit. Qed.

(** *** What reaches Redis *)

Lemma quiet_mret {A} (a : A) : quiet (mret a).
Proof. intro w. reflexivity. Qed.

Lemma quiet_mraise {A} (e : exn) : quiet (@mraise A e).
Proof. intro w. reflexivity. Qed.

Lemma quiet_lift {A} (o : outcome A) : quiet (lift o).
Proof. intro w. reflexivity. Qed.

Lemma quiet_bind {A B} (c : M A) (f : A -> M B) :
  quiet c -> (forall a, quiet (f a)) -> quiet (mbind c f).
Proof.
  intros Hc Hf w. unfold mbind. specialize (Hc w).
  destruct (c w) as [[a|e] w1]; cbn [snd] in *.
  - rewrite (Hf a w1). exact Hc.
  - exact Hc.
Qed.

Lemma quiet_try {A} (c : M A) (h : exn -> M A) :
  quiet c -> (forall e, quiet (h e)) -> quiet (try_except c h).
Proof.
  intros Hc Hh w. unfold try_except. specialize (Hc w).
  destruct (c w) as [[a|e] w1]; cbn [snd] in *.
  - exact Hc.
  - rewrite (Hh e w1). exact Hc.
Qed.

Lemma quiet_if {A} (b : bool) (c1 c2 : M A) :
  quiet c1 -> quiet c2 -> quiet (if b then c1 else c2).
Proof. destruct b; auto. Qed.

Lemma quiet_now E : quiet (now E).
Proof. intro w. reflexivity. Qed.

Lemma quiet_ai_chat E data : quiet (ai_chat E data).
Proof. intro w. reflexivity. Qed.

Lemma quiet_db_session E : quiet (db_session E).
Proof. intro w. reflexivity. Qed.

Lemma quiet_neo4j_execute E params : quiet (neo4j_execute E params).
Proof. intro w. reflexivity. Qed.

Create HintDb quiet.
#[export] Hint Resolve quiet_mret quiet_mraise quiet_lift quiet_now quiet_ai_chat
  quiet_db_session quiet_neo4j_execute : quiet.
#[export] Hint Extern 2 (quiet (mbind _ _)) => apply quiet_bind; [|intro] : quiet.
#[export] Hint Extern 2 (quiet (try_except _ _)) => apply quiet_try; [|intro] : quiet.
#[export] Hint Extern 2 (quiet (if _ then _ else _)) => apply quiet_if : quiet.

Ltac quiet_auto := solve [auto 40 with quiet].

Lemma saves_bind_quiet {A} E wt (c : M A) (f : A -> M json) :
  quiet c -> (forall a, saves_result E wt (f a)) -> saves_result E wt (mbind c f).
Proof.
  intros Hc Hf w. unfold mbind. specialize (Hc w).
  destruct (c w) as [[a|e] w1]; cbn [snd] in Hc.
  - specialize (Hf a w1). destruct (f a w1) as [[r|e] w2].
    + destruct Hf as (id & Hid & Hl). exists id. split; [exact Hid|].
      rewrite Hl, Hc. reflexivity.
    + rewrite Hf. exact Hc.
  - exact Hc.
Qed.

Lemma saves_mraise E wt e : saves_result E wt (mraise e).
Proof. intro w. reflexivity. Qed.

Lemma saves_if E wt (b : bool) (c1 c2 : M json) :
  saves_result E wt c1 -> saves_result E wt c2 ->
  saves_result E wt (if b then c1 else c2).
Proof. destruct b; auto. Qed.

Lemma persisted_after_quiet E wt r w w1 w' :
  setex_log (trace w1) = setex_log (trace w) ->
  persisted E wt r w1 w' -> persisted E wt r w w'.
Proof.
  intros Hq (id & Hid & Hl). exists id. split; [exact Hid|].
  rewrite Hl, Hq. reflexivity.
Qed.

Lemma error_run_result E wt c ep et wk envelope e w :
  error_run E wt c ep et wk envelope (str_of_exn e) w ->
  exists r w',
    c w = (Ret r, w') /\
    persisted E wt r w w' /\
    error_shape ep et wk envelope e r.
Proof.
  intros (w' & extra & Hc & Ht & Hx).
  do 2 eexists. split; [exact Hc|]. split.
  - eexists. split; [reflexivity|]. rewrite Ht.
    destruct Hx as [Hx|Hx]; subst extra; reflexivity.
  - do 2 eexists. reflexivity.
Qed.

(** *** The lead worker *)

Lemma quiet_analyze_lead E data : quiet (Lead.analyze_lead_with_ai E data).
Proof. unfold Lead.analyze_lead_with_ai. quiet_auto. Qed.

Lemma quiet_lead_graph E d : quiet (Lead.update_graph_relationships E d).
Proof. unfold Lead.update_graph_relationships. quiet_auto. Qed.

#[export] Hint Resolve quiet_analyze_lead quiet_lead_graph : quiet.

Lemma lead_save_persists E d id w :
  py_getitem d "id" = Ret id ->
  exists b w',
    Lead.save_to_database E d w = (Ret b, w') /\
    setex_log (trace w') =
      ("processed:" +++ Lead.worker_type +++ ":" +++ py_format E id, 3600, json_dumps E d)
        :: setex_log (trace w).
Proof.
  intro Hid. unfold Lead.save_to_database, try_except.
  rewrite (bind_lift_ret _ _ _ _ Hid).
  unfold mbind, redis_setex, db_session, mret.
  destruct (redis_fault E (tick w)); cbn [faulty].
  - do 2 eexists. split; reflexivity.
  - cbn [tick interact]. destruct (db_fault E (S (tick w))); cbn [faulty];
      do 2 eexists; split; reflexivity.
Qed.

Lemma lead_tail_saves E pd id :
  py_getitem pd "id" = Ret id ->
  saves_result E Lead.worker_type
    (Lead.save_to_database E pd ;; Lead.update_graph_relationships E pd ;; mret pd).
Proof.
  intros Hid w.
  destruct (lead_save_persists E pd id w Hid) as (b & w1 & Hs & Hl).
  rewrite (mbind_ret_step _ _ _ _ _ Hs).
  destruct (lead_graph_returns E pd w1) as (w2 & Hg).
  rewrite (mbind_ret_step _ _ _ _ _ Hg). unfold mret.
  exists id. split; [exact Hid|].
  pose proof (quiet_lead_graph E pd w1) as Hq. rewrite Hg in Hq. cbn [snd] in Hq.
  rewrite Hq. exact Hl.
Qed.

Lemma lead_body_saves E event_data :
  saves_result E Lead.worker_type (Lead.process_body E event_data).
Proof.
  unfold Lead.process_body.
  repeat (apply saves_bind_quiet; [quiet_auto | intro]).
  apply saves_if; [apply saves_mraise|].
  repeat (apply saves_bind_quiet; [quiet_auto | intro]).
  eapply lead_tail_saves. reflexivity.
Qed.

Lemma lead_save_trace E d id w :
  py_getitem d "id" = Ret id ->
  exists b w' extra,
    Lead.save_to_database E d w = (Ret b, w') /\
    trace w' =
      extra ++ RedisSetex ("processed:" +++ Lead.worker_type +++ ":" +++ py_format E id)
                 3600 (json_dumps E d) :: trace w /\
    (extra = [] \/ extra = [DbSession]).
Proof.
  intro Hid. unfold Lead.save_to_database, try_except.
  rewrite (bind_lift_ret _ _ _ _ Hid).
  unfold mbind, redis_setex, db_session, mret.
  destruct (redis_fault E (tick w)); cbn [faulty].
  - exists false. eexists. exists []. repeat split. left. reflexivity.
  - cbn [tick interact]. destruct (db_fault E (S (tick w))); cbn [faulty];
      eexists; eexists; exists [DbSession]; repeat split; right; reflexivity.
Qed.

Lemma lead_handler_run E envelope e w :
  error_run E Lead.worker_type (Lead.process_handler E (JObj envelope) e)
    "lead_error_" "lead_scoring_error" "lead_scoring_worker" envelope (str_of_exn e) w.
Proof.
  unfold error_run, Lead.process_handler.
  rewrite bind_now. cbn [py_get].
  rewrite (bind_lift_ret _ _ _ _ eq_refl). rewrite bind_now.
  match goal with
  | |- context [mbind (Lead.save_to_database E ?d) _ ?w2] =>
      destruct (lead_save_trace E d _ w2 eq_refl) as (b & w3 & extra & Hs & Ht & Hx)
  end.
  rewrite (mbind_ret_step _ _ _ _ _ Hs). unfold mret.
  exists w3, extra. split; [reflexivity|]. split; [|exact Hx].
  rewrite Ht. reflexivity.
Qed.

Lemma lead_handler_persists E envelope e w :
  exists r w',
    Lead.process_handler E (JObj envelope) e w = (Ret r, w') /\
    persisted E Lead.worker_type r w w' /\
    error_shape "lead_error_" "lead_scoring_error" "lead_scoring_worker" envelope e r.
Proof. apply error_run_result. apply lead_handler_run. Qed.

Lemma lead_terminal_result E envelope w :
  terminal_result E Lead.worker_type (Lead.process_event E) (Lead.process_body E)
    "lead_" "lead_scoring" "lead_error_" "lead_scoring_error" "lead_scoring_worker"
    envelope w.
Proof.
  unfold terminal_result, Lead.process_event.
  pose proof (lead_body_saves E (JObj envelope) w) as Hb.
  destruct (Lead.process_body E (JObj envelope) w) as [[r|e] w1] eqn:Body.
  - exists r, w1. split; [apply try_except_ret; exact Body|].
    split; [exact Hb|]. left. split; [reflexivity|].
    apply lead_body_result in Body.
    destruct Body as (data & uid & an & score & t1 & t2 & Hr & _). subst r.
    exists (unix_seconds t1). repeat split; reflexivity.
  - destruct (lead_handler_persists E envelope e w1) as (r & w' & Hh & Hp & Hs).
    exists r, w'. rewrite (try_except_raise _ _ _ _ _ Body).
    split; [exact Hh|].
    split; [exact (persisted_after_quiet _ _ _ _ _ _ Hb Hp)|].
    right. exists e, w1. split; [reflexivity | exact Hs].
Qed.

(** *** Dictionaries *)

Lemma dict_find_set_same k v d : dict_find k (dict_set k v d) = Some v.
Proof.
  induction d as [|[k' v'] d IH]; cbn.
  - rewrite String.eqb_refl. reflexivity.
  - destruct (String.eqb k k') eqn:K; cbn; rewrite ?String.eqb_refl, ?K; auto.
Qed.

Lemma dict_find_set_other k k' v d :
  String.eqb k k' = false -> dict_find k (dict_set k' v d) = dict_find k d.
Proof.
  intro K. induction d as [|[k2 v2] d IH]; cbn.
  - rewrite K. reflexivity.
  - destruct (String.eqb k' k2) eqn:K2; cbn.
    + apply String.eqb_eq in K2. subst k2. rewrite K. reflexivity.
    + destruct (String.eqb k k2); [reflexivity | exact IH].
Qed.

(** The six keys [process_event] sets on what a sub-analyzer returned. *)
Lemma blockchain_metadata (processed : dict) (id type data at_ by_ worker : json) :
  let d := dict_update processed
             [ ("id", id); ("type", type); ("original_data", data);
               ("processed_at", at_); ("processed_by", by_); ("worker", worker) ] in
  dict_find "id" d = Some id /\
  dict_find "type" d = Some type /\
  dict_find "original_data" d = Some data /\
  dict_find "processed_at" d = Some at_ /\
  dict_find "processed_by" d = Some by_ /\
  dict_find "worker" d = Some worker /\
  (forall k,
     String.eqb k "id" = false -> String.eqb k "type" = false ->
     String.eqb k "original_data" = false -> String.eqb k "processed_at" = false ->
     String.eqb k "processed_by" = false -> String.eqb k "worker" = false ->
     dict_find k d = dict_find k processed).
Proof.
  cbn [dict_update fold_left fst snd].
  repeat split;
    repeat first
      [ apply dict_find_set_same
      | rewrite dict_find_set_other by (first [reflexivity | assumption]) ];
    intros; repeat rewrite dict_find_set_other by assumption; reflexivity.
Qed.

(** *** The blockchain worker *)

Lemma quiet_transaction_details E s : quiet (Blockchain.get_transaction_details E s).
Proof. unfold Blockchain.get_transaction_details. quiet_auto. Qed.

#[export] Hint Resolve quiet_transaction_details : quiet.

Lemma quiet_nft_sale E d : quiet (Blockchain.process_nft_sale E d).
Proof.
  unfold Blockchain.process_nft_sale, Blockchain.nft_sale_body. quiet_auto.
Qed.

Lemma quiet_token_transfer E d : quiet (Blockchain.process_token_transfer E d).
Proof.
  unfold Blockchain.process_token_transfer, Blockchain.token_transfer_body. quiet_auto.
Qed.

Lemma quiet_defi_swap E d : quiet (Blockchain.process_defi_swap E d).
Proof.
  unfold Blockchain.process_defi_swap, Blockchain.defi_swap_body. quiet_auto.
Qed.

Lemma quiet_blockchain_graph E d : quiet (Blockchain.update_graph_relationships E d).
Proof. unfold Blockchain.update_graph_relationships. quiet_auto. Qed.

#[export] Hint Resolve quiet_nft_sale quiet_token_transfer quiet_defi_swap
  quiet_blockchain_graph : quiet.

Lemma blockchain_save_persists E d id w :
  py_getitem d "id" = Ret id ->
  exists b w',
    Blockchain.save_to_database E d w = (Ret b, w') /\
    setex_log (trace w') =
      ("processed:" +++ Blockchain.worker_type +++ ":" +++ py_format E id, 3600,
       json_dumps E d) :: setex_log (trace w).
Proof.
  intro Hid. unfold Blockchain.save_to_database, try_except.
  rewrite (bind_lift_ret _ _ _ _ Hid).
  unfold mbind, redis_setex, mret.
  destruct (redis_fault E (tick w)); cbn [faulty]; do 2 eexists; split; reflexivity.
Qed.

Lemma blockchain_tail_saves E pd id :
  py_getitem pd "id" = Ret id ->
  saves_result E Blockchain.worker_type
    (Blockchain.save_to_database E pd ;;
     Blockchain.update_graph_relationships E pd ;; mret pd).
Proof.
  intros Hid w.
  destruct (blockchain_save_persists E pd id w Hid) as (b & w1 & Hs & Hl).
  rewrite (mbind_ret_step _ _ _ _ _ Hs).
  destruct (try_except_unit
              (id <- lift (py_getitem pd "id") ;;
               type <- lift (py_get pd "type" (JStr "blockchain_event")) ;;
               processed_at <- lift (py_getitem pd "processed_at") ;;
               user_id <- lift (py_get pd "processed_by" (JInt 0)) ;;
               neo4j_execute E
                 [ ("event_id", id); ("event_type", type);
                   ("processed_at", processed_at);
                   ("data", JStr (json_dumps E pd)); ("user_id", user_id) ]) w1)
    as (w2 & Hg).
  change (Blockchain.update_graph_relationships E pd w1 = (Ret tt, w2)) in Hg.
  rewrite (mbind_ret_step _ _ _ _ _ Hg). unfold mret.
  exists id. split; [exact Hid|].
  pose proof (quiet_blockchain_graph E pd w1) as Hq. rewrite Hg in Hq. cbn [snd] in Hq.
  rewrite Hq. exact Hl.
Qed.

Lemma blockchain_body_saves E event_data :
  saves_result E Blockchain.worker_type (Blockchain.process_body E event_data).
Proof.
  unfold Blockchain.process_body.
  repeat (apply saves_bind_quiet; [quiet_auto | intro]).
  apply saves_if; [apply saves_mraise|].
  repeat (apply saves_bind_quiet; [quiet_auto | intro]).
  eapply blockchain_tail_saves.
  cbn [py_getitem].
  match goal with
  | |- context [dict_update ?p [("id", ?i); ("type", ?t); ("original_data", ?o);
                                ("processed_at", ?a); ("processed_by", ?b);
                                ("worker", ?k)]] =>
      rewrite (proj1 (blockchain_metadata p i t o a b k))
  end.
  reflexivity.
Qed.

(** What [process_body] returns when it returns. *)
Lemma blockchain_body_result E event_data w r w' :
  Blockchain.process_body E event_data w = (Ret r, w') ->
  exists data user_id processed t_id t_at,
    r = JObj (dict_update processed
                [ ("id", JStr ("blockchain_" +++ str_of_Z (unix_seconds t_id)));
                  ("type", JStr "blockchain_event");
                  ("original_data", data);
                  ("processed_at", JStr (isoformat t_at));
                  ("processed_by", user_id);
                  ("worker", JStr "blockchain_worker") ]) /\
    py_getitem event_data "data" = Ret data /\
    Blockchain.validate_event data = Ret true.
Proof.
  unfold Blockchain.process_body. intro H. minv H.
  destruct a1; cbn [negb] in H; [|discriminate H].
  minv H.
  unfold mret in H. injection H as Hr Hw. subst r.
  do 5 eexists. split; [reflexivity|]. split; eassumption.
Qed.

Lemma blockchain_save_trace E d id w :
  py_getitem d "id" = Ret id ->
  exists b w' extra,
    Blockchain.save_to_database E d w = (Ret b, w') /\
    trace w' =
      extra ++ RedisSetex ("processed:" +++ Blockchain.worker_type +++ ":" +++ py_format E id)
                 3600 (json_dumps E d) :: trace w /\
    (extra = [] \/ extra = [DbSession]).
Proof.
  intro Hid. unfold Blockchain.save_to_database, try_except.
  rewrite (bind_lift_ret _ _ _ _ Hid).
  unfold mbind, redis_setex, mret.
  destruct (redis_fault E (tick w)); cbn [faulty];
    eexists; eexists; exists []; repeat split; left; reflexivity.
Qed.

Lemma blockchain_handler_run E envelope e w :
  error_run E Blockchain.worker_type (Blockchain.process_handler E (JObj envelope) e)
    "blockchain_error_" "blockchain_error" "blockchain_worker" envelope (str_of_exn e) w.
Proof.
  unfold error_run, Blockchain.process_handler.
  rewrite bind_now. cbn [py_get].
  rewrite (bind_lift_ret _ _ _ _ eq_refl). rewrite bind_now.
  match goal with
  | |- context [mbind (Blockchain.save_to_database E ?d) _ ?w2] =>
      destruct (blockchain_save_trace E d _ w2 eq_refl) as (b & w3 & extra & Hs & Ht & Hx)
  end.
  rewrite (mbind_ret_step _ _ _ _ _ Hs). unfold mret.
  exists w3, extra. split; [reflexivity|]. split; [|exact Hx].
  rewrite Ht. reflexivity.
Qed.

Lemma blockchain_handler_persists E envelope e w :
  exists r w',
    Blockchain.process_handler E (JObj envelope) e w = (Ret r, w') /\
    persisted E Blockchain.worker_type r w w' /\
    error_shape "blockchain_error_" "blockchain_error" "blockchain_worker" envelope e r.
Proof. apply error_run_result. apply blockchain_handler_run. Qed.

Lemma blockchain_terminal_result E envelope w :
  terminal_result E Blockchain.worker_type
    (Blockchain.process_event E) (Blockchain.process_body E)
    "blockchain_" "blockchain_event" "blockchain_error_" "blockchain_error"
    "blockchain_worker" envelope w.
Proof.
  unfold terminal_result, Blockchain.process_event.
  pose proof (blockchain_body_saves E (JObj envelope) w) as Hb.
  destruct (Blockchain.process_body E (JObj envelope) w) as [[r|e] w1] eqn:Body.
  - exists r, w1. split; [apply try_except_ret; exact Body|].
    split; [exact Hb|]. left. split; [reflexivity|].
    apply blockchain_body_result in Body.
    destruct Body as (data & uid & processed & t1 & t2 & Hr & _). subst r.
    exists (unix_seconds t1). cbn [py_getitem].
    match goal with
    | |- context [dict_update ?p [("id", ?i); ("type", ?t); ("original_data", ?o);
                                  ("processed_at", ?a); ("processed_by", ?b);
                                  ("worker", ?k)]] =>
        destruct (blockchain_metadata p i t o a b k) as (Hi & Ht & _ & _ & _ & Hk & _)
    end.
    rewrite Hi, Ht, Hk. repeat split; reflexivity.
  - destruct (blockchain_handler_persists E envelope e w1) as (r & w' & Hh & Hp & Hs).
    exists r, w'. rewrite (try_except_raise _ _ _ _ _ Body).
    split; [exact Hh|].
    split; [exact (persisted_after_quiet _ _ _ _ _ _ Hb Hp)|].
    right. exists e, w1. split; [reflexivity | exact Hs].
Qed.

(** *** The chat worker *)

Lemma quiet_chat_graph E d : quiet (Chat.update_graph_relationships E d).
Proof. unfold Chat.update_graph_relationships. quiet_auto. Qed.

#[export] Hint Resolve quiet_chat_graph : quiet.

Lemma chat_save_persists E d id w :
  py_getitem d "id" = Ret id ->
  exists b w',
    Chat.save_to_database E d w = (Ret b, w') /\
    setex_log (trace w') =
      ("processed:" +++ Chat.worker_type +++ ":" +++ py_format E id, 3600,
       json_dumps E d) :: setex_log (trace w).
Proof.
  intro Hid. unfold Chat.save_to_database, try_except.
  rewrite (bind_lift_ret _ _ _ _ Hid).
  unfold mbind, redis_setex, mret.
  destruct (redis_fault E (tick w)); cbn [faulty]; do 2 eexists; split; reflexivity.
Qed.

Lemma chat_graph_returns E d w :
  exists w', Chat.update_graph_relationships E d w = (Ret tt, w').
Proof. apply try_except_unit. Qed.

Lemma chat_tail_saves E pd id :
  py_getitem pd "id" = Ret id ->
  saves_result E Chat.worker_type
    (Chat.save_to_database E pd ;; Chat.update_graph_relationships E pd ;; mret pd).
Proof.
  intros Hid w.
  destruct (chat_save_persists E pd id w Hid) as (b & w1 & Hs & Hl).
  rewrite (mbind_ret_step _ _ _ _ _ Hs).
  destruct (chat_graph_returns E pd w1) as (w2 & Hg).
  rewrite (mbind_ret_step _ _ _ _ _ Hg). unfold mret.
  exists id. split; [exact Hid|].
  pose proof (quiet_chat_graph E pd w1) as Hq. rewrite Hg in Hq. cbn [snd] in Hq.
  rewrite Hq. exact Hl.
Qed.

Lemma chat_body_saves E event_data :
  saves_result E Chat.worker_type (Chat.process_body E event_data).
Proof.
  unfold Chat.process_body.
  repeat (apply saves_bind_quiet; [quiet_auto | intro]).
  apply saves_if; [apply saves_mraise|].
  repeat (apply saves_bind_quiet; [quiet_auto | intro]).
  eapply chat_tail_saves. reflexivity.
Qed.

(** What [process_body] returns when it returns. *)
Lemma chat_body_result E event_data w r w' :
  Chat.process_body E event_data w = (Ret r, w') ->
  exists data message sent tox sp engagement t_id rest,
    r = JObj (("id", JStr ("chat_" +++ str_of_Z (unix_seconds t_id)))
              :: ("type", JStr "chat_analysis")
              :: ("original_data", data)
              :: ("message", JStr message) :: rest) /\
    dict_find "worker" rest = Some (JStr "chat_analysis_worker") /\
    py_getitem event_data "data" = Ret data /\
    Chat.validate_event data = Ret true /\
    py_get data "message" (JStr "") = Ret (JStr message) /\
    Chat.analyze_sentiment E message = Ret sent /\
    Chat.detect_toxicity E message = Ret tox /\
    Chat.detect_spam E message = Ret sp /\
    Chat.calculate_engagement_score E data = Ret engagement.
Proof.
  unfold Chat.process_body. intro H. minv H.
  destruct a1; cbn [negb] in H; [|discriminate H].
  minv H.
  unfold mret in H. injection H as Hr Hw. subst r.
  match goal with
  | Hm : Chat.as_message ?v = Ret ?m |- _ =>
      destruct v; try discriminate Hm; cbn in Hm; injection Hm as Hm; subst m
  end.
  do 8 eexists. split; [reflexivity|].
  split; [reflexivity|]. repeat split; eassumption.
Qed.

Lemma chat_save_trace E d id w :
  py_getitem d "id" = Ret id ->
  exists b w' extra,
    Chat.save_to_database E d w = (Ret b, w') /\
    trace w' =
      extra ++ RedisSetex ("processed:" +++ Chat.worker_type +++ ":" +++ py_format E id)
                 3600 (json_dumps E d) :: trace w /\
    (extra = [] \/ extra = [DbSession]).
Proof.
  intro Hid. unfold Chat.save_to_database, try_except.
  rewrite (bind_lift_ret _ _ _ _ Hid).
  unfold mbind, redis_setex, mret.
  destruct (redis_fault E (tick w)); cbn [faulty];
    eexists; eexists; exists []; repeat split; left; reflexivity.
Qed.

Lemma chat_handler_run E envelope e w :
  error_run E Chat.worker_type (Chat.process_handler E (JObj envelope) e)
    "chat_error_" "chat_analysis_error" "chat_analysis_worker" envelope (str_of_exn e) w.
Proof.
  unfold error_run, Chat.process_handler.
  rewrite bind_now. cbn [py_get].
  rewrite (bind_lift_ret _ _ _ _ eq_refl). rewrite bind_now.
  match goal with
  | |- context [mbind (Chat.save_to_database E ?d) _ ?w2] =>
      destruct (chat_save_trace E d _ w2 eq_refl) as (b & w3 & extra & Hs & Ht & Hx)
  end.
  rewrite (mbind_ret_step _ _ _ _ _ Hs). unfold mret.
  exists w3, extra. split; [reflexivity|]. split; [|exact Hx].
  rewrite Ht. reflexivity.
Qed.

Lemma chat_handler_persists E envelope e w :
  exists r w',
    Chat.process_handler E (JObj envelope) e w = (Ret r, w') /\
    persisted E Chat.worker_type r w w' /\
    error_shape "chat_error_" "chat_analysis_error" "chat_analysis_worker" envelope e r.
Proof. apply error_run_result. apply chat_handler_run. Qed.

Lemma chat_terminal_result E envelope w :
  terminal_result E Chat.worker_type (Chat.process_event E) (Chat.process_body E)
    "chat_" "chat_analysis" "chat_error_" "chat_analysis_error" "chat_analysis_worker"
    envelope w.
Proof.
  unfold terminal_result, Chat.process_event.
  pose proof (chat_body_saves E (JObj envelope) w) as Hb.
  destruct (Chat.process_body E (JObj envelope) w) as [[r|e] w1] eqn:Body.
  - exists r, w1. split; [apply try_except_ret; exact Body|].
    split; [exact Hb|]. left. split; [reflexivity|].
    apply chat_body_result in Body.
    destruct Body as (data & m & s & t & sp & en & t1 & rest & Hr & Hw & _). subst r.
    exists (unix_seconds t1). cbn. rewrite Hw. repeat split; reflexivity.
  - destruct (chat_handler_persists E envelope e w1) as (r & w' & Hh & Hp & Hs).
    exists r, w'. rewrite (try_except_raise _ _ _ _ _ Body).
    split; [exact Hh|].
    split; [exact (persisted_after_quiet _ _ _ _ _ _ Hb Hp)|].
    right. exists e, w1. split; [reflexivity | exact Hs].
Qed.

(** ** C1: one terminal result per envelope *)

Lemma shapes_exclusive (p t ep et wk wk' : string) envelope e r :
  cps t <> cps et ->
  processed_shape p t wk r -> error_shape ep et wk' envelope e r -> False.
Proof.
  intros Hne (t_id & _ & Ht & _) (t1 & t2 & Hr). subst r.
  cbn in Ht. injection Ht as Ht. apply Hne. symmetry. exact Ht.
Qed.

(** C1. For every event envelope each worker's [process_event] returns, and
    never raises: it returns a processed result when its [try] block
    completed and the error result carrying [str(e)] when the block raised
    [e]; the result returned is written to Redis exactly once, under its own
    key; and no result has both shapes. *)
Theorem process_event_one_terminal_result (E : env) (envelope : dict) (w : world) :
  terminal_result E Lead.worker_type (Lead.process_event E) (Lead.process_body E)
    "lead_" "lead_scoring" "lead_error_" "lead_scoring_error" "lead_scoring_worker"
    envelope w /\
  terminal_result E Blockchain.worker_type
    (Blockchain.process_event E) (Blockchain.process_body E)
    "blockchain_" "blockchain_event" "blockchain_error_" "blockchain_error"
    "blockchain_worker" envelope w /\
  terminal_result E Chat.worker_type (Chat.process_event E) (Chat.process_body E)
    "chat_" "chat_analysis" "chat_error_" "chat_analysis_error" "chat_analysis_worker"
    envelope w /\
  (forall r e,
     ~ (processed_shape "lead_" "lead_scoring" "lead_scoring_worker" r /\
        error_shape "lead_error_" "lead_scoring_error" "lead_scoring_worker"
          envelope e r)) /\
  (forall r e,
     ~ (processed_shape "blockchain_" "blockchain_event" "blockchain_worker" r /\
        error_shape "blockchain_error_" "blockchain_error" "blockchain_worker"
          envelope e r)) /\
  (forall r e,
     ~ (processed_shape "chat_" "chat_analysis" "chat_analysis_worker" r /\
        error_shape "chat_error_" "chat_analysis_error" "chat_analysis_worker"
          envelope e r)).
Proof.
  split; [apply lead_terminal_result|].
  split; [apply blockchain_terminal_result|].
  split; [apply chat_terminal_result|].
  repeat split; intros r e [Hp He];
    (eapply shapes_exclusive; [|exact Hp|exact He]); str_neq.
Qed.

(** An item of the queue that decodes to something other than an object is
    no envelope: the handler's own [event_data.get] raises on it, and the
    exception leaves [process_event] for the loop to catch. *)
Remark process_event_on_a_list (E : env) (w : world) :
  exists e w', Lead.process_event E (JArr []) w = (Raise e, w').
Proof. do 2 eexists. reflexivity. Qed.

(** ** C7: rejected events *)

Lemma lead_validate_spec payload :
  Lead.validate_event (JObj payload) = Ret (lead_required payload).
Proof.
  unfold Lead.validate_event, lead_required, field_nonempty. cbn.
  destruct (dict_find "name" payload) as [v|]; cbn; [|reflexivity].
  destruct (truthy v); cbn; [|reflexivity].
  destruct (dict_find "email" payload) as [v'|]; cbn; [|reflexivity].
  destruct (truthy v'); reflexivity.
Qed.

Lemma chat_validate_spec payload :
  Chat.validate_event (JObj payload) = Ret (chat_required payload).
Proof.
  unfold Chat.validate_event, chat_required, field_nonempty. cbn.
  destruct (dict_find "message" payload) as [v|]; cbn; [|reflexivity].
  destruct (truthy v); cbn; [|reflexivity].
  destruct (dict_find "user" payload) as [v'|]; cbn; [|reflexivity].
  destruct (truthy v'); reflexivity.
Qed.

Lemma blockchain_validate_spec payload :
  Blockchain.validate_event (JObj payload) = Ret (blockchain_required payload).
Proof.
  unfold Blockchain.validate_event, blockchain_required. cbn.
  destruct (dict_find "event_type" payload); reflexivity.
Qed.

Lemma lead_rejects E envelope e w :
  Lead.process_body E (JObj envelope) w = (Raise e, w) ->
  rejected E Lead.worker_type (Lead.process_event E)
    "lead_error_" "lead_scoring_error" "lead_scoring_worker" envelope (str_of_exn e) w.
Proof.
  intro Body. unfold rejected, error_run, Lead.process_event.
  rewrite (try_except_raise _ _ _ _ _ Body). apply lead_handler_run.
Qed.

Lemma blockchain_rejects E envelope e w :
  Blockchain.process_body E (JObj envelope) w = (Raise e, w) ->
  rejected E Blockchain.worker_type (Blockchain.process_event E)
    "blockchain_error_" "blockchain_error" "blockchain_worker" envelope
    (str_of_exn e) w.
Proof.
  intro Body. unfold rejected, error_run, Blockchain.process_event.
  rewrite (try_except_raise _ _ _ _ _ Body). apply blockchain_handler_run.
Qed.

Lemma chat_rejects E envelope e w :
  Chat.process_body E (JObj envelope) w = (Raise e, w) ->
  rejected E Chat.worker_type (Chat.process_event E)
    "chat_error_" "chat_analysis_error" "chat_analysis_worker" envelope
    (str_of_exn e) w.
Proof.
  intro Body. unfold rejected, error_run, Chat.process_event.
  rewrite (try_except_raise _ _ _ _ _ Body). apply chat_handler_run.
Qed.

Lemma str_eqb_eq (a b : pystr) : str_eqb a b = true <-> a = b.
Proof.
  revert b. induction a as [|x a IH]; destruct b as [|y b]; cbn;
    try (split; [discriminate | discriminate]); [tauto|].
  rewrite andb_true_iff, N.eqb_eq, IH. split.
  - intros [-> ->]. reflexivity.
  - intro H. injection H as -> ->. split; reflexivity.
Qed.

Lemma py_eq_str_false (v : json) (s : string) :
  v <> JStr (cps s) -> py_eq_str v s = false.
Proof.
  intro H. destruct v; try reflexivity. cbn.
  destruct (str_eqb s0 (cps s)) eqn:Q; [|reflexivity].
  apply str_eqb_eq in Q. subst s0. contradiction.
Qed.

Lemma lead_invalid_raises E envelope payload w :
  dict_find "data" envelope = Some (JObj payload) ->
  lead_required payload = false ->
  Lead.process_body E (JObj envelope) w =
    (Raise (ValueError "Invalid lead data: missing required fields"), w).
Proof.
  intros Hd Hr. unfold Lead.process_body. cbn [py_getitem py_get].
  rewrite Hd. rewrite (bind_lift_ret _ _ _ _ eq_refl).
  rewrite (bind_lift_ret _ _ _ _ eq_refl).
  rewrite lead_validate_spec, Hr. rewrite (bind_lift_ret _ _ _ _ eq_refl).
  reflexivity.
Qed.

Lemma chat_invalid_raises E envelope payload w :
  dict_find "data" envelope = Some (JObj payload) ->
  chat_required payload = false ->
  Chat.process_body E (JObj envelope) w =
    (Raise (ValueError "Invalid chat event data"), w).
Proof.
  intros Hd Hr. unfold Chat.process_body. cbn [py_getitem py_get].
  rewrite Hd. rewrite (bind_lift_ret _ _ _ _ eq_refl).
  rewrite (bind_lift_ret _ _ _ _ eq_refl).
  rewrite chat_validate_spec, Hr. rewrite (bind_lift_ret _ _ _ _ eq_refl).
  reflexivity.
Qed.

Lemma blockchain_invalid_raises E envelope payload w :
  dict_find "data" envelope = Some (JObj payload) ->
  blockchain_required payload = false ->
  Blockchain.process_body E (JObj envelope) w =
    (Raise (ValueError "Invalid blockchain event data"), w).
Proof.
  intros Hd Hr. unfold Blockchain.process_body. cbn [py_getitem py_get].
  rewrite Hd. rewrite (bind_lift_ret _ _ _ _ eq_refl).
  rewrite (bind_lift_ret _ _ _ _ eq_refl).
  rewrite blockchain_validate_spec, Hr. rewrite (bind_lift_ret _ _ _ _ eq_refl).
  reflexivity.
Qed.

Lemma blockchain_unknown_raises E envelope payload event_type w :
  dict_find "data" envelope = Some (JObj payload) ->
  dict_find "event_type" payload = Some event_type ->
  event_type <> JStr "nft_sale" ->
  event_type <> JStr "token_transfer" ->
  event_type <> JStr "defi_swap" ->
  Blockchain.process_body E (JObj envelope) w =
    (Raise (ValueError ("Unknown blockchain event type: " +++ py_format E event_type)), w).
Proof.
  intros Hd Ht N1 N2 N3. unfold Blockchain.process_body. cbn [py_getitem py_get].
  rewrite Hd. rewrite (bind_lift_ret _ _ _ _ eq_refl).
  rewrite (bind_lift_ret _ _ _ _ eq_refl).
  rewrite blockchain_validate_spec. unfold blockchain_required. rewrite Ht.
  rewrite (bind_lift_ret _ _ _ _ eq_refl). cbn [negb py_get].
  unfold dict_get at 1. rewrite Ht. rewrite (bind_lift_ret _ _ _ _ eq_refl).
  rewrite (py_eq_str_false _ _ N1), (py_eq_str_false _ _ N2), (py_eq_str_false _ _ N3).
  reflexivity.
Qed.

(** An iteration of the worker loop whose [process_event] returned ends
    where [process_event] ended: no back-off, nothing put back on the
    queue. *)
Lemma listen_iteration_returns E wt (process_event : json -> M json) item event r w w' :
  brpop_reply E (tick w) = Ret (Some item) ->
  json_loads E item = Some event ->
  process_event event (interact (RedisBrpop ("events:" +++ wt)) w) = (Ret (JObj r), w') ->
  listen_iteration E wt process_event w = (Ret tt, w').
Proof.
  intros Hpop Hload Hrun. unfold listen_iteration, mbind, redis_brpop at 1.
  rewrite Hpop, Hload, Hrun. reflexivity.
Qed.

(** A payload of any kind that does not pass validation, a string or a
    number as well, makes the [try] block raise before any interaction. *)
Lemma payload_not_valid_raises E envelope data w :
  dict_find "data" envelope = Some data ->
  (Lead.validate_event data <> Ret true ->
   exists e, Lead.process_body E (JObj envelope) w = (Raise e, w)) /\
  (Chat.validate_event data <> Ret true ->
   exists e, Chat.process_body E (JObj envelope) w = (Raise e, w)) /\
  (Blockchain.validate_event data <> Ret true ->
   exists e, Blockchain.process_body E (JObj envelope) w = (Raise e, w)).
Proof.
  intro Hd. repeat split; intro Hv.
  - unfold Lead.process_body. cbn [py_getitem py_get]. rewrite Hd.
    do 2 rewrite (bind_lift_ret _ _ _ _ eq_refl).
    destruct (Lead.validate_event data) as [[|]|e] eqn:V.
    + contradiction Hv. reflexivity.
    + eexists. reflexivity.
    + eexists. reflexivity.
  - unfold Chat.process_body. cbn [py_getitem py_get]. rewrite Hd.
    do 2 rewrite (bind_lift_ret _ _ _ _ eq_refl).
    destruct (Chat.validate_event data) as [[|]|e] eqn:V.
    + contradiction Hv. reflexivity.
    + eexists. reflexivity.
    + eexists. reflexivity.
  - unfold Blockchain.process_body. cbn [py_getitem py_get]. rewrite Hd.
    do 2 rewrite (bind_lift_ret _ _ _ _ eq_refl).
    destruct (Blockchain.validate_event data) as [[|]|e] eqn:V.
    + contradiction Hv. reflexivity.
    + eexists. reflexivity.
    + eexists. reflexivity.
Qed.

(** C7. An event whose payload fails its worker's required-field predicate
    is rejected: [process_event] returns the error result of the validation
    error and has done nothing but read the clock and write that result. So
    is a blockchain event whose [event_type] is none of the three known.
    The loop iteration that handed the event over ends right there. *)
Theorem invalid_events_are_rejected (E : env) (envelope payload : dict) (w : world) :
  dict_find "data" envelope = Some (JObj payload) ->
  (lead_required payload = false ->
   rejected E Lead.worker_type (Lead.process_event E)
     "lead_error_" "lead_scoring_error" "lead_scoring_worker" envelope
     "Invalid lead data: missing required fields" w) /\
  (chat_required payload = false ->
   rejected E Chat.worker_type (Chat.process_event E)
     "chat_error_" "chat_analysis_error" "chat_analysis_worker" envelope
     "Invalid chat event data" w) /\
  (blockchain_required payload = false ->
   rejected E Blockchain.worker_type (Blockchain.process_event E)
     "blockchain_error_" "blockchain_error" "blockchain_worker" envelope
     "Invalid blockchain event data" w) /\
  (forall event_type,
     dict_find "event_type" payload = Some event_type ->
     event_type <> JStr "nft_sale" ->
     event_type <> JStr "token_transfer" ->
     event_type <> JStr "defi_swap" ->
     rejected E Blockchain.worker_type (Blockchain.process_event E)
       "blockchain_error_" "blockchain_error" "blockchain_worker" envelope
       ("Unknown blockchain event type: " +++ py_format E event_type) w) /\
  (forall wt process_event item r w0 w',
     brpop_reply E (tick w0) = Ret (Some item) ->
     json_loads E item = Some (JObj envelope) ->
     process_event (JObj envelope) (interact (RedisBrpop ("events:" +++ wt)) w0)
       = (Ret (JObj r), w') ->
     listen_iteration E wt process_event w0 = (Ret tt, w')).
Proof.
  intro Hd. repeat split.
  - intro Hr.
    exact (lead_rejects E envelope _ w (lead_invalid_raises E envelope payload w Hd Hr)).
  - intro Hr.
    exact (chat_rejects E envelope _ w (chat_invalid_raises E envelope payload w Hd Hr)).
  - intro Hr.
    exact (blockchain_rejects E envelope _ w
             (blockchain_invalid_raises E envelope payload w Hd Hr)).
  - intros event_type Ht N1 N2 N3.
    exact (blockchain_rejects E envelope _ w
             (blockchain_unknown_raises E envelope payload event_type w Hd Ht N1 N2 N3)).
  - intros wt pe item r w0 w'. apply listen_iteration_returns.
Qed.

Lemma invalid_events_are_rejected_witness :
  rejected offline_env Lead.worker_type (Lead.process_event offline_env)
    "lead_error_" "lead_scoring_error" "lead_scoring_worker"
    [("data", JObj [("name", JStr ""); ("event_type", JStr "mint")])]
    "Invalid lead data: missing required fields" world0 /\
  rejected offline_env Chat.worker_type (Chat.process_event offline_env)
    "chat_error_" "chat_analysis_error" "chat_analysis_worker"
    [("data", JObj [("name", JStr ""); ("event_type", JStr "mint")])]
    "Invalid chat event data" world0 /\
  rejected offline_env Blockchain.worker_type (Blockchain.process_event offline_env)
    "blockchain_error_" "blockchain_error" "blockchain_worker"
    [("data", JObj [])] "Invalid blockchain event data" world0 /\
  rejected offline_env Blockchain.worker_type (Blockchain.process_event offline_env)
    "blockchain_error_" "blockchain_error" "blockchain_worker"
    [("data", JObj [("name", JStr ""); ("event_type", JStr "mint")])]
    ("Unknown blockchain event type: " +++ "mint") world0 /\
  exists w',
    listen_iteration offline_env Lead.worker_type (Lead.process_event offline_env) world0
    = (Ret tt, w').
Proof.
  destruct (invalid_events_are_rejected offline_env
              [("data", JObj [("name", JStr ""); ("event_type", JStr "mint")])]
              [("name", JStr ""); ("event_type", JStr "mint")] world0 eq_refl)
    as (L & C & _ & U & _).
  destruct (invalid_events_are_rejected offline_env
              [("data", JObj [])] [] world0 eq_refl)
    as (_ & _ & B & _ & I).
  split; [apply L; reflexivity|].
  split; [apply C; reflexivity|].
  split; [apply B; reflexivity|].
  split; [apply (U (JStr "mint")); [reflexivity | discriminate ..]|].
  eexists.
  eapply (I Lead.worker_type (Lead.process_event offline_env) queued_item);
    [reflexivity | reflexivity | vm_compute; reflexivity].
Defined.

(** ** C9: the range of the lead score *)

Lemma extract_overshoot E :
  json_loads E overshoot_reply = Some (JObj [("score", JInt 150)]) ->
  Lead.extract_score_from_analysis E (Some overshoot_reply) = Ret 150.
Proof.
  intro H. unfold Lead.extract_score_from_analysis. rewrite H. reflexivity.
Qed.

(** The rule-based path end to end: when the AI call raises, and the
    report survives [json.dumps] then [json.loads], the score
    [process_event] goes on with is the clamped score of the scorer. *)
Lemma fallback_path_score E data e w score category :
  ai_completion E (tick w) data = Raise e ->
  Lead.fallback_score E data = Ret (score, category) ->
  json_loads E (json_dumps E (Lead.fallback_report score category))
    = Some (Lead.fallback_report score category) ->
  Lead.analyze_lead_with_ai E data w =
    (Ret (Some (json_dumps E (Lead.fallback_report score category))),
     interact (AiRequest data) w) /\
  Lead.extract_score_from_analysis E
    (Some (json_dumps E (Lead.fallback_report score category))) = Ret score /\
  0 <= score <= 100.
Proof.
  intros Hai Hfs Hjs. split; [|split].
  - unfold Lead.analyze_lead_with_ai, try_except, ai_chat. rewrite Hai.
    unfold Lead.fallback_scoring. rewrite Hfs. reflexivity.
  - unfold Lead.extract_score_from_analysis. rewrite Hjs. reflexivity.
  - exact (fallback_score_range E data score category Hfs).
Qed.

(** C9, at the failing input. When the AI service answers a valid lead with
    the JSON text of an object whose [score] is 150, [process_event] returns
    a processed result with [lead_score] 150, outside 0..100: the score read
    from the AI's answer is not clamped, unlike the rule-based one
    ([fallback_score_range]). *)
Theorem ai_score_is_not_clamped (E : env) (envelope payload : dict) (w : world) :
  dict_find "data" envelope = Some (JObj payload) ->
  lead_required payload = true ->
  ai_completion E (tick w) (JObj payload) = Ret (Some overshoot_reply) ->
  json_loads E overshoot_reply = Some (JObj [("score", JInt 150)]) ->
  exists r w',
    Lead.process_event E (JObj envelope) w = (Ret r, w') /\
    py_getitem r "type" = Ret (JStr "lead_scoring") /\
    py_getitem r "lead_score" = Ret (JInt 150) /\
    py_getitem r "category" = Ret (JStr "hot") /\
    ~ (0 <= 150 <= 100).
Proof.
  intros Hd Hv Hai Hjs.
  assert (Han : Lead.analyze_lead_with_ai E (JObj payload) w =
                (Ret (Some overshoot_reply), interact (AiRequest (JObj payload)) w)).
  { unfold Lead.analyze_lead_with_ai, try_except, ai_chat. rewrite Hai. reflexivity. }
  assert (Hbody : exists r w',
             Lead.process_body E (JObj envelope) w = (Ret r, w') /\
             py_getitem r "type" = Ret (JStr "lead_scoring") /\
             py_getitem r "lead_score" = Ret (JInt 150) /\
             py_getitem r "category" = Ret (JStr "hot")).
  { unfold Lead.process_body. cbn [py_getitem py_get]. rewrite Hd.
    rewrite (bind_lift_ret _ _ _ _ eq_refl).
    rewrite (bind_lift_ret _ _ _ _ eq_refl).
    rewrite lead_validate_spec, Hv. rewrite (bind_lift_ret _ _ _ _ eq_refl).
    cbn [negb].
    rewrite (mbind_ret_step _ _ _ _ _ Han).
    rewrite (bind_lift_ret _ _ _ _ (extract_overshoot E Hjs)).
    rewrite bind_now. rewrite bind_now.
    match goal with
    | |- context [mbind (Lead.save_to_database E ?d) _ ?w2] =>
        destruct (lead_save_returns E d w2) as (b & w3 & Hs);
        rewrite (mbind_ret_step _ _ _ _ _ Hs);
        destruct (lead_graph_returns E d w3) as (w4 & Hg);
        rewrite (mbind_ret_step _ _ _ _ _ Hg)
    end.
    unfold mret. do 2 eexists. split; [reflexivity|]. repeat split. }
  destruct Hbody as (r & w' & Hb & Ht & Hs & Hc).
  exists r, w'. split; [apply try_except_ret; exact Hb|].
  repeat split; try assumption. lia.
Qed.

Lemma ai_score_is_not_clamped_witness :
  exists r w',
    Lead.process_event online_env sample_lead_event world0 = (Ret r, w') /\
    py_getitem r "type" = Ret (JStr "lead_scoring") /\
    py_getitem r "lead_score" = Ret (JInt 150) /\
    py_getitem r "category" = Ret (JStr "hot") /\
    ~ (0 <= 150 <= 100).
Proof.
  apply (ai_score_is_not_clamped online_env
           [ ("data",
               JObj [ ("name", JStr "Ada"); ("email", JStr "x@acmecorp.com");
                      ("company_size", JStr "1000+ employees");
                      ("title", JStr "VP of Sales"); ("source", JStr "linkedin") ]);
             ("user_id", JInt 7) ]
           [ ("name", JStr "Ada"); ("email", JStr "x@acmecorp.com");
             ("company_size", JStr "1000+ employees");
             ("title", JStr "VP of Sales"); ("source", JStr "linkedin") ]
           world0); reflexivity.
Defined.

(** ** C5: NFT premium and price category *)

Lemma premium_of_above_zero (price floor_price : Q) :
  (0 < floor_price)%Q ->
  Blockchain.premium_of price floor_price =
    Ret ((price - floor_price) / floor_price * 100)%Q.
Proof.
  intro H. unfold Blockchain.premium_of.
  rewrite (proj2 (Qltb_lt 0 floor_price) H).
  rewrite py_truediv_defined; [reflexivity|].
  intro Z. rewrite Z in H. exact (Qlt_irrefl _ H).
Qed.

Lemma premium_of_no_floor (price floor_price : Q) :
  (floor_price <= 0)%Q -> Blockchain.premium_of price floor_price = Ret 0%Q.
Proof.
  intro H. unfold Blockchain.premium_of.
  rewrite (proj2 (Qltb_ge 0 floor_price) H). reflexivity.
Qed.

Lemma premium_of_returns (price floor_price : Q) :
  exists p, Blockchain.premium_of price floor_price = Ret p.
Proof.
  destruct (Qlt_le_dec 0 floor_price) as [H|H].
  - eexists. apply premium_of_above_zero. exact H.
  - eexists. apply premium_of_no_floor. exact H.
Qed.










(** ** C10: a sub-analyzer that fails *)

Lemma str_of_Z_not_e (z : Z) : starts_with "e" (str_of_Z z) = false.
Proof.
  unfold str_of_Z. destruct z as [|p|p]; cbn [Z.to_int NilZero.string_of_int].
  - reflexivity.
  - destruct (Pos.to_uint p); reflexivity.
  - reflexivity.
Qed.

Lemma blockchain_id_is_no_error_id (z : Z) :
  starts_with "blockchain_error" ("blockchain_" +++ str_of_Z z) = false.
Proof.
  pose proof (str_of_Z_not_e z) as H.
  change (starts_with "error" (str_of_Z z) = false).
  destruct (str_of_Z z) as [|c s]; [reflexivity|].
  change (N.eqb 101 c && true = false) in H.
  change (N.eqb 101 c && starts_with "rror" s = false).
  rewrite andb_true_r in H. rewrite H. reflexivity.
Qed.

Lemma nft_sale_failure E d e w w1 :
  Blockchain.nft_sale_body E (JObj d) w = (Raise e, w1) ->
  Blockchain.process_nft_sale E (JObj d) w =
    (Ret [ ("sale_id",
             JStr ("nft_sale_error_" +++ str_of_Z (unix_seconds (utcnow E (tick w1)))));
           ("error", JStr (str_of_exn e));
           ("collection", dict_get d "collection" (JStr "Unknown"));
           ("price", dict_get d "price" (JInt 0)) ],
     interact (ClockRead (utcnow E (tick w1))) w1).
Proof.
  intro H. unfold Blockchain.process_nft_sale.
  rewrite (try_except_raise _ _ _ _ _ H). reflexivity.
Qed.

Lemma token_transfer_failure E d e w w1 :
  Blockchain.token_transfer_body E (JObj d) w = (Raise e, w1) ->
  Blockchain.process_token_transfer E (JObj d) w =
    (Ret [ ("transfer_id",
             JStr ("token_transfer_error_" +++
                   str_of_Z (unix_seconds (utcnow E (tick w1)))));
           ("error", JStr (str_of_exn e));
           ("token", dict_get d "token" (JStr "Unknown"));
           ("amount", dict_get d "amount" (JInt 0)) ],
     interact (ClockRead (utcnow E (tick w1))) w1).
Proof.
  intro H. unfold Blockchain.process_token_transfer.
  rewrite (try_except_raise _ _ _ _ _ H). reflexivity.
Qed.

Lemma defi_swap_failure E d e w w1 :
  Blockchain.defi_swap_body E (JObj d) w = (Raise e, w1) ->
  Blockchain.process_defi_swap E (JObj d) w =
    (Ret [ ("swap_id",
             JStr ("defi_swap_error_" +++ str_of_Z (unix_seconds (utcnow E (tick w1)))));
           ("error", JStr (str_of_exn e));
           ("dex", dict_get d "dex" (JStr "Unknown")) ],
     interact (ClockRead (utcnow E (tick w1))) w1).
Proof.
  intro H. unfold Blockchain.process_defi_swap.
  rewrite (try_except_raise _ _ _ _ _ H). reflexivity.
Qed.

(** Once a sub-analyzer has returned [processed], the [try] block of
    [process_event] completes with [processed] under the six keys of a
    processed result. *)
Lemma blockchain_body_after_dispatch E envelope d event_type processed w w1 :
  dict_find "data" envelope = Some (JObj d) ->
  dict_find "event_type" d = Some event_type ->
  (if py_eq_str event_type "nft_sale" then Blockchain.process_nft_sale E (JObj d)
   else if py_eq_str event_type "token_transfer"
        then Blockchain.process_token_transfer E (JObj d)
   else if py_eq_str event_type "defi_swap" then Blockchain.process_defi_swap E (JObj d)
   else mraise (ValueError ("Unknown blockchain event type: " +++
                            py_format E event_type))) w = (Ret processed, w1) ->
  exists t_id t_at w',
    Blockchain.process_body E (JObj envelope) w =
      (Ret (JObj (dict_update processed
                    [ ("id", JStr ("blockchain_" +++ str_of_Z (unix_seconds t_id)));
                      ("type", JStr "blockchain_event");
                      ("original_data", JObj d);
                      ("processed_at", JStr (isoformat t_at));
                      ("processed_by", dict_get envelope "user_id" JNull);
                      ("worker", JStr "blockchain_worker") ])), w').
Proof.
  intros Hd Ht Hsub. unfold Blockchain.process_body. cbn [py_getitem py_get].
  rewrite Hd. rewrite (bind_lift_ret _ _ _ _ eq_refl).
  rewrite (bind_lift_ret _ _ _ _ eq_refl).
  rewrite blockchain_validate_spec. unfold blockchain_required. rewrite Ht.
  rewrite (bind_lift_ret _ _ _ _ eq_refl). cbn [negb py_get].
  unfold dict_get at 1. rewrite Ht. rewrite (bind_lift_ret _ _ _ _ eq_refl).
  rewrite (mbind_ret_step _ _ _ _ _ Hsub).
  rewrite bind_now. rewrite bind_now.
  match goal with
  | |- context [mbind (Blockchain.save_to_database E ?pd) _ ?w2] =>
      destruct (blockchain_save_trace E pd
                  (JStr ("blockchain_" +++ str_of_Z (unix_seconds (utcnow E (tick w1)))))
                  w2) as (b & w3 & extra & Hs & _);
      [ cbn [py_getitem];
        match goal with
        | |- context [dict_update ?p [("id", ?i); ("type", ?t); ("original_data", ?o);
                                      ("processed_at", ?a); ("processed_by", ?by_);
                                      ("worker", ?k)]] =>
            rewrite (proj1 (blockchain_metadata p i t o a by_ k))
        end; reflexivity
      | rewrite (mbind_ret_step _ _ _ _ _ Hs);
        destruct (try_except_unit
                    (id <- lift (py_getitem pd "id") ;;
                     type <- lift (py_get pd "type" (JStr "blockchain_event")) ;;
                     processed_at <- lift (py_getitem pd "processed_at") ;;
                     user_id <- lift (py_get pd "processed_by" (JInt 0)) ;;
                     neo4j_execute E
                       [ ("event_id", id); ("event_type", type);
                         ("processed_at", processed_at);
                         ("data", JStr (json_dumps E pd)); ("user_id", user_id) ]) w3)
          as (w4 & Hg);
        change (Blockchain.update_graph_relationships E pd w3 = (Ret tt, w4)) in Hg;
        rewrite (mbind_ret_step _ _ _ _ _ Hg) ]
  end.
  unfold mret. do 3 eexists. reflexivity.
Qed.

Lemma nft_price_not_a_number E d e w :
  py_float E (dict_get d "price" (JInt 0)) = Raise e ->
  Blockchain.nft_sale_body E (JObj d) w = (Raise e, w).
Proof.
  intro H. unfold Blockchain.nft_sale_body. cbn [py_get].
  do 3 rewrite (bind_lift_ret _ _ _ _ eq_refl).
  rewrite (bind_lift_raise _ _ _ _ H). reflexivity.
Qed.

Lemma transfer_amount_not_a_number E d e w :
  py_float E (dict_get d "amount" (JInt 0)) = Raise e ->
  Blockchain.token_transfer_body E (JObj d) w = (Raise e, w).
Proof.
  intro H. unfold Blockchain.token_transfer_body. cbn [py_get].
  do 3 rewrite (bind_lift_ret _ _ _ _ eq_refl).
  rewrite (bind_lift_raise _ _ _ _ H). reflexivity.
Qed.

(** The result of [process_event] after a sub-analyzer returned the error
    dictionary [processed]. *)
Lemma blockchain_failure_result E envelope d event_type processed e w w1 :
  dict_find "data" envelope = Some (JObj d) ->
  dict_find "event_type" d = Some event_type ->
  (if py_eq_str event_type "nft_sale" then Blockchain.process_nft_sale E (JObj d)
   else if py_eq_str event_type "token_transfer"
        then Blockchain.process_token_transfer E (JObj d)
   else if py_eq_str event_type "defi_swap" then Blockchain.process_defi_swap E (JObj d)
   else mraise (ValueError ("Unknown blockchain event type: " +++
                            py_format E event_type))) w = (Ret processed, w1) ->
  dict_find "error" processed = Some (JStr (str_of_exn e)) ->
  dict_find "analysis" processed = None ->
  exists r id w',
    Blockchain.process_event E (JObj envelope) w = (Ret (JObj r), w') /\
    persisted E Blockchain.worker_type (JObj r) w w' /\
    dict_find "type" r = Some (JStr "blockchain_event") /\
    dict_find "id" r = Some (JStr id) /\
    (exists t, id = "blockchain_" +++ str_of_Z t) /\
    starts_with "blockchain_error" id = false /\
    dict_find "error" r = Some (JStr (str_of_exn e)) /\
    dict_find "analysis" r = None /\
    (forall e',
       ~ error_shape "blockchain_error_" "blockchain_error" "blockchain_worker"
           envelope e' (JObj r)).
Proof.
  intros Hd Ht Hsub Herr Han.
  destruct (blockchain_body_after_dispatch E envelope d event_type processed w w1
              Hd Ht Hsub) as (t_id & t_at & w' & Hbody).
  pose proof (blockchain_body_saves E (JObj envelope) w) as Hsave.
  rewrite Hbody in Hsave.
  match type of Hbody with
  | _ = (Ret (JObj (dict_update ?p [("id", ?i); ("type", ?t); ("original_data", ?o);
                                    ("processed_at", ?a); ("processed_by", ?b);
                                    ("worker", ?k)])), _) =>
      destruct (blockchain_metadata p i t o a b k) as (Mi & Mt & _ & _ & _ & _ & Mo)
  end.
  do 3 eexists.
  split; [unfold Blockchain.process_event; apply try_except_ret; exact Hbody|].
  split; [exact Hsave|].
  split; [exact Mt|].
  split; [exact Mi|].
  split; [eexists; reflexivity|].
  split; [apply blockchain_id_is_no_error_id|].
  split; [rewrite Mo by reflexivity; exact Herr|].
  split; [rewrite Mo by reflexivity; exact Han|].
  intros e' (t1 & t2 & Hr).
  match type of Hr with
  | ?x = _ =>
      assert (Hty : py_getitem x "type" = Ret (JStr "blockchain_error"))
        by (rewrite Hr; reflexivity)
  end.
  cbn [py_getitem] in Hty. rewrite Mt in Hty. injection Hty as Hty.
  revert Hty. str_neq.
Qed.

(** C10. When the sub-analyzer of a blockchain event fails inside, for
    instance on a [price] or [amount] that is no number, [process_event]
    still completes its [try] block: the result it returns and writes has
    the type blockchain_event and an id blockchain_<seconds>, carries the
    sub-analyzer's [error] and no [analysis], and is not an error result. *)
Theorem sub_analyzer_failure_is_processed (E : env) :
  (forall envelope d w e,
     dict_find "data" envelope = Some (JObj d) ->
     sub_analyzer_fails E d w e ->
     exists r id w',
       Blockchain.process_event E (JObj envelope) w = (Ret (JObj r), w') /\
       persisted E Blockchain.worker_type (JObj r) w w' /\
       dict_find "type" r = Some (JStr "blockchain_event") /\
       dict_find "id" r = Some (JStr id) /\
       (exists t, id = "blockchain_" +++ str_of_Z t) /\
       starts_with "blockchain_error" id = false /\
       dict_find "error" r = Some (JStr (str_of_exn e)) /\
       dict_find "analysis" r = None /\
       (forall e',
          ~ error_shape "blockchain_error_" "blockchain_error" "blockchain_worker"
              envelope e' (JObj r))) /\
  (forall d e w,
     py_float E (dict_get d "price" (JInt 0)) = Raise e ->
     Blockchain.nft_sale_body E (JObj d) w = (Raise e, w)) /\
  (forall d e w,
     py_float E (dict_get d "amount" (JInt 0)) = Raise e ->
     Blockchain.token_transfer_body E (JObj d) w = (Raise e, w)).
Proof.
  split; [|split; [exact (nft_price_not_a_number E)
                  | exact (transfer_amount_not_a_number E)]].
  intros envelope d w e Hd [[Ht [w1 Hb]] | [[Ht [w1 Hb]] | [Ht [w1 Hb]]]].
  - eapply (blockchain_failure_result E envelope d _ _ e w _ Hd Ht).
    + exact (nft_sale_failure E d e w w1 Hb).
    + reflexivity.
    + reflexivity.
  - eapply (blockchain_failure_result E envelope d _ _ e w _ Hd Ht).
    + exact (token_transfer_failure E d e w w1 Hb).
    + reflexivity.
    + reflexivity.
  - eapply (blockchain_failure_result E envelope d _ _ e w _ Hd Ht).
    + exact (defi_swap_failure E d e w w1 Hb).
    + reflexivity.
    + reflexivity.
Qed.

Lemma sub_analyzer_failure_is_processed_witness :
  exists r id w',
    Blockchain.process_event offline_env
      (JObj [("data", JObj [("event_type", JStr "nft_sale"); ("price", JStr "abc")])])
      world0 = (Ret (JObj r), w') /\
    persisted offline_env Blockchain.worker_type (JObj r) world0 w' /\
    dict_find "type" r = Some (JStr "blockchain_event") /\
    dict_find "id" r = Some (JStr id) /\
    (exists t, id = "blockchain_" +++ str_of_Z t) /\
    starts_with "blockchain_error" id = false /\
    dict_find "error" r =
      Some (JStr (str_of_exn (ValueError "could not convert string to float"))) /\
    dict_find "analysis" r = None /\
    (forall e',
       ~ error_shape "blockchain_error_" "blockchain_error" "blockchain_worker"
           [("data", JObj [("event_type", JStr "nft_sale"); ("price", JStr "abc")])]
           e' (JObj r)).
Proof.
  apply (proj1 (sub_analyzer_failure_is_processed offline_env)
           [("data", JObj [("event_type", JStr "nft_sale"); ("price", JStr "abc")])]
           [("event_type", JStr "nft_sale"); ("price", JStr "abc")]
           world0 (ValueError "could not convert string to float")).
  - reflexivity.
  - left. split; [reflexivity|]. exists world0.
    apply (proj1 (proj2 (sub_analyzer_failure_is_processed offline_env))).
    reflexivity.
Defined.

(** ** C4: sentiment *)

Lemma max_min_is_clamp (x : Q) : (Qmax (-1) (Qmin 1 x) == clamp (-1) 1 x)%Q.
Proof.
  unfold Qmax, Qmin, clamp.
  destruct (Qle_bool 1 x) eqn:H1.
  - apply Qle_bool_iff in H1. cbn.
    assert (Hx : Qltb x (-1) = false).
    { apply Qltb_ge. eapply Qle_trans; [|exact H1]. discriminate. }
    rewrite Hx.
    destruct (Qltb 1 x) eqn:H2; [reflexivity|].
    apply Qltb_ge in H2. apply Qle_antisym; assumption.
  - assert (H1' : (x < 1)%Q).
    { apply Qnot_le_lt. intro L. apply Qle_bool_iff in L. congruence. }
    assert (H2 : Qltb 1 x = false) by (apply Qltb_ge; apply Qlt_le_weak; exact H1').
    rewrite H2.
    destruct (Qle_bool (-1) x) eqn:H3.
    + apply Qle_bool_iff in H3. rewrite (proj2 (Qltb_ge x (-1)) H3). reflexivity.
    + assert (H3' : (x < -1)%Q).
      { apply Qnot_le_lt. intro L. apply Qle_bool_iff in L. congruence. }
      rewrite (proj2 (Qltb_lt x (-1)) H3'). reflexivity.
Qed.

Lemma clamp_inside (x : Q) : (-1 <= x)%Q -> (x <= 1)%Q -> clamp (-1) 1 x = x.
Proof.
  intros L U. unfold clamp.
  rewrite (proj2 (Qltb_ge x (-1)) L), (proj2 (Qltb_ge 1 x) U). reflexivity.
Qed.

Lemma label_rule (score : Q) :
  labelled (if Qltb (1 # 10) score then cps "positive"
            else if Qltb score (- (1 # 10)) then cps "negative"
            else cps "neutral") score.
Proof.
  unfold labelled.
  destruct (Qltb (1 # 10) score) eqn:Hp;
    [|destruct (Qltb score (- (1 # 10))) eqn:Hn];
    repeat match goal with
           | H : Qltb _ _ = true |- _ => apply Qltb_lt in H
           | H : Qltb _ _ = false |- _ => apply Qltb_ge in H
           end;
    repeat split; intros;
    repeat match goal with
           | H : _ /\ _ |- _ => destruct H
           end;
    try reflexivity; try assumption;
    try (match goal with
         | H : cps _ = cps _ |- _ => exfalso; revert H; str_neq
         end);
    destruct score as [n d]; unfold Qlt, Qle in *; cbn [Qnum Qden Qopp] in *; lia.
Qed.

Lemma sentiment_ratio_bounds (p n wc : nat) :
  (p <= wc)%nat -> (n <= wc)%nat -> (0 < wc)%nat ->
  (-1 <= inject_Z (Z.of_nat p - Z.of_nat n) / Qnat wc)%Q /\
  (inject_Z (Z.of_nat p - Z.of_nat n) / Qnat wc <= 1)%Q.
Proof.
  intros Hp Hn Hw.
  assert (Hpos : (0 < Qnat wc)%Q).
  { unfold Qnat. change 0%Q with (inject_Z 0). rewrite <- Zlt_Qlt. lia. }
  split.
  - apply Qle_shift_div_l; [exact Hpos|].
    unfold Qnat. change (-1)%Q with (inject_Z (-1)).
    rewrite <- inject_Z_mult, <- Zle_Qle. lia.
  - apply Qle_shift_div_r; [exact Hpos|].
    unfold Qnat. change 1%Q with (inject_Z 1).
    rewrite <- inject_Z_mult, <- Zle_Qle. lia.
Qed.

(** C4. For every message, with [p] positive, [n] negative and [wc] words
    in all: when no sentiment word matches the score is 0 and the label
    neutral; otherwise the score is [(p - n) / wc] clamped to [-1, 1]. The
    label is positive exactly above 0.1, negative exactly below -0.1 and
    neutral in between, 0.1 and -0.1 included: one positive word in ten
    gives 0.1 and neutral. [analyze_sentiment] returns that label, and the
    score rounded to three decimals. *)
Theorem sentiment_score_and_label (E : env) (message : pystr) :
  let words := Chat.tokenize_message E message in
  let p := List.length (Chat.words_in Chat.positive_words words) in
  let n := List.length (Chat.words_in Chat.negative_words words) in
  let wc := List.length words in
  exists score label s,
    Chat.sentiment_score p n wc = Ret (score, label) /\
    Chat.analyze_sentiment E message = Ret s /\
    Chat.s_label s = label /\
    Chat.s_score s = py_round 3 score /\
    ((p + n = 0)%nat -> score = 0%Q /\ label = cps "neutral") /\
    ((p + n <> 0)%nat ->
     (score == clamp (-1) 1 (inject_Z (Z.of_nat p - Z.of_nat n) / Qnat wc))%Q /\
     (score == inject_Z (Z.of_nat p - Z.of_nat n) / Qnat wc)%Q) /\
    labelled label score /\
    (exists at_boundary,
       Chat.sentiment_score 1 0 10 = Ret (at_boundary, cps "neutral") /\
       (at_boundary == 1 # 10)%Q) /\
    (exists at_boundary,
       Chat.sentiment_score 0 1 10 = Ret (at_boundary, cps "neutral") /\
       (at_boundary == - (1 # 10))%Q).
Proof.
  intros words p n wc.
  assert (Hp : (p <= wc)%nat) by apply filter_length_le.
  assert (Hn : (n <= wc)%nat) by apply filter_length_le.
  unfold Chat.analyze_sentiment. fold words. fold p. fold n. fold wc.
  rewrite (py_truediv_max1 (Qnat (p + n)) wc).
  unfold Chat.sentiment_score.
  destruct (Nat.eqb_spec (p + n) 0) as [Z0|NZ].
  - cbn [obind fst snd].
    do 3 eexists. split; [reflexivity|]. split; [reflexivity|].
    split; [reflexivity|]. split; [reflexivity|].
    split; [intros _; split; reflexivity|].
    split; [intro C; contradiction|].
    split; [exact (label_rule 0)|].
    split; eexists; split; reflexivity.
  - assert (Hw : (0 < wc)%nat) by lia.
    rewrite py_truediv_defined.
    2:{ intro Z. unfold Qnat in Z. change 0%Q with (inject_Z 0) in Z.
        apply (proj1 (inject_Z_injective _ _)) in Z. lia. }
    cbn [obind fst snd].
    destruct (sentiment_ratio_bounds p n wc Hp Hn Hw) as [Lo Hi].
    do 3 eexists. split; [reflexivity|]. split; [reflexivity|].
    split; [reflexivity|]. split; [reflexivity|].
    split; [intro C; contradiction|].
    split.
    + intros _. split.
      * apply max_min_is_clamp.
      * rewrite max_min_is_clamp. rewrite (clamp_inside _ Lo Hi). reflexivity.
    + split; [apply label_rule|].
      split; eexists; split; reflexivity.
Qed.

Lemma sentiment_score_and_label_witness :
  exists score label,
    Chat.sentiment_score 3 0 5 = Ret (score, label) /\
    (score == inject_Z (3 - 0) / Qnat 5)%Q /\
    label = cps "positive".
Proof.
  destruct (sentiment_score_and_label offline_env "good great amazing!!! @alice #win")
    as (score & label & s & H1 & _ & _ & _ & _ & H6 & _).
  exists score, label. split; [exact H1|]. split.
  - apply H6. vm_compute. discriminate.
  - vm_compute in H1. injection H1 as _ Hl. symmetry. exact Hl.
Defined.

(** ** C6: scenario A *)

Lemma engagement_is_the_formula E (d : dict) (message : pystr) :
  dict_find "message" d = Some (JStr message) ->
  Chat.calculate_engagement_score E (JObj d) =
    Ret (engagement_formula
           (List.length message) (str_count 63 message) (str_count 33 message)
           (List.length (Chat.tagged_runs E 64 message None))
           (List.length (Chat.tagged_runs E 35 message None))
           (List.length (filter Chat.is_emoji message))).
Proof.
  intro H. unfold Chat.calculate_engagement_score. cbn [py_get obind].
  unfold dict_get. rewrite H. unfold engagement_formula.
  destruct ((50 <=? List.length message) && (List.length message <=? 200))%nat;
    [|destruct (500 <? List.length message)%nat;
      [|destruct (List.length message <? 10)%nat]];
    f_equal; lia.
Qed.

(** C6, refuted as stated: on the message of scenario A the engagement
    score is not the 74 that a +10 length bonus would give. *)
Lemma scenario_a_counterexample : ~ scenario_a_as_stated offline_env.
Proof.
  intros (_ & _ & _ & H). vm_compute in H. discriminate H.
Qed.

(** C6, amended. On the message of scenario A the sentiment label is
    positive, the mentions are [alice] and the hashtags [win]; the
    engagement score of any message is the formula of section 4.5 on its
    counts, and here, with 33 characters, no question mark, three
    exclamation marks, one mention, one hashtag and no emoji, it is
    50 + 6 + 5 + 3 = 64: the length bonus is for 50 to 200 characters and
    does not apply. *)
Theorem scenario_a_analysis (E : env) :
  (exists s, Chat.analyze_sentiment E scenario_a_message = Ret s /\
             Chat.s_label s = cps "positive") /\
  dict_find "mentions" (Chat.extract_entities E scenario_a_message)
    = Some (jstrs [cps "alice"]) /\
  dict_find "hashtags" (Chat.extract_entities E scenario_a_message)
    = Some (jstrs [cps "win"]) /\
  (forall (d : dict) (message : pystr) (value : Z),
     Chat.calculate_engagement_score E (JObj d) = Ret value ->
     dict_find "message" d = Some (JStr message) ->
     value = engagement_formula
               (List.length message) (str_count 63 message) (str_count 33 message)
               (List.length (Chat.tagged_runs E 64 message None))
               (List.length (Chat.tagged_runs E 35 message None))
               (List.length (filter Chat.is_emoji message))) /\
  Chat.calculate_engagement_score E scenario_a_data = Ret 64 /\
  List.length scenario_a_message = 33%nat /\
  ((50 <=? 33) && (33 <=? 200))%nat = false /\
  engagement_formula 33 0 3 1 1 0 = 50 + 6 + 5 + 3.
Proof.
  split.
  { eexists. split; vm_compute; reflexivity. }
  split; [vm_compute; reflexivity|].
  split; [vm_compute; reflexivity|].
  split.
  { intros d message value Hv Hm.
    rewrite (engagement_is_the_formula E d message Hm) in Hv.
    injection Hv as Hv. symmetry. exact Hv. }
  repeat split; vm_compute; reflexivity.
Qed.

Lemma scenario_a_analysis_witness :
  64 = engagement_formula 33 0 3 1 1 0.
Proof.
  exact (proj1 (proj2 (proj2 (proj2 (scenario_a_analysis offline_env))))
           [ ("message", JStr scenario_a_message); ("user", JStr "bob") ]
           scenario_a_message 64 eq_refl eq_refl).
Defined.

(** ** C8: toxicity and spam scores are monotone *)

Lemma round_half_even_bounds (y : Q) :
  Qfloor y <= round_half_even y <= Qfloor y + 1.
Proof.
  unfold round_half_even.
  destruct (Qltb (y - inject_Z (Qfloor y)) (1 # 2)); [lia|].
  destruct (Qltb (1 # 2) (y - inject_Z (Qfloor y))); [lia|].
  destruct (Z.even (Qfloor y)); lia.
Qed.

Lemma round_half_even_mono (x y : Q) :
  (x <= y)%Q -> round_half_even x <= round_half_even y.
Proof.
  intro H. pose proof (Qfloor_resp_le x y H) as Hfl.
  destruct (Z.eq_dec (Qfloor x) (Qfloor y)) as [Heq|Hne].
  - assert (Hfrac : (x - inject_Z (Qfloor x) <= y - inject_Z (Qfloor y))%Q).
    { rewrite Heq. apply Qplus_le_l with (z := inject_Z (Qfloor y)).
      ring_simplify. exact H. }
    unfold round_half_even. rewrite <- Heq in *.
    set (fx := (x - inject_Z (Qfloor x))%Q) in *.
    set (fy := (y - inject_Z (Qfloor x))%Q) in *.
    destruct (Qltb fx (1 # 2)) eqn:X1.
    + destruct (Qltb fy (1 # 2)); [lia|].
      destruct (Qltb (1 # 2) fy); [lia|].
      destruct (Z.even (Qfloor x)); lia.
    + apply Qltb_ge in X1.
      assert (Y1 : Qltb fy (1 # 2) = false).
      { apply Qltb_ge. eapply Qle_trans; eassumption. }
      rewrite Y1.
      destruct (Qltb (1 # 2) fx) eqn:X2.
      * apply Qltb_lt in X2.
        assert (Y2 : Qltb (1 # 2) fy = true).
        { apply Qltb_lt. eapply Qlt_le_trans; eassumption. }
        rewrite Y2. lia.
      * destruct (Qltb (1 # 2) fy); [destruct (Z.even (Qfloor x)); lia|].
        destruct (Z.even (Qfloor x)); lia.
  - pose proof (round_half_even_bounds x). pose proof (round_half_even_bounds y). lia.
Qed.

Lemma py_round_mono (n : nat) (x y : Q) : (x <= y)%Q -> (py_round n x <= py_round n y)%Q.
Proof.
  intro H. unfold py_round. rewrite !Qred_correct.
  assert (Hs : 0 < 10 ^ Z.of_nat n) by (apply Z.pow_pos_nonneg; lia).
  assert (Hq : (0 < inject_Z (10 ^ Z.of_nat n))%Q).
  { change 0%Q with (inject_Z 0). rewrite <- Zlt_Qlt. exact Hs. }
  apply Qmult_le_compat_r.
  - rewrite <- Zle_Qle. apply round_half_even_mono.
    apply Qmult_le_compat_r; [exact H | apply Qlt_le_weak; exact Hq].
  - apply Qlt_le_weak. apply Qinv_lt_0_compat. exact Hq.
Qed.

Lemma toxicity_score_value (toxic_count word_count : nat) :
  Chat.toxicity_score toxic_count word_count =
    Ret (Qmin 1 (Qnat toxic_count / Qnat (Nat.max 1 word_count) * 10)).
Proof.
  unfold Chat.toxicity_score. rewrite py_truediv_max1. reflexivity.
Qed.

Lemma toxicity_value_mono (t1 t2 wc : nat) :
  (t1 <= t2)%nat ->
  (Qmin 1 (Qnat t1 / Qnat (Nat.max 1 wc) * 10) <=
   Qmin 1 (Qnat t2 / Qnat (Nat.max 1 wc) * 10))%Q.
Proof.
  intro H. apply Qmin_le_mono.
  apply Qmult_le_compat_r; [|discriminate].
  apply Qmult_le_compat_r; [apply Qnat_le; exact H|].
  apply Qlt_le_weak. apply Qinv_lt_0_compat. apply Qnat_max1_pos.
Qed.

Lemma spam_score_mono (n1 n2 : nat) :
  (n1 <= n2)%nat -> (Chat.spam_score n1 <= Chat.spam_score n2)%Q.
Proof.
  intro H. unfold Chat.spam_score. apply Qmin_le_mono.
  apply Qmult_le_compat_r; [apply Qnat_le; exact H | discriminate].
Qed.

Lemma detect_toxicity_score E message :
  exists r,
    Chat.detect_toxicity E message = Ret r /\
    Chat.t_score r =
      py_round 3
        (Qmin 1 (Qnat (List.length (Chat.words_in Chat.toxic_words
                                      (Chat.tokenize_message E message)))
                 / Qnat (Nat.max 1 (List.length (Chat.tokenize_message E message)))
                 * 10)).
Proof.
  unfold Chat.detect_toxicity. rewrite toxicity_score_value. cbn [obind].
  rewrite py_truediv_max1. cbn [obind]. eexists. split; reflexivity.
Qed.

Lemma spam_indicators_returns E message :
  exists indicators, Chat.spam_indicators E message = Ret indicators.
Proof.
  unfold Chat.spam_indicators. rewrite py_truediv_max1. cbn [obind].
  eexists. reflexivity.
Qed.

Lemma detect_spam_score E message indicators :
  Chat.spam_indicators E message = Ret indicators ->
  exists r,
    Chat.detect_spam E message = Ret r /\
    Chat.sp_indicators r = indicators /\
    Chat.sp_score r = py_round 3 (Chat.spam_score (List.length indicators)).
Proof.
  intro H. unfold Chat.detect_spam. rewrite H. cbn [obind].
  eexists. repeat split.
Qed.

(** C8. With the number of words fixed, the toxicity score
    [min(1, toxic_count / max(1, word_count) * 10)] does not decrease when
    more toxic words match, and the spam score [min(1, indicators / 5)] does
    not decrease when more indicators are found; the same holds of the
    rounded scores [detect_toxicity] and [detect_spam] report for two
    messages. *)
Theorem toxicity_and_spam_scores_monotone (E : env) :
  (forall t1 t2 wc,
     (t1 <= t2)%nat ->
     exists s1 s2,
       Chat.toxicity_score t1 wc = Ret s1 /\
       Chat.toxicity_score t2 wc = Ret s2 /\
       (s1 <= s2)%Q) /\
  (forall n1 n2, (n1 <= n2)%nat -> (Chat.spam_score n1 <= Chat.spam_score n2)%Q) /\
  (forall m1 m2,
     List.length (Chat.tokenize_message E m1) = List.length (Chat.tokenize_message E m2) ->
     (List.length (Chat.words_in Chat.toxic_words (Chat.tokenize_message E m1)) <=
      List.length (Chat.words_in Chat.toxic_words (Chat.tokenize_message E m2)))%nat ->
     exists r1 r2,
       Chat.detect_toxicity E m1 = Ret r1 /\
       Chat.detect_toxicity E m2 = Ret r2 /\
       (Chat.t_score r1 <= Chat.t_score r2)%Q) /\
  (forall m1 m2,
     exists r1 r2,
       Chat.detect_spam E m1 = Ret r1 /\
       Chat.detect_spam E m2 = Ret r2 /\
       ((List.length (Chat.sp_indicators r1) <= List.length (Chat.sp_indicators r2))%nat ->
        (Chat.sp_score r1 <= Chat.sp_score r2)%Q)).
Proof.
  split.
  { intros t1 t2 wc H. do 2 eexists.
    split; [apply toxicity_score_value|].
    split; [apply toxicity_score_value|].
    apply toxicity_value_mono. exact H. }
  split; [exact spam_score_mono|].
  split.
  { intros m1 m2 Hw Ht.
    destruct (detect_toxicity_score E m1) as (r1 & H1 & S1).
    destruct (detect_toxicity_score E m2) as (r2 & H2 & S2).
    exists r1, r2. split; [exact H1|]. split; [exact H2|].
    rewrite S1, S2, Hw. apply py_round_mono. apply toxicity_value_mono. exact Ht. }
  intros m1 m2.
  destruct (spam_indicators_returns E m1) as (i1 & I1).
  destruct (spam_indicators_returns E m2) as (i2 & I2).
  destruct (detect_spam_score E m1 i1 I1) as (r1 & H1 & L1 & S1).
  destruct (detect_spam_score E m2 i2 I2) as (r2 & H2 & L2 & S2).
  exists r1, r2. split; [exact H1|]. split; [exact H2|].
  intro H. rewrite S1, S2. apply py_round_mono. apply spam_score_mono.
  rewrite <- L1, <- L2. exact H.
Qed.

Lemma toxicity_and_spam_scores_monotone_witness :
  (exists s1 s2,
     Chat.toxicity_score 1 4 = Ret s1 /\ Chat.toxicity_score 2 4 = Ret s2 /\
     (s1 <= s2)%Q) /\
  (Chat.spam_score 1 <= Chat.spam_score 3)%Q /\
  (exists r1 r2,
     Chat.detect_toxicity offline_env "what a nice scam" = Ret r1 /\
     Chat.detect_toxicity offline_env "fake bot scam alert" = Ret r2 /\
     (Chat.t_score r1 <= Chat.t_score r2)%Q).
Proof.
  split.
  - apply (proj1 (toxicity_and_spam_scores_monotone offline_env) 1%nat 2%nat 4%nat). lia.
  - split.
    + apply (proj1 (proj2 (toxicity_and_spam_scores_monotone offline_env)) 1%nat 3%nat).
      lia.
    + apply (proj1 (proj2 (proj2 (toxicity_and_spam_scores_monotone offline_env)))
               "what a nice scam" "fake bot scam alert").
      * reflexivity.
      * vm_compute. lia.
Defined.

(** * Further properties *)

(** ** The worker loop *)

Lemma calm_mret {A} (a : A) : calm (mret a).
Proof. intro w. reflexivity. Qed.

Lemma calm_mraise {A} (e : exn) : calm (@mraise A e).
Proof. intro w. reflexivity. Qed.

Lemma calm_lift {A} (o : outcome A) : calm (lift o).
Proof. intro w. reflexivity. Qed.

Lemma calm_bind {A B} (c : M A) (f : A -> M B) :
  calm c -> (forall a, calm (f a)) -> calm (mbind c f).
Proof.
  intros Hc Hf w. unfold mbind. specialize (Hc w).
  destruct (c w) as [[a|e] w1]; cbn [snd] in *.
  - rewrite (Hf a w1). exact Hc.
  - exact Hc.
Qed.

Lemma calm_try {A} (c : M A) (h : exn -> M A) :
  calm c -> (forall e, calm (h e)) -> calm (try_except c h).
Proof.
  intros Hc Hh w. unfold try_except. specialize (Hc w).
  destruct (c w) as [[a|e] w1]; cbn [snd] in *.
  - exact Hc.
  - rewrite (Hh e w1). exact Hc.
Qed.

Lemma calm_if {A} (b : bool) (c1 c2 : M A) :
  calm c1 -> calm c2 -> calm (if b then c1 else c2).
Proof. destruct b; auto. Qed.

Lemma calm_now E : calm (now E).
Proof. intro w. reflexivity. Qed.

Lemma calm_ai_chat E data : calm (ai_chat E data).
Proof. intro w. reflexivity. Qed.

Lemma calm_redis_setex E key ttl value : calm (redis_setex E key ttl value).
Proof. intro w. reflexivity. Qed.

Lemma calm_db_session E : calm (db_session E).
Proof. intro w. reflexivity. Qed.

Lemma calm_neo4j_execute E params : calm (neo4j_execute E params).
Proof. intro w. reflexivity. Qed.

Create HintDb calm.
#[export] Hint Resolve calm_mret calm_mraise calm_lift calm_now calm_ai_chat
  calm_redis_setex calm_db_session calm_neo4j_execute : calm.
#[export] Hint Extern 2 (calm (mbind _ _)) => apply calm_bind; [|intro] : calm.
#[export] Hint Extern 2 (calm (try_except _ _)) => apply calm_try; [|intro] : calm.
#[export] Hint Extern 2 (calm (if _ then _ else _)) => apply calm_if : calm.

Ltac calm_auto := solve [auto 40 with calm].

Lemma calm_lead_save E d : calm (Lead.save_to_database E d).
Proof. unfold Lead.save_to_database. calm_auto. Qed.

Lemma calm_lead_graph E d : calm (Lead.update_graph_relationships E d).
Proof. unfold Lead.update_graph_relationships. calm_auto. Qed.

Lemma calm_analyze_lead E d : calm (Lead.analyze_lead_with_ai E d).
Proof. unfold Lead.analyze_lead_with_ai. calm_auto. Qed.

Lemma calm_blockchain_save E d : calm (Blockchain.save_to_database E d).
Proof. unfold Blockchain.save_to_database. calm_auto. Qed.

Lemma calm_blockchain_graph E d : calm (Blockchain.update_graph_relationships E d).
Proof. unfold Blockchain.update_graph_relationships. calm_auto. Qed.

Lemma calm_transaction_details E s : calm (Blockchain.get_transaction_details E s).
Proof. unfold Blockchain.get_transaction_details. calm_auto. Qed.

#[export] Hint Resolve calm_lead_save calm_lead_graph calm_analyze_lead
  calm_blockchain_save calm_blockchain_graph calm_transaction_details : calm.

Lemma calm_nft_sale E d : calm (Blockchain.process_nft_sale E d).
Proof.
  unfold Blockchain.process_nft_sale, Blockchain.nft_sale_body. calm_auto.
Qed.

Lemma calm_token_transfer E d : calm (Blockchain.process_token_transfer E d).
Proof.
  unfold Blockchain.process_token_transfer, Blockchain.token_transfer_body. calm_auto.
Qed.

Lemma calm_defi_swap E d : calm (Blockchain.process_defi_swap E d).
Proof.
  unfold Blockchain.process_defi_swap, Blockchain.defi_swap_body. calm_auto.
Qed.

Lemma calm_chat_save E d : calm (Chat.save_to_database E d).
Proof. unfold Chat.save_to_database. calm_auto. Qed.

Lemma calm_chat_graph E d : calm (Chat.update_graph_relationships E d).
Proof. unfold Chat.update_graph_relationships. calm_auto. Qed.

#[export] Hint Resolve calm_nft_sale calm_token_transfer calm_defi_swap
  calm_chat_save calm_chat_graph : calm.

Lemma calm_lead_process E ev : calm (Lead.process_event E ev).
Proof.
  unfold Lead.process_event, Lead.process_body, Lead.process_handler. calm_auto.
Qed.

Lemma calm_blockchain_process E ev : calm (Blockchain.process_event E ev).
Proof.
  unfold Blockchain.process_event, Blockchain.process_body, Blockchain.process_handler.
  calm_auto.
Qed.

Lemma calm_chat_process E ev : calm (Chat.process_event E ev).
Proof.
  unfold Chat.process_event, Chat.process_body, Chat.process_handler. calm_auto.
Qed.

(** What [process_event] returns for an envelope is a dictionary. *)
Lemma terminal_result_is_object E wt pe pb p t ep et wk envelope w r w' :
  (forall ev w0 r0 w0', pb ev w0 = (Ret r0, w0') -> is_object r0 = true) ->
  terminal_result E wt pe pb p t ep et wk envelope w ->
  pe (JObj envelope) w = (Ret r, w') -> is_object r = true.
Proof.
  intros Hb (r1 & w1 & Hpe & _ & [[Hbody _] | (e & w2 & _ & (t1 & t2 & Hr))]) Hrun;
    rewrite Hpe in Hrun; injection Hrun as <- <-.
  - exact (Hb _ _ _ _ Hbody).
  - subst r1. reflexivity.
Qed.

Lemma lead_result_is_object E envelope w :
  exists r w', Lead.process_event E (JObj envelope) w = (Ret (JObj r), w').
Proof.
  destruct (lead_terminal_result E envelope w) as (r & w' & Hpe & Hrest).
  assert (Ho : is_object r = true).
  { eapply (terminal_result_is_object E _ (Lead.process_event E) (Lead.process_body E));
      [|exists r, w'; split; [exact Hpe | exact Hrest]|exact Hpe].
    intros ev w0 r0 w0' H. apply lead_body_result in H.
    destruct H as (? & ? & ? & ? & ? & ? & -> & _). reflexivity. }
  destruct r; try discriminate Ho. do 2 eexists. exact Hpe.
Qed.

Lemma blockchain_result_is_object E envelope w :
  exists r w', Blockchain.process_event E (JObj envelope) w = (Ret (JObj r), w').
Proof.
  destruct (blockchain_terminal_result E envelope w) as (r & w' & Hpe & Hrest).
  assert (Ho : is_object r = true).
  { eapply (terminal_result_is_object E _ (Blockchain.process_event E)
              (Blockchain.process_body E));
      [|exists r, w'; split; [exact Hpe | exact Hrest]|exact Hpe].
    intros ev w0 r0 w0' H. apply blockchain_body_result in H.
    destruct H as (? & ? & ? & ? & ? & -> & _). reflexivity. }
  destruct r; try discriminate Ho. do 2 eexists. exact Hpe.
Qed.

Lemma chat_result_is_object E envelope w :
  exists r w', Chat.process_event E (JObj envelope) w = (Ret (JObj r), w').
Proof.
  destruct (chat_terminal_result E envelope w) as (r & w' & Hpe & Hrest).
  assert (Ho : is_object r = true).
  { eapply (terminal_result_is_object E _ (Chat.process_event E) (Chat.process_body E));
      [|exists r, w'; split; [exact Hpe | exact Hrest]|exact Hpe].
    intros ev w0 r0 w0' H. apply chat_body_result in H.
    destruct H as (? & ? & ? & ? & ? & ? & ? & ? & -> & _). reflexivity. }
  destruct r; try discriminate Ho. do 2 eexists. exact Hpe.
Qed.

Lemma iteration_on_envelope E wt (process_event : json -> M json) item envelope w :
  brpop_reply E (tick w) = Ret (Some item) ->
  json_loads E item = Some (JObj envelope) ->
  calm (process_event (JObj envelope)) ->
  (exists r w',
     process_event (JObj envelope) (interact (RedisBrpop ("events:" +++ wt)) w)
       = (Ret (JObj r), w')) ->
  exists w',
    listen_iteration E wt process_event w = (Ret tt, w') /\
    backoffs (trace w') = backoffs (trace w).
Proof.
  intros Hpop Hload Hcalm (r & w' & Hrun).
  exists w'. split.
  - exact (listen_iteration_returns E wt process_event item _ r w w' Hpop Hload Hrun).
  - specialize (Hcalm (interact (RedisBrpop ("events:" +++ wt)) w)).
    rewrite Hrun in Hcalm. exact Hcalm.
Qed.

(** X1. An item taken from the queue that is not valid JSON is dropped: the
    iteration of the worker loop ends right after the [brpop], without
    calling [process_event], writing a result or backing off. An empty
    queue gives the same iteration. *)
Theorem undecodable_item_is_dropped (E : env) (w : world) :
  brpop_reply E (tick w) = Ret None \/
  (exists item, brpop_reply E (tick w) = Ret (Some item) /\ json_loads E item = None) ->
  Lead.listen_and_process_step E w =
    (Ret tt, interact (RedisBrpop "events:lead_scoring") w) /\
  Blockchain.listen_and_process_step E w =
    (Ret tt, interact (RedisBrpop "events:blockchain_events") w) /\
  Chat.listen_and_process_step E w =
    (Ret tt, interact (RedisBrpop "events:chat_analysis") w).
Proof.
  intros [Hpop | (item & Hpop & Hload)];
    unfold Lead.listen_and_process_step, Blockchain.listen_and_process_step,
      Chat.listen_and_process_step, listen_iteration, mbind, redis_brpop;
    rewrite Hpop; try rewrite Hload; repeat split; reflexivity.
Qed.

Lemma undecodable_item_is_dropped_witness :
  Lead.listen_and_process_step faulty_queue_env (world_at 0) =
    (Ret tt, interact (RedisBrpop "events:lead_scoring") (world_at 0)) /\
  Chat.listen_and_process_step faulty_queue_env (world_at 2) =
    (Ret tt, interact (RedisBrpop "events:chat_analysis") (world_at 2)).
Proof.
  split.
  - apply (undecodable_item_is_dropped faulty_queue_env (world_at 0)).
    right. exists broken_item. split; reflexivity.
  - apply (undecodable_item_is_dropped faulty_queue_env (world_at 2)).
    left. reflexivity.
Defined.

Lemma lead_non_object_raises E v w :
  is_object v = false ->
  Lead.process_event E v w =
    (Raise (AttributeError "object has no attribute 'get'"),
     interact (ClockRead (utcnow E (tick w))) w).
Proof. destruct v; try discriminate; reflexivity. Qed.

Lemma blockchain_non_object_raises E v w :
  is_object v = false ->
  Blockchain.process_event E v w =
    (Raise (AttributeError "object has no attribute 'get'"),
     interact (ClockRead (utcnow E (tick w))) w).
Proof. destruct v; try discriminate; reflexivity. Qed.

Lemma chat_non_object_raises E v w :
  is_object v = false ->
  Chat.process_event E v w =
    (Raise (AttributeError "object has no attribute 'get'"),
     interact (ClockRead (utcnow E (tick w))) w).
Proof. destruct v; try discriminate; reflexivity. Qed.

(** X2. An item that is valid JSON but not an object (a list, a string, a
    number, null) gets no result at all: [process_event] raises from its own
    handler, at [event_data.get], after reading the clock once; nothing is
    written to Redis, and the loop backs off for five seconds. *)
Theorem non_object_item_backs_off (E : env) (item : pystr) (v : json) (w : world) :
  brpop_reply E (tick w) = Ret (Some item) ->
  json_loads E item = Some v ->
  is_object v = false ->
  let after (queue : pystr) :=
    interact (Sleep 5)
      (interact (ClockRead (utcnow E (S (tick w))))
         (interact (RedisBrpop queue) w)) in
  Lead.listen_and_process_step E w = (Ret tt, after "events:lead_scoring") /\
  Blockchain.listen_and_process_step E w = (Ret tt, after "events:blockchain_events") /\
  Chat.listen_and_process_step E w = (Ret tt, after "events:chat_analysis") /\
  setex_log (trace (after "events:lead_scoring")) = setex_log (trace w).
Proof.
  intros Hpop Hload Hv after.
  unfold Lead.listen_and_process_step, Blockchain.listen_and_process_step,
    Chat.listen_and_process_step, listen_iteration, mbind, redis_brpop.
  rewrite Hpop, Hload.
  rewrite (lead_non_object_raises E v _ Hv), (blockchain_non_object_raises E v _ Hv),
    (chat_non_object_raises E v _ Hv).
  repeat split; reflexivity.
Qed.

Lemma non_object_item_backs_off_witness :
  Lead.listen_and_process_step faulty_queue_env (world_at 1) =
    (Ret tt,
     interact (Sleep 5)
       (interact (ClockRead (utcnow faulty_queue_env 2))
          (interact (RedisBrpop "events:lead_scoring") (world_at 1)))).
Proof.
  apply (non_object_item_backs_off faulty_queue_env list_item (JArr []) (world_at 1));
    reflexivity.
Defined.

(** X3. No iteration of the worker loop ends in an exception, whatever the
    queue, the item and [process_event] do: the loop never stops. When the
    [brpop] itself fails, the iteration is that call and a back-off of five
    seconds. *)
Theorem worker_loop_never_raises (E : env) (w : world) :
  (forall wt process_event,
     exists w', listen_iteration E wt process_event w = (Ret tt, w')) /\
  (exists w', Lead.listen_and_process_step E w = (Ret tt, w')) /\
  (exists w', Blockchain.listen_and_process_step E w = (Ret tt, w')) /\
  (exists w', Chat.listen_and_process_step E w = (Ret tt, w')) /\
  (forall msg,
     brpop_reply E (tick w) = Raise (ServiceError msg) ->
     Lead.listen_and_process_step E w =
       (Ret tt, interact (Sleep 5) (interact (RedisBrpop "events:lead_scoring") w)) /\
     Blockchain.listen_and_process_step E w =
       (Ret tt,
        interact (Sleep 5) (interact (RedisBrpop "events:blockchain_events") w)) /\
     Chat.listen_and_process_step E w =
       (Ret tt, interact (Sleep 5) (interact (RedisBrpop "events:chat_analysis") w))).
Proof.
  assert (G : forall wt process_event,
             exists w', listen_iteration E wt process_event w = (Ret tt, w')).
  { intros wt pe. unfold listen_iteration.
    match goal with
    | |- context [match ?c with _ => _ end] => destruct c as [[[]|e] w1]
    end.
    - eexists; reflexivity.
    - destruct e; eexists; reflexivity. }
  split; [exact G|].
  split; [apply G|]. split; [apply G|]. split; [apply G|].
  intros msg Hpop.
  unfold Lead.listen_and_process_step, Blockchain.listen_and_process_step,
    Chat.listen_and_process_step, listen_iteration, mbind, redis_brpop.
  rewrite Hpop. repeat split; reflexivity.
Qed.

Lemma worker_loop_never_raises_witness :
  Lead.listen_and_process_step faulty_queue_env (world_at 3) =
    (Ret tt,
     interact (Sleep 5) (interact (RedisBrpop "events:lead_scoring") (world_at 3))).
Proof.
  apply (proj2 (proj2 (proj2 (proj2 (worker_loop_never_raises faulty_queue_env (world_at 3)))))
           "Connection refused").
  reflexivity.
Defined.

(** X4. An item that decodes to an object never costs a back-off: each
    worker's [process_event] returns a dictionary for it, the iteration ends
    where [process_event] ended, and between the two ends nobody slept. *)
Theorem envelope_causes_no_backoff (E : env) (item : pystr) (envelope : dict) (w : world) :
  brpop_reply E (tick w) = Ret (Some item) ->
  json_loads E item = Some (JObj envelope) ->
  (exists w', Lead.listen_and_process_step E w = (Ret tt, w') /\
              backoffs (trace w') = backoffs (trace w)) /\
  (exists w', Blockchain.listen_and_process_step E w = (Ret tt, w') /\
              backoffs (trace w') = backoffs (trace w)) /\
  (exists w', Chat.listen_and_process_step E w = (Ret tt, w') /\
              backoffs (trace w') = backoffs (trace w)).
Proof.
  intros Hpop Hload. repeat split.
  - apply (iteration_on_envelope E _ _ item envelope w Hpop Hload).
    + apply calm_lead_process.
    + apply lead_result_is_object.
  - apply (iteration_on_envelope E _ _ item envelope w Hpop Hload).
    + apply calm_blockchain_process.
    + apply blockchain_result_is_object.
  - apply (iteration_on_envelope E _ _ item envelope w Hpop Hload).
    + apply calm_chat_process.
    + apply chat_result_is_object.
Qed.

Lemma envelope_causes_no_backoff_witness :
  exists w', Lead.listen_and_process_step offline_env world0 = (Ret tt, w') /\
             backoffs (trace w') = backoffs (trace world0).
Proof.
  apply (proj1 (envelope_causes_no_backoff offline_env queued_item [("data", JObj [])]
                  world0 eq_refl eq_refl)).
Defined.

(** ** Lead scoring: the score read from the analysis *)

(** X5. Where [extract_score_from_analysis] takes the score from: the
    [score] of a JSON object, 50 when the object has none; for a text that
    is no JSON, the number the pattern ["score":\s*(\d+)] finds, and 50 when
    it finds none. It raises on a text only when [int] refuses what the
    pattern captured. *)
Theorem score_extraction_fallbacks (E : env) (text : pystr) :
  (forall a z,
     json_loads E text = Some (JObj a) -> dict_find "score" a = Some (JInt z) ->
     Lead.extract_score_from_analysis E (Some text) = Ret z) /\
  (forall a,
     json_loads E text = Some (JObj a) -> dict_find "score" a = None ->
     Lead.extract_score_from_analysis E (Some text) = Ret 50) /\
  (json_loads E text = None ->
   re_search_group E Lead.score_pattern text = None ->
   Lead.extract_score_from_analysis E (Some text) = Ret 50) /\
  (forall digits z,
     json_loads E text = None ->
     re_search_group E Lead.score_pattern text = Some digits ->
     str_to_int E digits = Some z ->
     Lead.extract_score_from_analysis E (Some text) = Ret z) /\
  ((forall digits,
      re_search_group E Lead.score_pattern text = Some digits ->
      str_to_int E digits <> None) ->
   exists z, Lead.extract_score_from_analysis E (Some text) = Ret z).
Proof.
  unfold Lead.extract_score_from_analysis.
  split; [|split; [|split; [|split]]].
  - intros a z Hj Hs. rewrite Hj. cbn [py_get obind]. unfold dict_get. rewrite Hs.
    reflexivity.
  - intros a Hj Hs. rewrite Hj. cbn [py_get obind]. unfold dict_get. rewrite Hs.
    reflexivity.
  - intros Hj Hr. rewrite Hj, Hr. reflexivity.
  - intros digits z Hj Hr Hi. rewrite Hj, Hr. cbn [py_int]. rewrite Hi. reflexivity.
  - intro Hd.
    match goal with
    | |- exists z, match ?p with _ => _ end = _ => destruct p as [z|e]
    end.
    + exists z. reflexivity.
    + destruct (re_search_group E Lead.score_pattern text) as [digits|] eqn:Hr.
      * specialize (Hd digits eq_refl). cbn [py_int].
        destruct (str_to_int E digits) as [z|]; [|contradiction Hd; reflexivity].
        exists z. reflexivity.
      * exists 50. reflexivity.
Qed.

Lemma score_extraction_fallbacks_witness :
  Lead.extract_score_from_analysis offline_env (Some overshoot_reply) = Ret 150 /\
  Lead.extract_score_from_analysis offline_env (Some (cps "n/a")) = Ret 50 /\
  Lead.extract_score_from_analysis frozen_env (Some prose_reply) = Ret 85 /\
  exists z, Lead.extract_score_from_analysis frozen_env (Some prose_reply) = Ret z.
Proof.
  split; [|split; [|split]].
  - apply (proj1 (score_extraction_fallbacks offline_env overshoot_reply)
             [("score", JInt 150)] 150); reflexivity.
  - apply (proj1 (proj2 (proj2 (score_extraction_fallbacks offline_env (cps "n/a")))));
      reflexivity.
  - apply (proj1 (proj2 (proj2 (proj2 (score_extraction_fallbacks frozen_env prose_reply))))
             (cps "85") 85); reflexivity.
  - apply (proj2 (proj2 (proj2 (proj2 (score_extraction_fallbacks frozen_env prose_reply))))).
    intros digits H. vm_compute in H. injection H as <-. discriminate.
Defined.

(** ** Lead scoring without the AI service *)

Lemma fallback_score_value E d email company_size title source :
  py_lower E (dict_get d "email" (JStr "")) = Ret email ->
  py_lower E (dict_get d "company_size" (JStr "")) = Ret company_size ->
  py_lower E (dict_get d "title" (JStr "")) = Ret title ->
  py_lower E (dict_get d "source" (JStr "")) = Ret source ->
  Lead.fallback_score E (JObj d) =
    Ret (rule_based_score email company_size title source,
         Lead.categorize_lead (rule_based_score email company_size title source)).
Proof.
  intros He Hc Ht Hs.
  unfold Lead.fallback_score. cbn [py_get obind].
  rewrite He. cbn [obind]. rewrite Hc. cbn [obind].
  rewrite Ht. cbn [obind]. rewrite Hs. cbn [obind].
  unfold rule_based_score, email_adjustment, company_size_adjustment,
    title_adjustment, source_adjustment, Lead.categorize_lead.
  destruct (any_in ["gmail.com"; "yahoo.com"; "hotmail.com"] email);
    [|destruct (any_in [".edu"; ".gov"; ".org"] email)];
    (destruct (str_contains "enterprise" company_size || str_contains "1000+" company_size);
     [|destruct (str_contains "medium" company_size || str_contains "100-1000" company_size)]);
    destruct (any_in ["ceo"; "cto"; "vp"; "director"; "manager"] title);
    (destruct (one_of ["referral"; "linkedin"; "conference"] source);
     [|destruct (one_of ["cold_email"; "advertisement"] source)]);
    reflexivity.
Qed.

(** The [try] block up to the AI call, for a valid lead. *)
Lemma lead_body_to_analysis E envelope payload w :
  dict_find "data" envelope = Some (JObj payload) ->
  lead_required payload = true ->
  Lead.process_body E (JObj envelope) w =
    (ai_analysis <- Lead.analyze_lead_with_ai E (JObj payload) ;;
     lead_score <- lift (Lead.extract_score_from_analysis E ai_analysis) ;;
     t_id <- now E ;;
     t_at <- now E ;;
     let processed_data :=
       JObj [ ("id", JStr ("lead_" +++ str_of_Z (unix_seconds t_id)));
              ("type", JStr "lead_scoring");
              ("original_data", JObj payload);
              ("ai_analysis", Lead.analysis_json ai_analysis);
              ("lead_score", JInt lead_score);
              ("category", JStr (Lead.categorize_lead lead_score));
              ("model_used", JStr (ai_model E));
              ("processed_at", JStr (isoformat t_at));
              ("processed_by", dict_get envelope "user_id" JNull);
              ("worker", JStr "lead_scoring_worker");
              ("recommendations",
                jstrs (Lead.get_recommendations (Lead.categorize_lead lead_score)
                         lead_score)) ] in
     Lead.save_to_database E processed_data ;;
     Lead.update_graph_relationships E processed_data ;;
     mret processed_data) w.
Proof.
  intros Hd Hv. unfold Lead.process_body. cbn [py_getitem py_get].
  rewrite Hd. rewrite (bind_lift_ret _ _ _ _ eq_refl).
  rewrite (bind_lift_ret _ _ _ _ eq_refl).
  rewrite lead_validate_spec, Hv. rewrite (bind_lift_ret _ _ _ _ eq_refl).
  reflexivity.
Qed.

(** X6. When the AI call fails, a valid lead whose scored fields are
    strings is still processed: [process_event] returns a lead_scoring
    result whose score is the rule-based one, within 0..100, with the
    category of that score and the rule-based report as [ai_analysis];
    [model_used] names the AI model all the same. The report is read back by
    [json.loads] from what [json.dumps] made of it. *)
Theorem ai_outage_falls_back_to_rules (E : env) (envelope payload : dict) (w : world)
  (e : exn) (email company_size title source : pystr) :
  let score := rule_based_score email company_size title source in
  let report := Lead.fallback_report score (Lead.categorize_lead score) in
  dict_find "data" envelope = Some (JObj payload) ->
  lead_required payload = true ->
  ai_completion E (tick w) (JObj payload) = Raise e ->
  py_lower E (dict_get payload "email" (JStr "")) = Ret email ->
  py_lower E (dict_get payload "company_size" (JStr "")) = Ret company_size ->
  py_lower E (dict_get payload "title" (JStr "")) = Ret title ->
  py_lower E (dict_get payload "source" (JStr "")) = Ret source ->
  json_loads E (json_dumps E report) = Some report ->
  exists r w',
    Lead.process_event E (JObj envelope) w = (Ret (JObj r), w') /\
    dict_find "type" r = Some (JStr "lead_scoring") /\
    dict_find "lead_score" r = Some (JInt score) /\
    0 <= score <= 100 /\
    dict_find "category" r = Some (JStr (Lead.categorize_lead score)) /\
    dict_find "ai_analysis" r = Some (JStr (json_dumps E report)) /\
    dict_find "model_used" r = Some (JStr (ai_model E)) /\
    dict_find "original_data" r = Some (JObj payload).
Proof.
  intros score report Hd Hv Hai He Hc Ht Hs Hjs.
  pose proof (fallback_score_value E payload _ _ _ _ He Hc Ht Hs) as Hfs.
  fold score in Hfs.
  destruct (fallback_path_score E (JObj payload) e w score _ Hai Hfs Hjs)
    as (Han & Hex & Hrange).
  fold report in Han, Hex.
  assert (Hbody : exists r w',
             Lead.process_body E (JObj envelope) w = (Ret (JObj r), w') /\
             dict_find "type" r = Some (JStr "lead_scoring") /\
             dict_find "lead_score" r = Some (JInt score) /\
             dict_find "category" r = Some (JStr (Lead.categorize_lead score)) /\
             dict_find "ai_analysis" r = Some (JStr (json_dumps E report)) /\
             dict_find "model_used" r = Some (JStr (ai_model E)) /\
             dict_find "original_data" r = Some (JObj payload)).
  { rewrite (lead_body_to_analysis E envelope payload w Hd Hv).
    rewrite (mbind_ret_step _ _ _ _ _ Han).
    rewrite (bind_lift_ret _ _ _ _ Hex).
    rewrite bind_now. rewrite bind_now. cbv zeta.
    match goal with
    | |- context [mbind (Lead.save_to_database E ?d) _ ?w2] =>
        destruct (lead_save_returns E d w2) as (b & w3 & Hsv);
        rewrite (mbind_ret_step _ _ _ _ _ Hsv);
        destruct (lead_graph_returns E d w3) as (w4 & Hg);
        rewrite (mbind_ret_step _ _ _ _ _ Hg)
    end.
    unfold mret. do 2 eexists. split; [reflexivity|]. repeat split. }
  destruct Hbody as (r & w' & Hb & H1 & H2 & H3 & H4 & H5 & H6).
  exists r, w'. split; [apply try_except_ret; exact Hb|].
  repeat split; try assumption; apply Hrange.
Qed.

Lemma ai_outage_falls_back_to_rules_witness :
  exists r w',
    Lead.process_event frozen_env sample_lead_event world0 = (Ret (JObj r), w') /\
    dict_find "type" r = Some (JStr "lead_scoring") /\
    dict_find "lead_score" r = Some (JInt 100) /\
    0 <= 100 <= 100 /\
    dict_find "category" r = Some (JStr "hot") /\
    dict_find "ai_analysis" r = Some (JStr report_text) /\
    dict_find "model_used" r = Some (JStr "anthropic/claude-3-haiku") /\
    dict_find "original_data" r =
      Some (JObj [ ("name", JStr "Ada"); ("email", JStr "x@acmecorp.com");
                   ("company_size", JStr "1000+ employees");
                   ("title", JStr "VP of Sales"); ("source", JStr "linkedin") ]).
Proof.
  apply (ai_outage_falls_back_to_rules frozen_env
           [ ("data",
               JObj [ ("name", JStr "Ada"); ("email", JStr "x@acmecorp.com");
                      ("company_size", JStr "1000+ employees");
                      ("title", JStr "VP of Sales"); ("source", JStr "linkedin") ]);
             ("user_id", JInt 7) ]
           [ ("name", JStr "Ada"); ("email", JStr "x@acmecorp.com");
             ("company_size", JStr "1000+ employees");
             ("title", JStr "VP of Sales"); ("source", JStr "linkedin") ]
           world0 (ServiceError "Connection error.")
           "x@acmecorp.com" "1000+ employees" "vp of sales" "linkedin");
    reflexivity.
Defined.

Lemma py_lower_string E v s : py_lower E v = Ret s -> is_string v = true.
Proof. destruct v; try discriminate. reflexivity. Qed.

Lemma py_lower_raises E v e :
  py_lower E v = Raise e -> e = AttributeError "object has no attribute 'lower'".
Proof. destruct v; cbn; intro H; inversion H; reflexivity. Qed.

(** The rule-based scorer fails on a scored field that is present and not
    a string. *)
Lemma fallback_score_malformed E d k v :
  In k scored_fields -> dict_find k d = Some v -> is_string v = false ->
  Lead.fallback_score E (JObj d) =
    Raise (AttributeError "object has no attribute 'lower'").
Proof.
  intros Hk Hf Hv.
  assert (Hbad : forall s, py_lower E (dict_get d k (JStr "")) <> Ret s).
  { intros s H. apply py_lower_string in H. unfold dict_get in H. rewrite Hf in H.
    congruence. }
  unfold Lead.fallback_score. cbn [py_get obind].
  destruct (py_lower E (dict_get d "email" (JStr ""))) as [s1|e1] eqn:H1;
    [|rewrite (py_lower_raises _ _ _ H1); reflexivity].
  cbn [obind].
  destruct (py_lower E (dict_get d "company_size" (JStr ""))) as [s2|e2] eqn:H2;
    [|rewrite (py_lower_raises _ _ _ H2); reflexivity].
  cbn [obind].
  destruct (py_lower E (dict_get d "title" (JStr ""))) as [s3|e3] eqn:H3;
    [|rewrite (py_lower_raises _ _ _ H3); reflexivity].
  cbn [obind].
  destruct (py_lower E (dict_get d "source" (JStr ""))) as [s4|e4] eqn:H4;
    [|rewrite (py_lower_raises _ _ _ H4); reflexivity].
  exfalso.
  destruct Hk as [<-|[<-|[<-|[<-|[]]]]].
  - exact (Hbad _ H1).
  - exact (Hbad _ H2).
  - exact (Hbad _ H3).
  - exact (Hbad _ H4).
Qed.

(** X7. When the AI call fails and one of the fields the rule-based scorer
    reads (email, company_size, title, source) is present but not a string,
    null for instance, the scorer's [lower] raises and the lead ends as an
    error result of that AttributeError, written once; the AI service had
    been asked. *)
Theorem ai_outage_with_malformed_field (E : env) (envelope payload : dict) (w : world)
  (e : exn) (k : string) (v : json) :
  dict_find "data" envelope = Some (JObj payload) ->
  lead_required payload = true ->
  ai_completion E (tick w) (JObj payload) = Raise e ->
  In k scored_fields ->
  dict_find k payload = Some v ->
  is_string v = false ->
  exists msg r w',
    Lead.process_event E (JObj envelope) w = (Ret r, w') /\
    error_shape "lead_error_" "lead_scoring_error" "lead_scoring_worker" envelope
      (AttributeError msg) r /\
    persisted E Lead.worker_type r w w' /\
    In (AiRequest (JObj payload)) (trace w').
Proof.
  intros Hd Hv Hai Hk Hf Hs.
  pose proof (fallback_score_malformed E payload k v Hk Hf Hs) as Hfs.
  assert (Hbody : Lead.process_body E (JObj envelope) w =
                  (Raise (AttributeError "object has no attribute 'lower'"),
                   interact (AiRequest (JObj payload)) w)).
  { rewrite (lead_body_to_analysis E envelope payload w Hd Hv).
    unfold mbind at 1. unfold Lead.analyze_lead_with_ai, try_except, ai_chat.
    rewrite Hai. unfold Lead.fallback_scoring. rewrite Hfs. reflexivity. }
  destruct (lead_handler_run E envelope (AttributeError "object has no attribute 'lower'")
              (interact (AiRequest (JObj payload)) w)) as (w' & extra & Hh & Ht & Hx).
  eexists. do 2 eexists.
  split; [unfold Lead.process_event; rewrite (try_except_raise _ _ _ _ _ Hbody); exact Hh|].
  split; [do 2 eexists; reflexivity|].
  split.
  - eexists. split; [reflexivity|]. rewrite Ht.
    destruct Hx as [Hx|Hx]; subst extra; reflexivity.
  - rewrite Ht. apply in_or_app. right. cbn. tauto.
Qed.

Lemma ai_outage_with_malformed_field_witness :
  exists msg r w',
    Lead.process_event offline_env (JObj [("data", JObj null_size_lead)]) world0
      = (Ret r, w') /\
    error_shape "lead_error_" "lead_scoring_error" "lead_scoring_worker"
      [("data", JObj null_size_lead)] (AttributeError msg) r /\
    persisted offline_env Lead.worker_type r world0 w' /\
    In (AiRequest (JObj null_size_lead)) (trace w').
Proof.
  apply (ai_outage_with_malformed_field offline_env [("data", JObj null_size_lead)]
           null_size_lead world0 (ServiceError "Connection error.") "company_size" JNull);
    try reflexivity.
  right. left. reflexivity.
Defined.

(** ** Result ids *)

Ltac now_inv :=
  repeat match goal with
         | H : now _ _ = (Ret ?t, ?w') |- _ =>
             unfold now in H; injection H as ? ?; subst t; subst w'
         end.

Lemma lead_result_stamp E ev w r w' :
  Lead.process_event E ev w = (Ret r, w') ->
  exists n,
    stamped "lead_" "lead_scoring" "lead_error_" "lead_scoring_error"
      (unix_seconds (utcnow E n)) r.
Proof.
  intro H. apply try_except_cases in H. destruct H as [H | (e & w1 & _ & H)].
  - unfold Lead.process_body in H. minv H.
    destruct a1; cbn [negb] in H; [|discriminate H].
    minv H. now_inv. unfold mret in H. injection H as Hr Hw. subst r.
    eexists. left. split; reflexivity.
  - unfold Lead.process_handler in H. minv H. now_inv.
    unfold mret in H. injection H as Hr Hw. subst r.
    eexists. right. split; reflexivity.
Qed.

Lemma chat_result_stamp E ev w r w' :
  Chat.process_event E ev w = (Ret r, w') ->
  exists n,
    stamped "chat_" "chat_analysis" "chat_error_" "chat_analysis_error"
      (unix_seconds (utcnow E n)) r.
Proof.
  intro H. apply try_except_cases in H. destruct H as [H | (e & w1 & _ & H)].
  - unfold Chat.process_body in H. minv H.
    destruct a1; cbn [negb] in H; [|discriminate H].
    minv H. now_inv. unfold mret in H. injection H as Hr Hw. subst r.
    eexists. left. split; reflexivity.
  - unfold Chat.process_handler in H. minv H. now_inv.
    unfold mret in H. injection H as Hr Hw. subst r.
    eexists. right. split; reflexivity.
Qed.

Lemma blockchain_result_stamp E ev w r w' :
  Blockchain.process_event E ev w = (Ret r, w') ->
  exists n,
    stamped "blockchain_" "blockchain_event" "blockchain_error_" "blockchain_error"
      (unix_seconds (utcnow E n)) r.
Proof.
  intro H. apply try_except_cases in H. destruct H as [H | (e & w1 & _ & H)].
  - unfold Blockchain.process_body in H. minv H.
    destruct a1; cbn [negb] in H; [|discriminate H].
    minv H. now_inv. unfold mret in H. injection H as Hr Hw. subst r.
    eexists. left. cbn [py_getitem].
    split;
      repeat (rewrite dict_find_set_other by reflexivity);
      rewrite dict_find_set_same; reflexivity.
  - unfold Blockchain.process_handler in H. minv H. now_inv.
    unfold mret in H. injection H as Hr Hw. subst r.
    eexists. right. split; reflexivity.
Qed.

(** X8. A result's id is its kind and the whole second at which it was
    made, nothing else: while the clock stays within the second [s], every
    processed lead gets the id lead_<s> and every failed one lead_error_<s>,
    and likewise for the other two workers. Two events of one kind handled
    within one second share their id, and with it their Redis key. *)
Theorem results_of_one_second_share_ids (E : env) (s : Z) :
  (forall n, unix_seconds (utcnow E n) = s) ->
  (forall ev w r w',
     Lead.process_event E ev w = (Ret r, w') ->
     stamped "lead_" "lead_scoring" "lead_error_" "lead_scoring_error" s r) /\
  (forall ev w r w',
     Blockchain.process_event E ev w = (Ret r, w') ->
     stamped "blockchain_" "blockchain_event" "blockchain_error_" "blockchain_error" s r) /\
  (forall ev w r w',
     Chat.process_event E ev w = (Ret r, w') ->
     stamped "chat_" "chat_analysis" "chat_error_" "chat_analysis_error" s r) /\
  (forall ev1 ev2 w1 w2 r1 r2 w1' w2',
     Lead.process_event E ev1 w1 = (Ret r1, w1') ->
     Lead.process_event E ev2 w2 = (Ret r2, w2') ->
     py_getitem r1 "type" = py_getitem r2 "type" ->
     py_getitem r1 "id" = py_getitem r2 "id").
Proof.
  intro Hs.
  assert (L : forall ev w r w',
             Lead.process_event E ev w = (Ret r, w') ->
             stamped "lead_" "lead_scoring" "lead_error_" "lead_scoring_error" s r).
  { intros ev w r w' H. destruct (lead_result_stamp E ev w r w' H) as (n & Hn).
    rewrite Hs in Hn. exact Hn. }
  split; [exact L|]. split; [|split].
  - intros ev w r w' H. destruct (blockchain_result_stamp E ev w r w' H) as (n & Hn).
    rewrite Hs in Hn. exact Hn.
  - intros ev w r w' H. destruct (chat_result_stamp E ev w r w' H) as (n & Hn).
    rewrite Hs in Hn. exact Hn.
  - intros ev1 ev2 w1 w2 r1 r2 w1' w2' H1 H2 Ht.
    destruct (L _ _ _ _ H1) as [[T1 I1]|[T1 I1]], (L _ _ _ _ H2) as [[T2 I2]|[T2 I2]];
      rewrite I1, I2; try reflexivity;
      rewrite T1, T2 in Ht; injection Ht as Ht; exfalso; revert Ht; str_neq.
Qed.

Lemma results_of_one_second_share_ids_witness :
  stamped "lead_" "lead_scoring" "lead_error_" "lead_scoring_error" 1700000000
    (match fst (Lead.process_event frozen_env sample_lead_event world0) with
     | Ret r => r
     | Raise _ => JNull
     end) /\
  py_getitem
    (match fst (Lead.process_event frozen_env sample_lead_event world0) with
     | Ret r => r
     | Raise _ => JNull
     end) "id" =
  py_getitem
    (match fst (Lead.process_event frozen_env sample_lead_event (world_at 40)) with
     | Ret r => r
     | Raise _ => JNull
     end) "id".
Proof.
  destruct (results_of_one_second_share_ids frozen_env 1700000000 (fun _ => eq_refl))
    as (L & _ & _ & S).
  destruct (Lead.process_event frozen_env sample_lead_event world0) as [o1 w1] eqn:E1.
  destruct (Lead.process_event frozen_env sample_lead_event (world_at 40))
    as [o2 w2] eqn:E2.
  destruct o1 as [r1|e1]; [|vm_compute in E1; discriminate E1].
  destruct o2 as [r2|e2]; [|vm_compute in E2; discriminate E2].
  cbn [fst]. split.
  - exact (L _ _ _ _ E1).
  - apply (S _ _ _ _ _ _ _ _ E1 E2).
    vm_compute in E1. vm_compute in E2.
    injection E1 as <- _. injection E2 as <- _. reflexivity.
Defined.

(** ** Blockchain events: when a sub-analyzer fails *)

Lemma transaction_details_returns E signature w :
  exists details w', Blockchain.get_transaction_details E signature w = (Ret details, w').
Proof.
  apply try_except_total. intros e w0. do 2 eexists. reflexivity.
Qed.

Lemma py_max_fi_value (f : Q) (n : Z) :
  py_num (py_max_fi f n) = Ret (if Qltb f (inject_Z n) then inject_Z n else f).
Proof. unfold py_max_fi. destruct (Qltb f (inject_Z n)); reflexivity. Qed.

Lemma floor_price_value E collection currency :
  exists floor_price,
    py_num (dict_get (Blockchain.get_market_data E collection currency)
              "floor_price" (JInt 0)) = Ret floor_price /\
    (is_hashable collection = true ->
     (1 # 10 <= floor_price)%Q /\ (floor_price <= 9)%Q) /\
    (is_hashable collection = false -> floor_price = 0%Q).
Proof.
  unfold Blockchain.get_market_data.
  destruct collection; cbn [hash_of is_hashable dict_get dict_find String.eqb Ascii.eqb
                             Bool.eqb];
    try (rewrite py_max_fi_value; eexists; split; [reflexivity|];
         split; [intros _|discriminate];
         match goal with
         | |- context [(?h mod 10)%Z] =>
             pose proof (Z.mod_pos_bound h 10 ltac:(lia)) as Hm;
             destruct (Qltb (1 # 10) (inject_Z (h mod 10))) eqn:Hc;
             [ apply Qltb_lt in Hc; split;
               [ apply Qlt_le_weak; exact Hc
               | change 9%Q with (inject_Z 9); rewrite <- Zle_Qle; lia ]
             | split; [apply Qle_refl | discriminate] ]
         end);
    (eexists; split; [reflexivity|]; split; [discriminate | reflexivity]).
Qed.

Lemma nft_sale_body_returns E d w price :
  py_float E (dict_get d "price" (JInt 0)) = Ret price ->
  exists r w', Blockchain.nft_sale_body E (JObj d) w = (Ret r, w').
Proof.
  intro Hp. unfold Blockchain.nft_sale_body. cbn [py_get].
  do 3 rewrite (bind_lift_ret _ _ _ _ eq_refl).
  rewrite (bind_lift_ret _ _ _ _ Hp).
  do 4 rewrite (bind_lift_ret _ _ _ _ eq_refl).
  cbv zeta.
  assert (Ht : exists details w1,
             (if truthy (dict_get d "signature" (JStr ""))
              then Blockchain.get_transaction_details E (dict_get d "signature" (JStr ""))
              else mret []) w = (Ret details, w1)).
  { destruct (truthy (dict_get d "signature" (JStr ""))).
    - apply transaction_details_returns.
    - do 2 eexists. reflexivity. }
  destruct Ht as (details & w1 & Ht).
  rewrite (mbind_ret_step _ _ _ _ _ Ht).
  destruct (floor_price_value E (dict_get d "collection" (JStr "Unknown"))
              (dict_get d "currency" (JStr "SOL"))) as (fl & Hfl & _).
  rewrite (bind_lift_ret _ _ _ _ Hfl).
  destruct (premium_of_returns price fl) as (pr & Hpr).
  rewrite (bind_lift_ret _ _ _ _ Hpr).
  rewrite bind_now. unfold mret. do 2 eexists. reflexivity.
Qed.

(** X9. The [try] block of [process_nft_sale] completes exactly when
    [float] accepts the price: an unhashable collection or signature is
    absorbed by the helpers, and the premium divides by a floor price only
    when that is positive. When the block does raise, it is [float]'s
    exception, raised before anything else happened. *)
Theorem nft_sale_fails_only_on_price (E : env) (d : dict) (w : world) :
  ((exists price, py_float E (dict_get d "price" (JInt 0)) = Ret price) <->
   (exists r w', Blockchain.nft_sale_body E (JObj d) w = (Ret r, w'))) /\
  (forall e w1,
     Blockchain.nft_sale_body E (JObj d) w = (Raise e, w1) ->
     py_float E (dict_get d "price" (JInt 0)) = Raise e /\ w1 = w).
Proof.
  destruct (py_float E (dict_get d "price" (JInt 0))) as [price|e0] eqn:Hp.
  - destruct (nft_sale_body_returns E d w price Hp) as (r & w' & Hr).
    split.
    + split; intros _; [exists r, w'; exact Hr | exists price; reflexivity].
    + intros e w1 H. rewrite Hr in H. discriminate H.
  - pose proof (nft_price_not_a_number E d e0 w Hp) as Hr.
    split.
    + split; [intros (p & H); discriminate H|].
      intros (r & w' & H). rewrite Hr in H. discriminate H.
    + intros e w1 H. rewrite Hr in H. injection H as <- <-. split; reflexivity.
Qed.

Lemma token_price_value E token :
  exists price,
    token_price E token = Ret price /\
    (is_string token = true -> (1 # 100 <= price)%Q) /\
    (is_string token = false -> price = 0%Q).
Proof.
  unfold token_price, Blockchain.get_token_info.
  destruct token; cbn [dict_get dict_find String.eqb Ascii.eqb Bool.eqb py_num is_string];
    try (eexists; split; [reflexivity|]; split; [discriminate | reflexivity]).
  eexists. split; [reflexivity|]. split; [intros _|discriminate].
  unfold Qmax. destruct (Qle_bool (1 # 100) _) eqn:Hc.
  - apply Qle_bool_iff in Hc. exact Hc.
  - apply Qle_refl.
Qed.

Lemma token_price_nonneg E token price :
  token_price E token = Ret price -> (0 <= price)%Q.
Proof.
  intro H. destruct (token_price_value E token) as (p & Hp & Hs & Hn).
  rewrite Hp in H. injection H as <-.
  destruct (is_string token).
  - eapply Qle_trans; [|apply Hs; reflexivity]. discriminate.
  - rewrite (Hn eq_refl). apply Qle_refl.
Qed.

Lemma slippage_returns (usd_in usd_out : Q) :
  (if Qltb 0 usd_in then
     r <~ py_truediv (usd_in - usd_out) usd_in ;; Ret (r * 100)%Q
   else Ret 0%Q) = Ret (slippage_formula usd_in usd_out).
Proof.
  unfold slippage_formula. destruct (Qltb 0 usd_in) eqn:H; [|reflexivity].
  apply Qltb_lt in H. rewrite py_truediv_defined; [reflexivity|].
  intro Z. rewrite Z in H. exact (Qlt_irrefl _ H).
Qed.

Lemma defi_swap_body_value E d w amount_in amount_out :
  py_float E (dict_get d "amount_in" (JInt 0)) = Ret amount_in ->
  py_float E (dict_get d "amount_out" (JInt 0)) = Ret amount_out ->
  exists price_in price_out r w',
    token_price E (dict_get d "token_in" (JStr "Unknown")) = Ret price_in /\
    token_price E (dict_get d "token_out" (JStr "Unknown")) = Ret price_out /\
    Blockchain.defi_swap_body E (JObj d) w = (Ret r, w') /\
    dict_find "error" r = None /\
    dict_find "analysis" r =
      Some (JObj [ ("usd_value_in", JFloat (py_round 2 (amount_in * price_in)));
                   ("usd_value_out", JFloat (py_round 2 (amount_out * price_out)));
                   ("slippage_percentage",
                     JFloat (py_round 2 (slippage_formula (amount_in * price_in)
                                           (amount_out * price_out))));
                   ("swap_category",
                     JStr (Blockchain.categorize_swap_size (amount_in * price_in))) ]).
Proof.
  intros Hi Ho.
  destruct (token_price_value E (dict_get d "token_in" (JStr "Unknown")))
    as (price_in & Hpi & _).
  destruct (token_price_value E (dict_get d "token_out" (JStr "Unknown")))
    as (price_out & Hpo & _).
  exists price_in, price_out. do 2 eexists.
  split; [exact Hpi|]. split; [exact Hpo|].
  unfold Blockchain.defi_swap_body. cbn [py_get].
  do 4 rewrite (bind_lift_ret _ _ _ _ eq_refl).
  rewrite (bind_lift_ret _ _ _ _ Hi).
  rewrite (bind_lift_ret _ _ _ _ eq_refl).
  rewrite (bind_lift_ret _ _ _ _ Ho).
  rewrite (bind_lift_ret _ _ _ _ eq_refl).
  cbv zeta.
  unfold token_price in Hpi, Hpo.
  rewrite (bind_lift_ret _ _ _ _ Hpi).
  rewrite (bind_lift_ret _ _ _ _ Hpo).
  rewrite (bind_lift_ret _ _ _ _ (slippage_returns _ _)).
  rewrite bind_now. unfold mret.
  split; [reflexivity|]. split; reflexivity.
Qed.

Lemma defi_amount_in_not_a_number E d e w :
  py_float E (dict_get d "amount_in" (JInt 0)) = Raise e ->
  Blockchain.defi_swap_body E (JObj d) w = (Raise e, w).
Proof.
  intro H. unfold Blockchain.defi_swap_body. cbn [py_get].
  do 4 rewrite (bind_lift_ret _ _ _ _ eq_refl).
  rewrite (bind_lift_raise _ _ _ _ H). reflexivity.
Qed.

Lemma defi_amount_out_not_a_number E d a e w :
  py_float E (dict_get d "amount_in" (JInt 0)) = Ret a ->
  py_float E (dict_get d "amount_out" (JInt 0)) = Raise e ->
  Blockchain.defi_swap_body E (JObj d) w = (Raise e, w).
Proof.
  intros Hi H. unfold Blockchain.defi_swap_body. cbn [py_get].
  do 4 rewrite (bind_lift_ret _ _ _ _ eq_refl).
  rewrite (bind_lift_ret _ _ _ _ Hi).
  rewrite (bind_lift_ret _ _ _ _ eq_refl).
  rewrite (bind_lift_raise _ _ _ _ H). reflexivity.
Qed.

(** X10. The [try] block of [process_defi_swap] completes exactly when
    [float] accepts both amounts; the slippage never divides by zero, and a
    token of any kind has a price. When the block raises, nothing has
    happened yet. *)
Theorem defi_swap_fails_only_on_amounts (E : env) (d : dict) (w : world) :
  ((exists amount_in amount_out,
      py_float E (dict_get d "amount_in" (JInt 0)) = Ret amount_in /\
      py_float E (dict_get d "amount_out" (JInt 0)) = Ret amount_out) <->
   (exists r w', Blockchain.defi_swap_body E (JObj d) w = (Ret r, w'))) /\
  (forall e w1,
     Blockchain.defi_swap_body E (JObj d) w = (Raise e, w1) ->
     w1 = w /\
     (py_float E (dict_get d "amount_in" (JInt 0)) = Raise e \/
      py_float E (dict_get d "amount_out" (JInt 0)) = Raise e)).
Proof.
  destruct (py_float E (dict_get d "amount_in" (JInt 0))) as [a|e0] eqn:Hi.
  - destruct (py_float E (dict_get d "amount_out" (JInt 0))) as [b|e0] eqn:Ho.
    + destruct (defi_swap_body_value E d w a b Hi Ho)
        as (pi & po & r & w' & _ & _ & Hr & _).
      split.
      * split; intros _; [exists r, w'; exact Hr|].
        exists a, b. split; reflexivity.
      * intros e w1 H. rewrite Hr in H. discriminate H.
    + pose proof (defi_amount_out_not_a_number E d a e0 w Hi Ho) as Hr.
      split.
      * split; [intros (x & y & _ & H); discriminate H|].
        intros (r & w' & H). rewrite Hr in H. discriminate H.
      * intros e w1 H. rewrite Hr in H. injection H as <- <-.
        split; [reflexivity | right; reflexivity].
  - pose proof (defi_amount_in_not_a_number E d e0 w Hi) as Hr.
    split.
    + split; [intros (x & y & H & _); discriminate H|].
      intros (r & w' & H). rewrite Hr in H. discriminate H.
    + intros e w1 H. rewrite Hr in H. injection H as <- <-.
      split; [reflexivity | left; reflexivity].
Qed.

Lemma usd_value_returns E token amount :
  exists usd_value,
    (if truthy (dict_get (Blockchain.get_token_info E token) "price_usd" JNull) then
       p <~ py_getitem (JObj (Blockchain.get_token_info E token)) "price_usd" ;;
       p <~ py_num p ;; Ret (amount * p)%Q
     else Ret 0%Q) = Ret usd_value.
Proof.
  unfold Blockchain.get_token_info.
  destruct token;
    cbn [dict_get dict_find String.eqb Ascii.eqb Bool.eqb py_getitem py_num obind truthy];
    try (eexists; reflexivity).
  match goal with
  | |- context [if ?b then _ else _] => destruct b
  end; eexists; reflexivity.
Qed.

Lemma transfer_body_cases E d w amount :
  py_float E (dict_get d "amount" (JInt 0)) = Ret amount ->
  match Blockchain.analyze_transfer_pattern E (dict_get d "from" (JStr "Unknown"))
          (dict_get d "to" (JStr "Unknown")) amount with
  | Ret analysis =>
      exists r w',
        Blockchain.token_transfer_body E (JObj d) w = (Ret r, w') /\
        dict_find "analysis" r = Some (JObj analysis) /\
        dict_find "error" r = None
  | Raise e => Blockchain.token_transfer_body E (JObj d) w = (Raise e, w)
  end.
Proof.
  intro Ha. unfold Blockchain.token_transfer_body. cbn [py_get].
  do 3 rewrite (bind_lift_ret _ _ _ _ eq_refl).
  rewrite (bind_lift_ret _ _ _ _ Ha).
  do 2 rewrite (bind_lift_ret _ _ _ _ eq_refl).
  cbv zeta.
  destruct (usd_value_returns E (dict_get d "token" (JStr "Unknown")) amount)
    as (usd & Hu).
  rewrite (bind_lift_ret _ _ _ _ Hu).
  destruct (Blockchain.analyze_transfer_pattern E (dict_get d "from" (JStr "Unknown"))
              (dict_get d "to" (JStr "Unknown")) amount) as [analysis|e] eqn:Han.
  - rewrite (bind_lift_ret _ _ _ _ eq_refl). rewrite bind_now.
    assert (Hin : exists insights,
               Blockchain.generate_transfer_insights amount usd analysis = Ret insights).
    { unfold Blockchain.analyze_transfer_pattern, obind in Han.
      destruct (py_add _ _); [|discriminate Han].
      destruct (hash_of E a); [|discriminate Han].
      injection Han as <-. eexists. reflexivity. }
    destruct Hin as (insights & Hin).
    rewrite (bind_lift_ret _ _ _ _ Hin). unfold mret.
    do 2 eexists. split; [reflexivity|]. split; reflexivity.
  - rewrite (bind_lift_raise _ _ _ _ eq_refl). reflexivity.
Qed.

Lemma analyze_transfer_pattern_spec E from_addr to_addr amount :
  match Blockchain.analyze_transfer_pattern E from_addr to_addr amount with
  | Ret analysis =>
      exists pair risk,
        py_add from_addr to_addr = Ret pair /\ is_hashable pair = true /\
        dict_find "risk_score" analysis = Some (JInt risk) /\ 0 <= risk <= 99
  | Raise e =>
      py_add from_addr to_addr = Raise e \/
      exists pair, py_add from_addr to_addr = Ret pair /\ is_hashable pair = false
  end.
Proof.
  unfold Blockchain.analyze_transfer_pattern.
  destruct (py_add from_addr to_addr) as [pair|e]; cbn [obind].
  - destruct pair; cbn [hash_of obind];
      try (right; eexists; split; reflexivity);
      (do 2 eexists; split; [reflexivity|]; split; [reflexivity|];
       split; [reflexivity|];
       match goal with
       | |- context [(?h mod 100)%Z] =>
           pose proof (Z.mod_pos_bound h 100 ltac:(lia)); lia
       end).
  - left. reflexivity.
Qed.

(** X11. The [try] block of [process_token_transfer] completes exactly
    when [float] accepts the amount and [from + to] is defined and
    hashable; two strings always are, a string and anything else never. The
    risk score of a completed transfer lies within 0..99, so the clamp to
    0..100 never changes it. *)
Theorem token_transfer_failure_causes (E : env) (d : dict) (w : world) :
  let from_address := dict_get d "from" (JStr "Unknown") in
  let to_address := dict_get d "to" (JStr "Unknown") in
  ((exists amount pair,
      py_float E (dict_get d "amount" (JInt 0)) = Ret amount /\
      py_add from_address to_address = Ret pair /\ is_hashable pair = true) <->
   (exists r w', Blockchain.token_transfer_body E (JObj d) w = (Ret r, w'))) /\
  (forall r w',
     Blockchain.token_transfer_body E (JObj d) w = (Ret r, w') ->
     exists analysis risk,
       dict_find "analysis" r = Some (JObj analysis) /\
       dict_find "risk_score" analysis = Some (JInt risk) /\ 0 <= risk <= 99) /\
  (is_string from_address = true -> is_string to_address = true ->
   forall amount,
     py_float E (dict_get d "amount" (JInt 0)) = Ret amount ->
     exists r w', Blockchain.token_transfer_body E (JObj d) w = (Ret r, w')) /\
  (is_string from_address = true -> is_string to_address = false ->
   exists e w1, Blockchain.token_transfer_body E (JObj d) w = (Raise e, w1)).
Proof.
  intros from_address to_address.
  assert (Hcases :
            forall amount,
              py_float E (dict_get d "amount" (JInt 0)) = Ret amount ->
              ((exists pair, py_add from_address to_address = Ret pair /\
                             is_hashable pair = true) /\
               exists r w' analysis risk,
                 Blockchain.token_transfer_body E (JObj d) w = (Ret r, w') /\
                 dict_find "analysis" r = Some (JObj analysis) /\
                 dict_find "risk_score" analysis = Some (JInt risk) /\ 0 <= risk <= 99) \/
              ((forall pair, py_add from_address to_address = Ret pair ->
                             is_hashable pair = false) /\
               exists e, Blockchain.token_transfer_body E (JObj d) w = (Raise e, w))).
  { intros amount Ha.
    pose proof (transfer_body_cases E d w amount Ha) as Hb.
    pose proof (analyze_transfer_pattern_spec E from_address to_address amount) as Hs.
    fold from_address to_address in Hb.
    destruct (Blockchain.analyze_transfer_pattern E from_address to_address amount)
      as [analysis|e].
    - left. destruct Hs as (pair & risk & Hp & Hh & Hr & Hrange).
      destruct Hb as (r & w' & Hb & Han & _).
      split; [exists pair; split; assumption|].
      exists r, w', analysis, risk. repeat split; assumption || apply Hrange.
    - right. split; [|exists e; exact Hb].
      intros pair Hp. destruct Hs as [Hs | (pair' & Hp' & Hh)].
      + rewrite Hs in Hp. discriminate Hp.
      + rewrite Hp' in Hp. injection Hp as <-. exact Hh. }
  split; [|split; [|split]].
  - split.
    + intros (amount & pair & Ha & Hp & Hh).
      destruct (Hcases amount Ha) as [(_ & r & w' & _ & _ & Hb & _) | (Hn & _)].
      * exists r, w'. exact Hb.
      * rewrite (Hn pair Hp) in Hh. discriminate Hh.
    + intros (r & w' & Hb).
      destruct (py_float E (dict_get d "amount" (JInt 0))) as [amount|e] eqn:Ha.
      * destruct (Hcases amount eq_refl) as [((pair & Hp & Hh) & _) | (_ & e & He)].
        -- exists amount, pair. repeat split; assumption.
        -- rewrite He in Hb. discriminate Hb.
      * rewrite (transfer_amount_not_a_number E d e w Ha) in Hb. discriminate Hb.
  - intros r w' Hb.
    destruct (py_float E (dict_get d "amount" (JInt 0))) as [amount|e] eqn:Ha.
    + destruct (Hcases amount eq_refl)
        as [(_ & r0 & w0 & analysis & risk & Hb0 & Han & Hr & Hrange) | (_ & e & He)].
      * rewrite Hb0 in Hb. injection Hb as <- <-.
        exists analysis, risk. repeat split; assumption || apply Hrange.
      * rewrite He in Hb. discriminate Hb.
    + rewrite (transfer_amount_not_a_number E d e w Ha) in Hb. discriminate Hb.
  - intros Hf Ht amount Ha.
    destruct (Hcases amount Ha) as [(_ & r & w' & _ & _ & Hb & _) | (Hn & _)].
    + exists r, w'. exact Hb.
    + destruct from_address; try discriminate Hf.
      destruct to_address; try discriminate Ht.
      specialize (Hn _ eq_refl). discriminate Hn.
  - intros Hf Ht.
    destruct (py_float E (dict_get d "amount" (JInt 0))) as [amount|e] eqn:Ha.
    + destruct (Hcases amount eq_refl) as [((pair & Hp & _) & _) | (_ & e & He)].
      * destruct from_address; try discriminate Hf.
        destruct to_address; try discriminate Ht; discriminate Hp.
      * exists e, w. exact He.
    + exists e, w. exact (transfer_amount_not_a_number E d e w Ha).
Qed.

Lemma token_transfer_failure_causes_witness :
  (exists r w', Blockchain.token_transfer_body offline_env (JObj sample_transfer) world0
                = (Ret r, w')) /\
  (exists e w1, Blockchain.token_transfer_body offline_env (JObj odd_transfer) world0
                = (Raise e, w1)).
Proof.
  split.
  - apply (proj1 (proj2 (proj2 (token_transfer_failure_causes offline_env sample_transfer
                                  world0))) eq_refl eq_refl 250%Q).
    reflexivity.
  - apply (proj2 (proj2 (proj2 (token_transfer_failure_causes offline_env odd_transfer
                                  world0))) eq_refl eq_refl).
Defined.

(** ** Blockchain events: market figures *)

(** X12. The floor price the worker works with lies between 0.1 and 9 for
    every collection it can hash, so the premium of such a sale is
    [(price - floor) / floor * 100]; only a collection that is a list or an
    object has the floor price 0 and, with it, the premium 0. *)
Theorem floor_price_range (E : env) (collection currency : json) :
  exists floor_price,
    py_num (dict_get (Blockchain.get_market_data E collection currency)
              "floor_price" (JInt 0)) = Ret floor_price /\
    (is_hashable collection = true ->
     (1 # 10 <= floor_price)%Q /\ (floor_price <= 9)%Q /\
     forall price,
       Blockchain.premium_of price floor_price =
         Ret ((price - floor_price) / floor_price * 100)%Q) /\
    (is_hashable collection = false ->
     floor_price = 0%Q /\
     forall price, Blockchain.premium_of price floor_price = Ret 0%Q).
Proof.
  destruct (floor_price_value E collection currency) as (fl & Hfl & Hh & Hn).
  exists fl. split; [exact Hfl|]. split.
  - intro H. destruct (Hh H) as [Lo Hi]. repeat split; try assumption.
    intro price. apply premium_of_above_zero.
    eapply Qlt_le_trans; [|exact Lo]. reflexivity.
  - intro H. rewrite (Hn H). split; [reflexivity|].
    intro price. apply premium_of_no_floor. apply Qle_refl.
Qed.

Lemma floor_price_range_witness :
  exists floor_price,
    py_num (dict_get (Blockchain.get_market_data offline_env (JStr "DeGods") (JStr "SOL"))
              "floor_price" (JInt 0)) = Ret floor_price /\
    (1 # 10 <= floor_price)%Q /\ (floor_price <= 9)%Q.
Proof.
  destruct (floor_price_range offline_env (JStr "DeGods") (JStr "SOL"))
    as (fl & Hfl & Hh & _).
  exists fl. split; [exact Hfl|].
  destruct (Hh eq_refl) as (Lo & Hi & _). split; assumption.
Defined.

Lemma categorize_swap_size_thresholds (usd_value : Q) :
  (Blockchain.categorize_swap_size usd_value = cps "whale" <-> (100000 < usd_value)%Q) /\
  (Blockchain.categorize_swap_size usd_value = cps "large" <->
     (10000 < usd_value)%Q /\ (usd_value <= 100000)%Q) /\
  (Blockchain.categorize_swap_size usd_value = cps "medium" <->
     (1000 < usd_value)%Q /\ (usd_value <= 10000)%Q) /\
  (Blockchain.categorize_swap_size usd_value = cps "small" <-> (usd_value <= 1000)%Q).
Proof.
  unfold Blockchain.categorize_swap_size.
  destruct (Qltb 100000 usd_value) eqn:H1;
    [|destruct (Qltb 10000 usd_value) eqn:H2; [|destruct (Qltb 1000 usd_value) eqn:H3]];
    repeat match goal with
           | H : Qltb _ _ = true |- _ => apply Qltb_lt in H
           | H : Qltb _ _ = false |- _ => apply Qltb_ge in H
           end;
    repeat split; intros;
    repeat match goal with
           | H : _ /\ _ |- _ => destruct H
           end;
    try reflexivity; try assumption;
    try (match goal with
         | H : cps _ = cps _ |- _ => exfalso; revert H; str_neq
         end);
    destruct usd_value as [n d]; unfold Qlt, Qle in *; cbn [Qnum Qden] in *; lia.
Qed.

Lemma slippage_at_most_100 (usd_in usd_out : Q) :
  (0 <= usd_out)%Q -> (slippage_formula usd_in usd_out <= 100)%Q.
Proof.
  intro Ho. unfold slippage_formula.
  destruct (Qltb 0 usd_in) eqn:H; [|discriminate].
  apply Qltb_lt in H.
  setoid_replace 100%Q with (1 * 100)%Q by reflexivity.
  apply Qmult_le_compat_r; [|discriminate].
  apply Qle_shift_div_r; [exact H|].
  rewrite Qmult_1_l.
  setoid_replace usd_in with (usd_in - 0)%Q at 2 by ring.
  unfold Qminus. apply Qplus_le_r. apply Qopp_le_compat. exact Ho.
Qed.

(** X13. What a completed swap reports, floats taken as exact: the dollar
    values are the amounts times the token prices; the slippage is
    [(usd_in - usd_out) / usd_in * 100] when [usd_in] is positive and 0
    otherwise, and never exceeds 100 when the amount received is not
    negative; the category is whale above 100000 dollars in, large above
    10000, medium above 1000 and small up to 1000. The figures written are
    rounded to two decimals, the category is that of the unrounded value. *)
Theorem swap_metrics (E : env) :
  (forall usd_value,
     (Blockchain.categorize_swap_size usd_value = cps "whale" <->
        (100000 < usd_value)%Q) /\
     (Blockchain.categorize_swap_size usd_value = cps "large" <->
        (10000 < usd_value)%Q /\ (usd_value <= 100000)%Q) /\
     (Blockchain.categorize_swap_size usd_value = cps "medium" <->
        (1000 < usd_value)%Q /\ (usd_value <= 10000)%Q) /\
     (Blockchain.categorize_swap_size usd_value = cps "small" <->
        (usd_value <= 1000)%Q)) /\
  (forall d w amount_in amount_out,
     py_float E (dict_get d "amount_in" (JInt 0)) = Ret amount_in ->
     py_float E (dict_get d "amount_out" (JInt 0)) = Ret amount_out ->
     exists price_in price_out r w',
       token_price E (dict_get d "token_in" (JStr "Unknown")) = Ret price_in /\
       token_price E (dict_get d "token_out" (JStr "Unknown")) = Ret price_out /\
       Blockchain.defi_swap_body E (JObj d) w = (Ret r, w') /\
       dict_find "analysis" r =
         Some (JObj [ ("usd_value_in", JFloat (py_round 2 (amount_in * price_in)));
                      ("usd_value_out", JFloat (py_round 2 (amount_out * price_out)));
                      ("slippage_percentage",
                        JFloat (py_round 2 (slippage_formula (amount_in * price_in)
                                              (amount_out * price_out))));
                      ("swap_category",
                        JStr (Blockchain.categorize_swap_size
                                (amount_in * price_in))) ]) /\
       ((0 <= amount_out)%Q ->
        (slippage_formula (amount_in * price_in) (amount_out * price_out) <= 100)%Q)) /\
  (forall token price,
     token_price E token = Ret price ->
     (is_string token = true -> (1 # 100 <= price)%Q) /\
     (is_string token = false -> price = 0%Q)).
Proof.
  split; [exact categorize_swap_size_thresholds|]. split.
  - intros d w a b Hi Ho.
    destruct (defi_swap_body_value E d w a b Hi Ho)
      as (pi & po & r & w' & Hpi & Hpo & Hr & _ & Han).
    exists pi, po, r, w'. repeat split; try assumption.
    intro Hb. apply slippage_at_most_100.
    apply Qmult_le_0_compat; [exact Hb|].
    exact (token_price_nonneg E _ _ Hpo).
  - intros token price H.
    destruct (token_price_value E token) as (p & Hp & Hs & Hn).
    rewrite Hp in H. injection H as <-. split; assumption.
Qed.

Lemma swap_metrics_witness :
  exists price_in price_out r w',
    token_price offline_env (JStr "SOL") = Ret price_in /\
    token_price offline_env (JStr "USDC") = Ret price_out /\
    Blockchain.defi_swap_body offline_env (JObj sample_swap) world0 = (Ret r, w') /\
    (slippage_formula (100 * price_in) (90 * price_out) <= 100)%Q.
Proof.
  destruct (proj1 (proj2 (swap_metrics offline_env)) sample_swap world0 100%Q 90%Q
              eq_refl eq_refl)
    as (pi & po & r & w' & Hpi & Hpo & Hr & _ & Hs).
  exists pi, po, r, w'. repeat split; try assumption.
  apply Hs. discriminate.
Defined.

(** ** Blockchain events: a sale that is analysed *)





(** ** Chat analysis: engagement *)

(** X15. The engagement score of a message lies between 40 and 100: the
    length can take ten points off the base of 50 and nothing else
    subtracts, so the lower clamp at 0 never applies and the insight for a
    score below 30 is never given. A [message] that is not a string makes
    the scorer raise. *)
Theorem engagement_score_range (E : env) (data : dict) :
  (forall message,
     dict_get data "message" (JStr "") = JStr message ->
     exists score,
       Chat.calculate_engagement_score E (JObj data) = Ret score /\
       40 <= score <= 100 /\
       forall sent tox,
         ~ In low_engagement_insight (Chat.generate_insights sent tox score)) /\
  (is_string (dict_get data "message" (JStr "")) = false ->
   exists e, Chat.calculate_engagement_score E (JObj data) = Raise e).
Proof.
  split.
  - intros message Hm. unfold Chat.calculate_engagement_score.
    cbn [py_get obind]. rewrite Hm.
    eexists. split; [reflexivity|].
    match goal with
    | |- 40 <= ?s <= 100 /\ _ => set (score := s)
    end.
    assert (Hrange : 40 <= score <= 100).
    { unfold score.
      destruct ((50 <=? List.length message) && (List.length message <=? 200))%nat;
        [|destruct (500 <? List.length message)%nat;
          [|destruct (List.length message <? 10)%nat]]; lia. }
    split; [exact Hrange|].
    intros sent tox. unfold Chat.generate_insights.
    assert (Hlt : (score <? 30) = false) by (apply Z.ltb_ge; lia).
    rewrite Hlt. rewrite !in_app_iff.
    destruct (str_eqb (Chat.s_label sent) "positive" && (70 <? score)),
      (str_eqb (Chat.s_label sent) "negative" && Qltb (7 # 10) (Chat.s_confidence sent)),
      (Chat.t_is_toxic tox), (80 <? score);
      cbn [In]; intro H;
      repeat match goal with
             | H : _ \/ _ |- _ => destruct H as [H|H]
             | H : False |- _ => contradiction H
             end;
      revert H; unfold low_engagement_insight; str_neq.
  - intro Hs. unfold Chat.calculate_engagement_score. cbn [py_get obind].
    destruct (dict_get data "message" (JStr "")); try discriminate Hs;
      eexists; reflexivity.
Qed.

Lemma engagement_score_range_witness :
  exists score,
    Chat.calculate_engagement_score offline_env scenario_a_data = Ret score /\
    40 <= score <= 100.
Proof.
  destruct (proj1 (engagement_score_range offline_env
                     [ ("message", JStr scenario_a_message); ("user", JStr "bob") ])
              scenario_a_message eq_refl) as (score & Hs & Hr & _).
  exists score. split; assumption.
Defined.

(** ** Chat analysis: tokens and keywords *)

Lemma word_runs_spec E s cur tok :
  (forall c, In c cur -> is_word E c = true) ->
  In tok (Chat.word_runs E s cur) ->
  tok <> [] /\
  (forall c, In c tok -> is_word E c = true /\ (In c s \/ In c cur)).
Proof.
  revert cur. induction s as [|c s IH]; intros cur Hcur Hin; cbn [Chat.word_runs] in Hin.
  - destruct cur as [|x cur]; [contradiction Hin|].
    destruct Hin as [<-|[]]. split.
    + intro H. apply (f_equal (@List.length N)) in H.
      rewrite length_rev in H. discriminate H.
    + intros c Hc. apply in_rev in Hc. split; [apply Hcur; exact Hc | right; exact Hc].
  - destruct (is_word E c) eqn:Hw.
    + destruct (IH (c :: cur)) as [Hne Hall].
      * intros x [<-|Hx]; [exact Hw | apply Hcur; exact Hx].
      * exact Hin.
      * split; [exact Hne|]. intros x Hx. destruct (Hall x Hx) as [Hxw [Hxs|[<-|Hxc]]].
        -- split; [exact Hxw | left; right; exact Hxs].
        -- split; [exact Hxw | left; left; reflexivity].
        -- split; [exact Hxw | right; exact Hxc].
    + assert (Hrest : In tok (Chat.word_runs E s []) ->
                      tok <> [] /\
                      (forall x, In x tok ->
                                 is_word E x = true /\ (In x (c :: s) \/ In x cur))).
      { intro H. destruct (IH [] (fun x (F : In x []) => match F with end) H)
          as [Hne Hall].
        split; [exact Hne|]. intros x Hx. destruct (Hall x Hx) as [Hxw [Hxs|[]]].
        split; [exact Hxw | left; right; exact Hxs]. }
      destruct cur as [|x cur]; [exact (Hrest Hin)|].
      destruct Hin as [<-|Hin]; [|exact (Hrest Hin)].
      split.
      * intro H. apply (f_equal (@List.length N)) in H.
        rewrite length_rev in H. discriminate H.
      * intros y Hy. apply in_rev in Hy.
        split; [apply Hcur; exact Hy | right; exact Hy].
Qed.

Lemma ascii_lower_is_lower (c : N) :
  is_ascii c = true -> ascii_word (ascii_lower c) = true ->
  lower_word_char (ascii_lower c) = true.
Proof.
  unfold is_ascii, ascii_word, ascii_lower, lower_word_char. intros Ha Hw.
  destruct ((65 <=? c) && (c <=? 90))%N eqn:Hu.
  - apply andb_true_iff in Hu. destruct Hu as [H1 H2].
    apply N.leb_le in H1, H2.
    assert (H3 : (97 <=? c + 32)%N = true) by (apply N.leb_le; lia).
    assert (H4 : (c + 32 <=? 122)%N = true) by (apply N.leb_le; lia).
    rewrite H3, H4. cbn [andb]. rewrite orb_true_r. reflexivity.
  - rewrite Hu in Hw. rewrite orb_false_r in Hw. exact Hw.
Qed.

Lemma ascii_lower_stays_ascii (c : N) : is_ascii c = true -> is_ascii (ascii_lower c) = true.
Proof.
  unfold is_ascii, ascii_lower. intro H. apply N.ltb_lt in H.
  destruct ((65 <=? c) && (c <=? 90))%N eqn:Hu; apply N.ltb_lt; [|exact H].
  apply andb_true_iff in Hu. destruct Hu as [_ H2]. apply N.leb_le in H2. lia.
Qed.

(** X16. What [tokenize_message] returns: every token is a non-empty run
    of word characters, and on a message of plain ASCII every token is made
    of lower-case letters, digits and underscores only. *)
Theorem tokens_are_lowercase_words (E : env) (message tok : pystr) :
  In tok (Chat.tokenize_message E message) ->
  tok <> [] /\
  forallb (is_word E) tok = true /\
  (forallb is_ascii message = true -> forallb lower_word_char tok = true).
Proof.
  intro Hin. unfold Chat.tokenize_message in Hin.
  destruct (word_runs_spec E _ [] tok (fun x (F : In x []) => match F with end) Hin)
    as [Hne Hall].
  split; [exact Hne|]. split.
  - apply forallb_forall. intros c Hc. apply (Hall c Hc).
  - intro Ha. apply forallb_forall. intros c Hc.
    destruct (Hall c Hc) as [Hw [Hs|[]]].
    unfold str_lower in Hs. rewrite Ha in Hs.
    apply in_map_iff in Hs. destruct Hs as (c0 & <- & Hc0).
    rewrite forallb_forall in Ha. specialize (Ha c0 Hc0).
    apply ascii_lower_is_lower; [exact Ha|].
    unfold is_word in Hw. rewrite (ascii_lower_stays_ascii c0 Ha) in Hw. exact Hw.
Qed.

Lemma tokens_are_lowercase_words_witness :
  forallb lower_word_char (cps "alice") = true.
Proof.
  apply (tokens_are_lowercase_words offline_env scenario_a_message (cps "alice")).
  - vm_compute. tauto.
  - reflexivity.
Defined.

Lemma existsb_str_eqb (x : pystr) (l : list pystr) :
  existsb (str_eqb x) l = true <-> In x l.
Proof.
  rewrite existsb_exists. split.
  - intros (y & Hy & He). apply str_eqb_eq in He. subst y. exact Hy.
  - intro H. exists x. split; [exact H | apply str_eqb_eq; reflexivity].
Qed.

Lemma uniq_by_spec (l seen : list pystr) :
  NoDup (uniq_by str_eqb l seen) /\
  (forall x, In x (uniq_by str_eqb l seen) -> In x l /\ ~ In x seen).
Proof.
  revert seen. induction l as [|a l IH]; intro seen; cbn [uniq_by].
  - split; [constructor | intros x []].
  - destruct (existsb (str_eqb a) seen) eqn:Hs.
    + destruct (IH seen) as [Hn Hi]. split; [exact Hn|].
      intros x Hx. destruct (Hi x Hx) as [H1 H2]. split; [right; exact H1 | exact H2].
    + destruct (IH (a :: seen)) as [Hn Hi]. split.
      * constructor; [|exact Hn]. intro Hx. destruct (Hi a Hx) as [_ H2].
        apply H2. left. reflexivity.
      * intros x [<-|Hx].
        -- split; [left; reflexivity|]. intro H. apply existsb_str_eqb in H. congruence.
        -- destruct (Hi x Hx) as [H1 H2]. split; [right; exact H1|].
           intro H. apply H2. right. exact H.
Qed.

Lemma firstn_incl {A} (n : nat) (l : list A) (x : A) : In x (firstn n l) -> In x l.
Proof.
  revert l. induction n as [|n IH]; intros [|a l]; cbn; try tauto.
  intros [H|H]; [left; exact H | right; apply IH; exact H].
Qed.

Lemma firstn_NoDup_of {A} (n : nat) (l : list A) : NoDup l -> NoDup (firstn n l).
Proof.
  revert l. induction n as [|n IH]; intros [|a l] H; cbn; try constructor.
  - inversion H as [|? ? Hn Hd]; subst. intro Hx. apply Hn. exact (firstn_incl n l a Hx).
  - inversion H; subst. apply IH. assumption.
Qed.

(** X17. The keywords of a message: at most ten, no two alike, each one a
    token of the message longer than three characters that is not a stop
    word. *)
Theorem keywords_are_distinct_content_words (E : env) (message : pystr) :
  (List.length (Chat.extract_keywords E message) <= 10)%nat /\
  NoDup (Chat.extract_keywords E message) /\
  (forall k,
     In k (Chat.extract_keywords E message) ->
     In k (Chat.tokenize_message E message) /\
     (3 < List.length k)%nat /\
     one_of Chat.stop_words k = false).
Proof.
  unfold Chat.extract_keywords.
  match goal with
  | |- context [uniq_by str_eqb ?l []] => destruct (uniq_by_spec l []) as [Hn Hi]
  end.
  split; [apply firstn_le_length|].
  split; [apply firstn_NoDup_of; exact Hn|].
  intros k Hk. apply firstn_incl in Hk. destruct (Hi k Hk) as [Hf _].
  apply filter_In in Hf. destruct Hf as [Ht Hc].
  apply andb_true_iff in Hc. destruct Hc as [Hl Hs].
  split; [exact Ht|]. split.
  - apply Nat.ltb_lt. exact Hl.
  - apply negb_true_iff. exact Hs.
Qed.

(** ** Chat analysis: letter case *)

Lemma ascii_lower_upper (c : N) : ascii_lower (ascii_upper c) = ascii_lower c.
Proof.
  unfold ascii_lower, ascii_upper.
  destruct ((97 <=? c) && (c <=? 122))%N eqn:Hl.
  - apply andb_true_iff in Hl. destruct Hl as [H1 H2]. apply N.leb_le in H1, H2.
    assert (H3 : (65 <=? c - 32)%N = true) by (apply N.leb_le; lia).
    assert (H4 : (c - 32 <=? 90)%N = true) by (apply N.leb_le; lia).
    assert (H5 : (c <=? 90)%N = false) by (apply N.leb_gt; lia).
    rewrite H3, H4, H5, andb_false_r. cbn. lia.
  - reflexivity.
Qed.

Lemma ascii_upper_stays_ascii (c : N) : is_ascii (ascii_upper c) = is_ascii c.
Proof.
  unfold is_ascii, ascii_upper.
  destruct ((97 <=? c) && (c <=? 122))%N eqn:Hl; [|reflexivity].
  apply andb_true_iff in Hl. destruct Hl as [H1 H2]. apply N.leb_le in H1, H2.
  assert (H3 : (c - 32 <? 128)%N = true) by (apply N.ltb_lt; lia).
  assert (H4 : (c <? 128)%N = true) by (apply N.ltb_lt; lia).
  rewrite H3, H4. reflexivity.
Qed.

Lemma upper_case_stays_ascii (message : pystr) :
  forallb is_ascii (map ascii_upper message) = forallb is_ascii message.
Proof.
  induction message as [|c m IH]; [reflexivity|].
  cbn [map forallb]. rewrite ascii_upper_stays_ascii, IH. reflexivity.
Qed.

Lemma str_lower_upper E (message : pystr) :
  forallb is_ascii message = true ->
  str_lower E (str_upper E message) = str_lower E message.
Proof.
  intro Ha. unfold str_upper. rewrite Ha. unfold str_lower.
  rewrite upper_case_stays_ascii, Ha.
  rewrite map_map. apply map_ext. exact ascii_lower_upper.
Qed.

(** X18. On a message of plain ASCII the analysis by words does not see
    letter case: the message in capitals has the same tokens, and with them
    the same sentiment, toxicity, keywords and language. *)
Theorem word_analysis_ignores_case (E : env) (message : pystr) :
  forallb is_ascii message = true ->
  Chat.tokenize_message E (str_upper E message) = Chat.tokenize_message E message /\
  Chat.analyze_sentiment E (str_upper E message) = Chat.analyze_sentiment E message /\
  Chat.detect_toxicity E (str_upper E message) = Chat.detect_toxicity E message /\
  Chat.extract_keywords E (str_upper E message) = Chat.extract_keywords E message /\
  Chat.detect_language E (str_upper E message) = Chat.detect_language E message.
Proof.
  intro Ha.
  assert (Ht : Chat.tokenize_message E (str_upper E message) =
               Chat.tokenize_message E message).
  { unfold Chat.tokenize_message. rewrite (str_lower_upper E message Ha). reflexivity. }
  split; [exact Ht|].
  unfold Chat.analyze_sentiment, Chat.detect_toxicity, Chat.extract_keywords,
    Chat.detect_language.
  rewrite Ht. repeat split; reflexivity.
Qed.

Lemma word_analysis_ignores_case_witness :
  Chat.analyze_sentiment offline_env "GOOD GREAT AMAZING!!! @ALICE #WIN" =
  Chat.analyze_sentiment offline_env scenario_a_message.
Proof.
  exact (proj1 (proj2 (word_analysis_ignores_case offline_env scenario_a_message eq_refl))).
Defined.

(** ** Chat analysis: verdicts *)

Lemma Qltb_under_cap (c x : Q) : (c < 1)%Q -> Qltb c (Qmin 1 x) = Qltb c x.
Proof.
  intro Hc. unfold Qmin. destruct (Qle_bool 1 x) eqn:H; [|reflexivity].
  apply Qle_bool_iff in H.
  rewrite (proj2 (Qltb_lt c 1) Hc).
  symmetry. apply Qltb_lt. eapply Qlt_le_trans; eassumption.
Qed.

(** [a/b < n/m * k] on counts, without the division. *)
Lemma ratio_above (a : Z) (b : positive) (n m : nat) (k : positive) :
  (0 < m)%nat ->
  (a # b < Qnat n / Qnat m * (Z.pos k # 1))%Q <->
  a * Z.of_nat m < Z.of_nat n * Z.pos k * Z.pos b.
Proof.
  intro Hm. destruct m as [|m]; [lia|].
  unfold Qnat, Qdiv, Qmult, Qinv, Qlt, inject_Z.
  cbn [Qnum Qden Z.of_nat]. rewrite !Z.mul_1_r, !Pos.mul_1_r.
  rewrite Pos2Z.inj_mul. cbn [Z.of_nat]. nia.
Qed.

Lemma toxicity_thresholds (c : Z) (d : positive) (tc wc : nat) :
  c < Z.pos d ->
  Qltb (c # d) (Qmin 1 (Qnat tc / Qnat (Nat.max 1 wc) * 10)) = true <->
  c * Z.of_nat (Nat.max 1 wc) < 10 * Z.of_nat tc * Z.pos d.
Proof.
  intro Hc. rewrite Qltb_under_cap by (unfold Qlt; cbn; lia).
  rewrite Qltb_lt.
  change 10%Q with (Z.pos 10 # 1).
  rewrite ratio_above by lia. lia.
Qed.

Lemma round_half_even_whole (z : Z) (y : Q) :
  (y == inject_Z z)%Q -> round_half_even y = z.
Proof.
  intro H. unfold round_half_even.
  assert (Hf : Qfloor y = z) by (rewrite H; apply Qfloor_Z).
  rewrite Hf.
  assert (Hz : Qltb (y - inject_Z z) (1 # 2) = true).
  { apply Qltb_lt. rewrite H.
    setoid_replace (inject_Z z - inject_Z z)%Q with 0%Q by ring. reflexivity. }
  rewrite Hz. reflexivity.
Qed.

Lemma py_round_whole (n : nat) (z : Z) : (py_round n (inject_Z z) == inject_Z z)%Q.
Proof.
  assert (Hs : 0 < 10 ^ Z.of_nat n) by (apply Z.pow_pos_nonneg; lia).
  unfold py_round. rewrite Qred_correct.
  rewrite (round_half_even_whole (z * 10 ^ Z.of_nat n)).
  - rewrite inject_Z_mult. apply Qdiv_mult_l.
    intro Z. change 0%Q with (inject_Z 0) in Z.
    apply (proj1 (inject_Z_injective _ _)) in Z. lia.
  - rewrite inject_Z_mult. reflexivity.
Qed.

Lemma py_round_unit (n : nat) (x : Q) :
  (0 <= x)%Q -> (x <= 1)%Q -> (0 <= py_round n x)%Q /\ (py_round n x <= 1)%Q.
Proof.
  intros H0 H1. split.
  - rewrite <- (py_round_whole n 0). apply py_round_mono. exact H0.
  - rewrite <- (py_round_whole n 1). apply py_round_mono. exact H1.
Qed.

Lemma Qmin_unit (x : Q) : (0 <= x)%Q -> (0 <= Qmin 1 x)%Q /\ (Qmin 1 x <= 1)%Q.
Proof.
  intro H. unfold Qmin. destruct (Qle_bool 1 x) eqn:Hc.
  - split; [discriminate | apply Qle_refl].
  - split; [exact H|].
    apply Qlt_le_weak. apply Qnot_le_lt. intro L. apply Qle_bool_iff in L. congruence.
Qed.

Lemma toxic_at_medium_or_high E message :
  exists t,
    Chat.detect_toxicity E message = Ret t /\
    (Chat.t_is_toxic t = true <->
     Chat.t_level t = cps "medium" \/ Chat.t_level t = cps "high").
Proof.
  unfold Chat.detect_toxicity. rewrite toxicity_score_value. cbn [obind].
  rewrite py_truediv_max1. cbn [obind].
  eexists. split; [reflexivity|].
  cbn [Chat.t_is_toxic Chat.t_level].
  match goal with
  | |- Qltb _ ?x = true <-> _ => set (s := x)
  end.
  destruct (Qltb (7 # 10) s) eqn:B7.
  - apply Qltb_lt in B7.
    assert (B3 : Qltb (3 # 10) s = true).
    { apply Qltb_lt. eapply Qlt_trans; [|exact B7]. reflexivity. }
    rewrite B3. split; [right; reflexivity | reflexivity].
  - destruct (Qltb (3 # 10) s).
    + split; [left; reflexivity | reflexivity].
    + split; [discriminate|]. intros [H|H]; exfalso; revert H.
      * destruct (Qltb 0 s); str_neq.
      * destruct (Qltb 0 s); str_neq.
Qed.

(** Settles a verdict once the comparisons are decided. *)
Ltac verdict :=
  repeat match goal with
         | |- _ /\ _ => split
         | |- _ <-> _ => split
         | |- _ -> _ => intro
         | H : _ \/ _ |- _ => destruct H
         | H : _ /\ _ |- _ => destruct H
         end;
  first [ reflexivity
        | lia
        | left; reflexivity
        | right; reflexivity
        | exfalso; lia
        | exfalso; congruence
        | exfalso;
          match goal with
          | H : cps _ = cps _ |- _ => revert H; str_neq
          end ].

(** X19. The verdict of [detect_toxicity], with [tc] toxic words among
    [wc] words (at least 1): the level is none exactly when no word is
    toxic; it is high when [tc/wc] exceeds 0.07, medium between 0.03 and
    0.07, low below 0.03; the message counts as toxic exactly at the levels
    medium and high. One listed word in a message of at most fourteen words
    is enough for the level high. The score reported lies in [0, 1]. *)
Theorem toxicity_verdict (E : env) (message : pystr) :
  let words := Chat.tokenize_message E message in
  let tc := List.length (Chat.words_in Chat.toxic_words words) in
  let wc := Nat.max 1 (List.length words) in
  exists t,
    Chat.detect_toxicity E message = Ret t /\
    (Chat.t_is_toxic t = true <->
     Chat.t_level t = cps "medium" \/ Chat.t_level t = cps "high") /\
    (Chat.t_level t = cps "none" <-> tc = 0%nat) /\
    ((7 * wc < 100 * tc)%nat -> Chat.t_level t = cps "high") /\
    ((3 * wc < 100 * tc)%nat -> (100 * tc < 7 * wc)%nat ->
     Chat.t_level t = cps "medium") /\
    ((0 < tc)%nat -> (100 * tc < 3 * wc)%nat -> Chat.t_level t = cps "low") /\
    ((1 <= tc)%nat -> (List.length words <= 14)%nat ->
     Chat.t_level t = cps "high" /\ Chat.t_is_toxic t = true) /\
    (0 <= Chat.t_score t)%Q /\ (Chat.t_score t <= 1)%Q.
Proof.
  intros words tc wc.
  unfold Chat.detect_toxicity. fold words. fold tc.
  rewrite toxicity_score_value. cbn [obind].
  rewrite py_truediv_max1. cbn [obind]. fold wc.
  eexists. split; [reflexivity|].
  cbn [Chat.t_is_toxic Chat.t_level Chat.t_score].
  pose proof (toxicity_thresholds 7 10 tc (List.length words) ltac:(lia)) as H7.
  pose proof (toxicity_thresholds 3 10 tc (List.length words) ltac:(lia)) as H3.
  pose proof (toxicity_thresholds 0 1 tc (List.length words) ltac:(lia)) as H0.
  fold wc in H7, H3, H0.
  set (s := Qmin 1 (Qnat tc / Qnat wc * 10)) in *.
  assert (Hu : (0 <= s)%Q /\ (s <= 1)%Q).
  { apply Qmin_unit. apply Qmult_le_0_compat; [|discriminate].
    apply Qle_shift_div_l; [apply Qnat_max1_pos|].
    rewrite Qmult_0_l. unfold Qnat. change 0%Q with (inject_Z 0).
    rewrite <- Zle_Qle. lia. }
  assert (Hscore : (0 <= py_round 3 s)%Q /\ (py_round 3 s <= 1)%Q)
    by (apply py_round_unit; apply Hu).
  assert (Hwc : (1 <= wc <= Nat.max 1 14 \/ 14 < List.length words)%nat)
    by (unfold wc; lia).
  destruct H7 as [H7a H7b], H3 as [H3a H3b], H0 as [H0a H0b].
  destruct (Qltb (7 # 10) s), (Qltb (3 # 10) s), (Qltb 0 s);
    repeat match goal with
           | H : true = true -> _ |- _ => specialize (H eq_refl)
           | H : _ -> true = true |- _ => clear H
           | H : false = true -> _ |- _ => clear H
           | H : ?P -> false = true |- _ =>
               assert (~ P) by (let X := fresh in intro X; discriminate (H X)); clear H
           end;
    try (exfalso; lia);
    refine (conj _ (conj _ (conj _ (conj _ (conj _ (conj _ Hscore))))));
    verdict.
Qed.

Lemma toxicity_verdict_witness :
  exists t,
    Chat.detect_toxicity offline_env "what a nice scam" = Ret t /\
    Chat.t_level t = cps "high" /\ Chat.t_is_toxic t = true.
Proof.
  destruct (toxicity_verdict offline_env "what a nice scam")
    as (t & Ht & _ & _ & _ & _ & _ & Hh & _).
  exists t. split; [exact Ht|]. apply Hh; vm_compute; lia.
Defined.

Lemma spam_thresholds (c : Z) (d : positive) (n : nat) :
  c < Z.pos d ->
  Qltb (c # d) (Chat.spam_score n) = true <-> c * 5 < Z.of_nat n * Z.pos d.
Proof.
  intro Hc. unfold Chat.spam_score.
  rewrite Qltb_under_cap by (unfold Qlt; cbn; lia).
  rewrite Qltb_lt. unfold Qnat, Qdiv, Qmult, Qinv, Qlt, inject_Z.
  cbn [Qnum Qden]. lia.
Qed.

Lemma spam_indicator_count E message indicators :
  Chat.spam_indicators E message = Ret indicators ->
  (List.length indicators <= 15)%nat.
Proof.
  unfold Chat.spam_indicators. rewrite py_truediv_max1. cbn [obind].
  pose proof (filter_length_le (fun p => re_search E p message) Chat.spam_patterns) as Hf.
  change (List.length Chat.spam_patterns) with 12%nat in Hf.
  set (by_pattern := filter (fun p => re_search E p message) Chat.spam_patterns) in *.
  clearbody by_pattern.
  intro H. injection H as <-.
  rewrite !length_app, length_map.
  destruct (500 <? List.length message)%nat, (5 <? str_count 33 message)%nat,
    (Qltb _ (3 # 10)); cbn [List.length]; lia.
Qed.

(** X20. The verdict of [detect_spam] by the number [n] of indicators
    found, of which there are at most fifteen: the message is spam from
    three indicators on; the risk is high from four, medium at two and
    three, low below two. The score reported lies in [0, 1]. *)
Theorem spam_verdict (E : env) (message : pystr) :
  exists sp,
    Chat.detect_spam E message = Ret sp /\
    let n := List.length (Chat.sp_indicators sp) in
    (n <= 15)%nat /\
    (Chat.sp_is_spam sp = true <-> (3 <= n)%nat) /\
    (Chat.sp_risk_level sp = cps "high" <-> (4 <= n)%nat) /\
    (Chat.sp_risk_level sp = cps "medium" <-> (2 <= n <= 3)%nat) /\
    (Chat.sp_risk_level sp = cps "low" <-> (n <= 1)%nat) /\
    (0 <= Chat.sp_score sp)%Q /\ (Chat.sp_score sp <= 1)%Q.
Proof.
  destruct (spam_indicators_returns E message) as (indicators & Hi).
  pose proof (spam_indicator_count E message indicators Hi) as Hn.
  unfold Chat.detect_spam. rewrite Hi. cbn [obind].
  eexists. split; [reflexivity|].
  cbn [Chat.sp_is_spam Chat.sp_risk_level Chat.sp_score Chat.sp_indicators].
  set (n := List.length indicators) in *.
  pose proof (spam_thresholds 7 10 n ltac:(lia)) as H7.
  pose proof (spam_thresholds 1 2 n ltac:(lia)) as H5.
  pose proof (spam_thresholds 3 10 n ltac:(lia)) as H3.
  assert (Hscore : (0 <= py_round 3 (Chat.spam_score n))%Q /\
                   (py_round 3 (Chat.spam_score n) <= 1)%Q).
  { assert (Hu : (0 <= Chat.spam_score n)%Q /\ (Chat.spam_score n <= 1)%Q).
    { unfold Chat.spam_score. apply Qmin_unit.
      apply Qle_shift_div_l; [reflexivity|]. rewrite Qmult_0_l.
      unfold Qnat. change 0%Q with (inject_Z 0). rewrite <- Zle_Qle. lia. }
    apply py_round_unit; apply Hu. }
  destruct H7 as [H7a H7b], H5 as [H5a H5b], H3 as [H3a H3b].
  destruct (Qltb (7 # 10) (Chat.spam_score n)), (Qltb (1 # 2) (Chat.spam_score n)),
    (Qltb (3 # 10) (Chat.spam_score n));
    repeat match goal with
           | H : true = true -> _ |- _ => specialize (H eq_refl)
           | H : _ -> true = true |- _ => clear H
           | H : false = true -> _ |- _ => clear H
           | H : ?P -> false = true |- _ =>
               assert (~ P) by (let X := fresh in intro X; discriminate (H X)); clear H
           end;
    try (exfalso; lia);
    refine (conj Hn (conj _ (conj _ (conj _ (conj _ Hscore)))));
    verdict.
Qed.

(** X21. The moderation of a message follows from the two verdicts: a
    human review is asked for exactly when the message is toxic or spam; it
    is removed automatically exactly when its toxicity level is high, so
    spam alone never is; and nothing is flagged when it is neither. *)
Theorem moderation_follows_verdicts (E : env) (message : pystr) :
  exists tox sp,
    Chat.detect_toxicity E message = Ret tox /\
    Chat.detect_spam E message = Ret sp /\
    dict_find "requires_human_review" (Chat.get_moderation_flags tox sp) =
      Some (JBool (Chat.t_is_toxic tox || Chat.sp_is_spam sp)) /\
    dict_find "auto_moderate" (Chat.get_moderation_flags tox sp) =
      Some (JBool (str_eqb (Chat.t_level tox) "high")) /\
    (Chat.t_is_toxic tox = false ->
     dict_find "auto_moderate" (Chat.get_moderation_flags tox sp) = Some (JBool false)) /\
    (Chat.t_is_toxic tox = false -> Chat.sp_is_spam sp = false ->
     dict_find "flags" (Chat.get_moderation_flags tox sp) = Some (jstrs []) /\
     dict_find "recommended_actions" (Chat.get_moderation_flags tox sp) = Some (jstrs [])).
Proof.
  destruct (toxic_at_medium_or_high E message) as (tox & Ht & Htox).
  destruct (spam_indicators_returns E message) as (indicators & Hi).
  destruct (detect_spam_score E message indicators Hi) as (sp & Hs & _).
  exists tox, sp. split; [exact Ht|]. split; [exact Hs|].
  unfold Chat.get_moderation_flags.
  destruct (Chat.t_is_toxic tox) eqn:T.
  - destruct (proj1 Htox eq_refl) as [L|L]; rewrite L;
      destruct (Chat.sp_is_spam sp); cbn; repeat split; intros; discriminate.
  - assert (L : str_eqb (Chat.t_level tox) "high" = false).
    { destruct (str_eqb (Chat.t_level tox) "high") eqn:Q; [|reflexivity].
      apply str_eqb_eq in Q.
      assert (X : false = true) by (apply Htox; right; exact Q). discriminate X. }
    rewrite L. destruct (Chat.sp_is_spam sp); cbn; repeat split; intros; discriminate.
Qed.

Lemma moderation_follows_verdicts_witness :
  exists tox sp,
    Chat.detect_toxicity offline_env scenario_a_message = Ret tox /\
    Chat.detect_spam offline_env scenario_a_message = Ret sp /\
    dict_find "flags" (Chat.get_moderation_flags tox sp) = Some (jstrs []).
Proof.
  destruct (moderation_follows_verdicts offline_env scenario_a_message)
    as (tox & sp & Ht & Hs & _ & _ & _ & Hq).
  exists tox, sp. split; [exact Ht|]. split; [exact Hs|].
  apply Hq.
  - vm_compute in Ht. injection Ht as <-. reflexivity.
  - vm_compute in Hs. injection Hs as <-. reflexivity.
Defined.

(** ** Chat analysis: a message that is not a string *)

Lemma chat_message_not_a_string E envelope payload v w :
  dict_find "data" envelope = Some (JObj payload) ->
  chat_required payload = true ->
  dict_find "message" payload = Some v ->
  is_string v = false ->
  Chat.process_body E (JObj envelope) w =
    (Raise (AttributeError "object has no attribute 'lower'"), w).
Proof.
  intros Hd Hr Hm Hv. unfold Chat.process_body. cbn [py_getitem py_get].
  rewrite Hd. rewrite (bind_lift_ret _ _ _ _ eq_refl).
  rewrite (bind_lift_ret _ _ _ _ eq_refl).
  rewrite chat_validate_spec, Hr. rewrite (bind_lift_ret _ _ _ _ eq_refl).
  cbn [negb py_get].
  do 4 rewrite (bind_lift_ret _ _ _ _ eq_refl).
  unfold dict_get at 1. rewrite Hm.
  destruct v; try discriminate Hv; reflexivity.
Qed.

(** X22. A chat payload whose [message] is present and truthy but not a
    string, a number or a list for instance, passes validation and then
    fails at the first [lower]: [process_event] returns the error result of
    that AttributeError, having read the clock and written the result and
    nothing more. *)
Theorem non_string_message_is_an_error (E : env) (envelope payload : dict) (v : json)
  (w : world) :
  dict_find "data" envelope = Some (JObj payload) ->
  chat_required payload = true ->
  dict_find "message" payload = Some v ->
  is_string v = false ->
  Chat.validate_event (JObj payload) = Ret true /\
  exists msg,
    rejected E Chat.worker_type (Chat.process_event E)
      "chat_error_" "chat_analysis_error" "chat_analysis_worker" envelope
      (str_of_exn (AttributeError msg)) w.
Proof.
  intros Hd Hr Hm Hv. split.
  - rewrite chat_validate_spec, Hr. reflexivity.
  - eexists. apply chat_rejects.
    exact (chat_message_not_a_string E envelope payload v w Hd Hr Hm Hv).
Qed.

Lemma non_string_message_is_an_error_witness :
  Chat.validate_event (JObj numeric_message) = Ret true /\
  exists msg,
    rejected offline_env Chat.worker_type (Chat.process_event offline_env)
      "chat_error_" "chat_analysis_error" "chat_analysis_worker"
      [("data", JObj numeric_message)] (str_of_exn (AttributeError msg)) world0.
Proof.
  apply (non_string_message_is_an_error offline_env [("data", JObj numeric_message)]
           numeric_message (JInt 5) world0); reflexivity.
Defined.

(** ** Chat analysis: entities *)

(** X23. [extract_entities] returns only kinds of entity it has found:
    every value in its result is a non-empty list under one of the six
    kinds, and the mentions (and hashtags) are absent exactly when the
    message has none. *)
Theorem entities_are_never_empty (E : env) (message : pystr) :
  (forall k v,
     In (k, v) (Chat.extract_entities E message) ->
     In k entity_kinds /\ exists found, v = jstrs found /\ found <> []) /\
  (dict_find "mentions" (Chat.extract_entities E message) = None <->
   Chat.tagged_runs E 64 message None = []) /\
  (dict_find "hashtags" (Chat.extract_entities E message) = None <->
   Chat.tagged_runs E 35 message None = []).
Proof.
  unfold Chat.extract_entities. split; [|split].
  - intros k v Hin. apply in_map_iff in Hin. destruct Hin as ([k0 l] & Heq & Hf).
    cbn [fst snd] in Heq. injection Heq as <- <-.
    apply filter_In in Hf. destruct Hf as [Hk Hl]. cbn [snd] in Hl. split.
    + cbn [In] in Hk.
      repeat match goal with
             | H : _ \/ _ |- _ => destruct H as [H|H]
             | H : (_, _) = (_, _) |- _ => injection H as <- _
             | H : False |- _ => contradiction H
             end; cbn; tauto.
    + exists l. split; [reflexivity|]. destruct l; [discriminate Hl | discriminate].
  - cbn [filter snd].
    destruct (Chat.tagged_runs E 64 message None);
      destruct (Chat.tagged_runs E 35 message None);
      destruct (re_findall E "https?://[^\s]+" message);
      destruct (re_findall E _ message);
      destruct (re_findall E "\b\d{3}[-.]?\d{3}[-.]?\d{4}\b" message);
      destruct (re_findall E "\b[13][a-km-zA-HJ-NP-Z1-9]{25,34}\b" message);
      cbn; split; intro H; try reflexivity; discriminate H.
  - cbn [filter snd].
    destruct (Chat.tagged_runs E 64 message None);
      destruct (Chat.tagged_runs E 35 message None);
      destruct (re_findall E "https?://[^\s]+" message);
      destruct (re_findall E _ message);
      destruct (re_findall E "\b\d{3}[-.]?\d{3}[-.]?\d{4}\b" message);
      destruct (re_findall E "\b[13][a-km-zA-HJ-NP-Z1-9]{25,34}\b" message);
      cbn; split; intro H; try reflexivity; discriminate H.
Qed.

(** ** Envelopes that carry no usable payload *)

Lemma lead_non_object_payload (data : json) :
  is_object data = false -> Lead.validate_event data <> Ret true.
Proof.
  unfold Lead.validate_event.
  destruct data; try discriminate; intros _;
    cbn [py_all py_contains py_getitem obind]; try discriminate.
  - destruct (str_contains "name" s); cbn [obind]; discriminate.
  - destruct (existsb _ l); cbn [obind]; discriminate.
Qed.

Lemma chat_non_object_payload (data : json) :
  is_object data = false -> Chat.validate_event data <> Ret true.
Proof.
  unfold Chat.validate_event.
  destruct data; try discriminate; intros _;
    cbn [py_all py_contains py_getitem obind]; try discriminate.
  - destruct (str_contains "message" s); cbn [obind]; discriminate.
  - destruct (existsb _ l); cbn [obind]; discriminate.
Qed.

Lemma blockchain_non_object_payload E envelope data w :
  dict_find "data" envelope = Some data ->
  is_object data = false ->
  exists e, Blockchain.process_body E (JObj envelope) w = (Raise e, w).
Proof.
  intros Hd Ho. unfold Blockchain.process_body. cbn [py_getitem py_get].
  rewrite Hd. do 2 rewrite (bind_lift_ret _ _ _ _ eq_refl).
  destruct (Blockchain.validate_event data) as [[|]|e] eqn:V.
  - rewrite (bind_lift_ret _ _ _ _ eq_refl). cbn [negb].
    destruct data; try discriminate Ho; eexists; reflexivity.
  - eexists. reflexivity.
  - eexists. reflexivity.
Qed.

(** X24. A payload that is not an object is never analysed, by any worker:
    [process_event] returns an error result and has done nothing but read
    the clock and write that result. For the blockchain worker this holds
    although such a payload can pass validation, which only asks whether
    ["event_type" in data]: a string containing that text does. *)
Theorem non_object_payload_is_an_error (E : env) (envelope : dict) (data : json)
  (w : world) :
  dict_find "data" envelope = Some data ->
  is_object data = false ->
  (exists msg,
     rejected E Lead.worker_type (Lead.process_event E)
       "lead_error_" "lead_scoring_error" "lead_scoring_worker" envelope msg w) /\
  (exists msg,
     rejected E Chat.worker_type (Chat.process_event E)
       "chat_error_" "chat_analysis_error" "chat_analysis_worker" envelope msg w) /\
  (exists msg,
     rejected E Blockchain.worker_type (Blockchain.process_event E)
       "blockchain_error_" "blockchain_error" "blockchain_worker" envelope msg w) /\
  (forall s,
     data = JStr s -> str_contains "event_type" s = true ->
     Blockchain.validate_event data = Ret true).
Proof.
  intros Hd Ho.
  destruct (payload_not_valid_raises E envelope data w Hd) as (L & C & _).
  split; [|split; [|split]].
  - destruct (L (lead_non_object_payload data Ho)) as (e & He).
    eexists. exact (lead_rejects E envelope e w He).
  - destruct (C (chat_non_object_payload data Ho)) as (e & He).
    eexists. exact (chat_rejects E envelope e w He).
  - destruct (blockchain_non_object_payload E envelope data w Hd Ho) as (e & He).
    eexists. exact (blockchain_rejects E envelope e w He).
  - intros s -> Hs. unfold Blockchain.validate_event.
    cbn [py_all py_contains obind]. rewrite Hs. reflexivity.
Qed.

Lemma non_object_payload_is_an_error_witness :
  (exists msg,
     rejected offline_env Blockchain.worker_type (Blockchain.process_event offline_env)
       "blockchain_error_" "blockchain_error" "blockchain_worker"
       [("data", JStr "my event_type")] msg world0) /\
  Blockchain.validate_event (JStr "my event_type") = Ret true.
Proof.
  destruct (non_object_payload_is_an_error offline_env [("data", JStr "my event_type")]
              (JStr "my event_type") world0 eq_refl eq_refl) as (_ & _ & B & V).
  split; [exact B|]. apply (V "my event_type"); reflexivity.
Defined.

(** X25. An envelope without [data] ends as an error result as well: the
    lookup raises KeyError, the error text is the key in quotes, and the
    result's [original_data] is the empty dictionary. *)
Theorem envelope_without_data_is_an_error (E : env) (envelope : dict) (w : world) :
  dict_find "data" envelope = None ->
  rejected E Lead.worker_type (Lead.process_event E)
    "lead_error_" "lead_scoring_error" "lead_scoring_worker" envelope "'data'" w /\
  rejected E Chat.worker_type (Chat.process_event E)
    "chat_error_" "chat_analysis_error" "chat_analysis_worker" envelope "'data'" w /\
  rejected E Blockchain.worker_type (Blockchain.process_event E)
    "blockchain_error_" "blockchain_error" "blockchain_worker" envelope "'data'" w /\
  dict_get envelope "data" (JObj []) = JObj [].
Proof.
  intro Hd. split; [|split; [|split]].
  - apply (lead_rejects E envelope (KeyError "data") w).
    unfold Lead.process_body. cbn [py_getitem]. rewrite Hd. reflexivity.
  - apply (chat_rejects E envelope (KeyError "data") w).
    unfold Chat.process_body. cbn [py_getitem]. rewrite Hd. reflexivity.
  - apply (blockchain_rejects E envelope (KeyError "data") w).
    unfold Blockchain.process_body. cbn [py_getitem]. rewrite Hd. reflexivity.
  - unfold dict_get. rewrite Hd. reflexivity.
Qed.

Lemma envelope_without_data_is_an_error_witness :
  rejected offline_env Lead.worker_type (Lead.process_event offline_env)
    "lead_error_" "lead_scoring_error" "lead_scoring_worker" [("user_id", JInt 7)]
    "'data'" world0.
Proof.
  apply (envelope_without_data_is_an_error offline_env [("user_id", JInt 7)] world0).
  reflexivity.
Defined.

(** X26. When the AI service answers a valid lead without content, no
    score can be read: [json.loads] and then [re.search] refuse [None], and
    the lead ends as an error result of that TypeError, written once, after
    the one request to the service. *)
Theorem empty_ai_answer_is_an_error (E : env) (envelope payload : dict) (w : world) :
  dict_find "data" envelope = Some (JObj payload) ->
  lead_required payload = true ->
  ai_completion E (tick w) (JObj payload) = Ret None ->
  exists msg r w',
    Lead.process_event E (JObj envelope) w = (Ret r, w') /\
    error_shape "lead_error_" "lead_scoring_error" "lead_scoring_worker" envelope
      (TypeError msg) r /\
    persisted E Lead.worker_type r w w' /\
    In (AiRequest (JObj payload)) (trace w').
Proof.
  intros Hd Hv Hai.
  assert (Hbody : Lead.process_body E (JObj envelope) w =
                  (Raise (TypeError "expected string or bytes-like object"),
                   interact (AiRequest (JObj payload)) w)).
  { rewrite (lead_body_to_analysis E envelope payload w Hd Hv).
    unfold mbind at 1. unfold Lead.analyze_lead_with_ai, try_except, ai_chat.
    rewrite Hai. reflexivity. }
  destruct (lead_handler_run E envelope (TypeError "expected string or bytes-like object")
              (interact (AiRequest (JObj payload)) w)) as (w' & extra & Hh & Ht & Hx).
  eexists. do 2 eexists.
  split; [unfold Lead.process_event; rewrite (try_except_raise _ _ _ _ _ Hbody); exact Hh|].
  split; [do 2 eexists; reflexivity|].
  split.
  - eexists. split; [reflexivity|]. rewrite Ht.
    destruct Hx as [Hx|Hx]; subst extra; reflexivity.
  - rewrite Ht. apply in_or_app. right. cbn. tauto.
Qed.

Lemma empty_ai_answer_is_an_error_witness :
  exists msg r w',
    Lead.process_event mute_env sample_lead_event world0 = (Ret r, w') /\
    error_shape "lead_error_" "lead_scoring_error" "lead_scoring_worker"
      [ ("data",
          JObj [ ("name", JStr "Ada"); ("email", JStr "x@acmecorp.com");
                 ("company_size", JStr "1000+ employees");
                 ("title", JStr "VP of Sales"); ("source", JStr "linkedin") ]);
        ("user_id", JInt 7) ]
      (TypeError msg) r /\
    persisted mute_env Lead.worker_type r world0 w' /\
    In (AiRequest
          (JObj [ ("name", JStr "Ada"); ("email", JStr "x@acmecorp.com");
                  ("company_size", JStr "1000+ employees");
                  ("title", JStr "VP of Sales"); ("source", JStr "linkedin") ]))
       (trace w').
Proof.
  apply (empty_ai_answer_is_an_error mute_env
           [ ("data",
               JObj [ ("name", JStr "Ada"); ("email", JStr "x@acmecorp.com");
                      ("company_size", JStr "1000+ employees");
                      ("title", JStr "VP of Sales"); ("source", JStr "linkedin") ]);
             ("user_id", JInt 7) ]
           [ ("name", JStr "Ada"); ("email", JStr "x@acmecorp.com");
             ("company_size", JStr "1000+ employees");
             ("title", JStr "VP of Sales"); ("source", JStr "linkedin") ]
           world0); reflexivity.
Defined.

(** ** Blockchain events: what the result keeps of the sub-analysis *)

Lemma blockchain_kept_fields E envelope d event_type sub w w1 :
  dict_find "data" envelope = Some (JObj d) ->
  dict_find "event_type" d = Some event_type ->
  (if py_eq_str event_type "nft_sale" then Blockchain.process_nft_sale E (JObj d)
   else if py_eq_str event_type "token_transfer"
        then Blockchain.process_token_transfer E (JObj d)
   else if py_eq_str event_type "defi_swap" then Blockchain.process_defi_swap E (JObj d)
   else mraise (ValueError ("Unknown blockchain event type: " +++
                            py_format E event_type))) w = (Ret sub, w1) ->
  exists r w',
    Blockchain.process_event E (JObj envelope) w = (Ret (JObj r), w') /\
    persisted E Blockchain.worker_type (JObj r) w w' /\
    dict_find "type" r = Some (JStr "blockchain_event") /\
    dict_find "original_data" r = Some (JObj d) /\
    dict_find "processed_by" r = Some (dict_get envelope "user_id" JNull) /\
    dict_find "worker" r = Some (JStr "blockchain_worker") /\
    (forall k, existsb (String.eqb k) envelope_keys = false ->
               dict_find k r = dict_find k sub).
Proof.
  intros Hd Ht Hsub.
  destruct (blockchain_body_after_dispatch E envelope d event_type sub w w1 Hd Ht Hsub)
    as (t_id & t_at & w' & Hbody).
  pose proof (blockchain_body_saves E (JObj envelope) w) as Hsave.
  rewrite Hbody in Hsave.
  match type of Hbody with
  | _ = (Ret (JObj (dict_update ?p [("id", ?i); ("type", ?t); ("original_data", ?o);
                                    ("processed_at", ?a); ("processed_by", ?b);
                                    ("worker", ?k)])), _) =>
      destruct (blockchain_metadata p i t o a b k) as (_ & Mt & Md & _ & Mb & Mk & Mo)
  end.
  do 2 eexists.
  split; [unfold Blockchain.process_event; apply try_except_ret; exact Hbody|].
  split; [exact Hsave|].
  split; [exact Mt|]. split; [exact Md|]. split; [exact Mb|]. split; [exact Mk|].
  intros k Hk. unfold envelope_keys in Hk. cbn [existsb] in Hk.
  repeat match type of Hk with
         | (_ || _) = false => apply orb_false_elim in Hk; destruct Hk as [? Hk]
         end.
  apply Mo; assumption.
Qed.

(** X27. When the sub-analyzer of a blockchain event completes, the result
    of [process_event] is the sub-analysis with six keys set on top: the
    type blockchain_event, the payload as [original_data], the user of the
    envelope as [processed_by], the worker's name, an id and a time; every
    other field is the sub-analyzer's, unchanged. The result is written
    once. *)
Theorem sub_analysis_is_kept (E : env) (envelope d sub : dict) (w w1 : world) :
  dict_find "data" envelope = Some (JObj d) ->
  sub_analyzer_returns E d w sub w1 ->
  exists r w',
    Blockchain.process_event E (JObj envelope) w = (Ret (JObj r), w') /\
    persisted E Blockchain.worker_type (JObj r) w w' /\
    dict_find "type" r = Some (JStr "blockchain_event") /\
    dict_find "original_data" r = Some (JObj d) /\
    dict_find "processed_by" r = Some (dict_get envelope "user_id" JNull) /\
    dict_find "worker" r = Some (JStr "blockchain_worker") /\
    (forall k, existsb (String.eqb k) envelope_keys = false ->
               dict_find k r = dict_find k sub).
Proof.
  intros Hd [[Ht Hb] | [[Ht Hb] | [Ht Hb]]].
  - apply (blockchain_kept_fields E envelope d _ sub w w1 Hd Ht).
    exact (try_except_ret _ _ _ _ _ Hb).
  - apply (blockchain_kept_fields E envelope d _ sub w w1 Hd Ht).
    exact (try_except_ret _ _ _ _ _ Hb).
  - apply (blockchain_kept_fields E envelope d _ sub w w1 Hd Ht).
    exact (try_except_ret _ _ _ _ _ Hb).
Qed.

Lemma sub_analysis_is_kept_witness :
  exists r w',
    Blockchain.process_event offline_env (JObj [("data", JObj sample_swap)]) world0
      = (Ret (JObj r), w') /\
    dict_find "type" r = Some (JStr "blockchain_event") /\
    dict_find "dex" r = Some (JStr "Raydium").
Proof.
  destruct (Blockchain.defi_swap_body offline_env (JObj sample_swap) world0)
    as [o w1] eqn:Hb.
  destruct o as [sub|e]; [|vm_compute in Hb; discriminate Hb].
  destruct (sub_analysis_is_kept offline_env [("data", JObj sample_swap)] sample_swap sub
              world0 w1 eq_refl)
    as (r & w' & Hr & _ & Ht & _ & _ & _ & Hk).
  { right. right. split; [reflexivity | exact Hb]. }
  exists r, w'. split; [exact Hr|]. split; [exact Ht|].
  rewrite (Hk "dex" eq_refl).
  vm_compute in Hb. injection Hb as <- _. reflexivity.
Defined.

(** ** Chat analysis: a message that is a string *)

Lemma analyze_sentiment_returns E message :
  exists sent, Chat.analyze_sentiment E message = Ret sent.
Proof.
  unfold Chat.analyze_sentiment.
  set (words := Chat.tokenize_message E message).
  set (p := List.length (Chat.words_in Chat.positive_words words)).
  set (n := List.length (Chat.words_in Chat.negative_words words)).
  assert (Hp : (p <= List.length words)%nat) by apply filter_length_le.
  rewrite (py_truediv_max1 (Qnat (p + n)) (List.length words)).
  unfold Chat.sentiment_score.
  destruct (Nat.eqb_spec (p + n) 0) as [Z0|NZ].
  - cbn [obind]. eexists. reflexivity.
  - rewrite py_truediv_defined.
    + cbn [obind]. eexists. reflexivity.
    + intro Z. unfold Qnat in Z. change 0%Q with (inject_Z 0) in Z.
      apply (proj1 (inject_Z_injective _ _)) in Z.
      assert (Hn : (n <= List.length words)%nat) by apply filter_length_le.
      lia.
Qed.

Lemma detect_language_returns E message :
  exists info, Chat.detect_language E message = Ret info.
Proof.
  unfold Chat.detect_language. rewrite py_truediv_max1. cbn [obind].
  eexists. reflexivity.
Qed.

Lemma get_message_stats_returns E message :
  exists stats, Chat.get_message_stats E message = Ret stats.
Proof.
  unfold Chat.get_message_stats. rewrite !py_truediv_max1. cbn [obind].
  eexists. reflexivity.
Qed.

(** X28. A valid chat event whose message is a string is always analysed:
    no step of the analysis can raise on a string, every division being by
    at least 1, so [process_event] completes its [try] block and returns,
    and writes once, a chat_analysis result with the sentiment, toxicity
    and spam verdicts of the message and an engagement score. *)
Theorem string_message_is_always_analysed (E : env) (envelope payload : dict)
  (message : pystr) (w : world) :
  dict_find "data" envelope = Some (JObj payload) ->
  chat_required payload = true ->
  dict_find "message" payload = Some (JStr message) ->
  exists r w' analysis sent tox sp score,
    Chat.process_event E (JObj envelope) w = (Ret (JObj r), w') /\
    persisted E Chat.worker_type (JObj r) w w' /\
    dict_find "type" r = Some (JStr "chat_analysis") /\
    dict_find "error" r = None /\
    dict_find "message" r = Some (JStr message) /\
    dict_find "analysis" r = Some (JObj analysis) /\
    Chat.analyze_sentiment E message = Ret sent /\
    dict_find "sentiment" analysis = Some (Chat.sentiment_json sent) /\
    Chat.detect_toxicity E message = Ret tox /\
    dict_find "toxicity" analysis = Some (Chat.toxicity_json tox) /\
    Chat.detect_spam E message = Ret sp /\
    dict_find "spam" analysis = Some (Chat.spam_json sp) /\
    Chat.calculate_engagement_score E (JObj payload) = Ret score /\
    dict_find "engagement_score" analysis = Some (JInt score) /\
    dict_find "moderation" r = Some (JObj (Chat.get_moderation_flags tox sp)).
Proof.
  intros Hd Hr Hm.
  destruct (analyze_sentiment_returns E message) as (sent & Hsent).
  destruct (detect_toxicity_score E message) as (tox & Htox & _).
  destruct (spam_indicators_returns E message) as (indicators & Hind).
  destruct (detect_spam_score E message indicators Hind) as (sp & Hsp & _).
  pose proof (engagement_is_the_formula E payload message Hm) as Heng.
  match type of Heng with
  | _ = Ret ?v => set (score := v) in Heng; clearbody score
  end.
  destruct (detect_language_returns E message) as (lang & Hlang).
  destruct (get_message_stats_returns E message) as (stats & Hstats).
  assert (Hbody : exists r w' analysis,
             Chat.process_body E (JObj envelope) w = (Ret (JObj r), w') /\
             dict_find "type" r = Some (JStr "chat_analysis") /\
             dict_find "error" r = None /\
             dict_find "message" r = Some (JStr message) /\
             dict_find "analysis" r = Some (JObj analysis) /\
             dict_find "sentiment" analysis = Some (Chat.sentiment_json sent) /\
             dict_find "toxicity" analysis = Some (Chat.toxicity_json tox) /\
             dict_find "spam" analysis = Some (Chat.spam_json sp) /\
             dict_find "engagement_score" analysis = Some (JInt score) /\
             dict_find "moderation" r = Some (JObj (Chat.get_moderation_flags tox sp))).
  { unfold Chat.process_body. cbn [py_getitem py_get].
    rewrite Hd. rewrite (bind_lift_ret _ _ _ _ eq_refl).
    rewrite (bind_lift_ret _ _ _ _ eq_refl).
    rewrite chat_validate_spec, Hr. rewrite (bind_lift_ret _ _ _ _ eq_refl).
    cbn [negb py_get].
    do 4 rewrite (bind_lift_ret _ _ _ _ eq_refl).
    unfold dict_get at 1. rewrite Hm. cbn [Chat.as_message].
    rewrite (bind_lift_ret _ _ _ _ eq_refl).
    rewrite (bind_lift_ret _ _ _ _ Hsent).
    rewrite (bind_lift_ret _ _ _ _ Htox).
    rewrite (bind_lift_ret _ _ _ _ Hsp).
    cbv zeta.
    rewrite (bind_lift_ret _ _ _ _ Heng).
    rewrite (bind_lift_ret _ _ _ _ Hlang).
    rewrite bind_now.
    rewrite (bind_lift_ret _ _ _ _ Hstats).
    rewrite bind_now. cbv zeta.
    match goal with
    | |- context [mbind (Chat.save_to_database E ?pd) _ ?w2] =>
        destruct (chat_save_persists E pd _ w2 eq_refl) as (b & w3 & Hsv & _);
        rewrite (mbind_ret_step _ _ _ _ _ Hsv);
        destruct (chat_graph_returns E pd w3) as (w4 & Hg);
        rewrite (mbind_ret_step _ _ _ _ _ Hg)
    end.
    unfold mret. do 3 eexists. split; [reflexivity|].
    unfold dict_get. rewrite Hm.
    repeat split; reflexivity. }
  destruct Hbody as (r & w' & analysis & Hb & H1 & H2 & H3 & H4 & H5 & H6 & H7 & H8 & H9).
  pose proof (chat_body_saves E (JObj envelope) w) as Hsave. rewrite Hb in Hsave.
  exists r, w', analysis, sent, tox, sp, score.
  split; [unfold Chat.process_event; apply try_except_ret; exact Hb|].
  split; [exact Hsave|].
  repeat split; try eassumption.
Qed.

Lemma string_message_is_always_analysed_witness :
  exists r w',
    Chat.process_event offline_env (JObj [("data", scenario_a_data)]) world0
      = (Ret (JObj r), w') /\
    dict_find "type" r = Some (JStr "chat_analysis") /\
    dict_find "error" r = None.
Proof.
  destruct (string_message_is_always_analysed offline_env [("data", scenario_a_data)]
              [ ("message", JStr scenario_a_message); ("user", JStr "bob") ]
              scenario_a_message world0 eq_refl eq_refl eq_refl)
    as (r & w' & _ & _ & _ & _ & _ & Hr & _ & Ht & He & _).
  exists r, w'. split; [exact Hr|]. split; assumption.
Defined.

(** ** Lead scoring: the score the AI service states *)

(** X29. When the AI service answers a valid lead with the JSON text of an
    object whose [score] is the integer [z], the lead is processed with
    exactly that score, whatever [z] is, and with the category the
    thresholds give it: what category the answer itself names is not
    looked at. *)
Theorem ai_score_is_taken_as_is (E : env) (envelope payload a : dict) (text : pystr)
  (z : Z) (w : world) :
  dict_find "data" envelope = Some (JObj payload) ->
  lead_required payload = true ->
  ai_completion E (tick w) (JObj payload) = Ret (Some text) ->
  json_loads E text = Some (JObj a) ->
  dict_find "score" a = Some (JInt z) ->
  exists r w',
    Lead.process_event E (JObj envelope) w = (Ret (JObj r), w') /\
    persisted E Lead.worker_type (JObj r) w w' /\
    dict_find "type" r = Some (JStr "lead_scoring") /\
    dict_find "lead_score" r = Some (JInt z) /\
    dict_find "category" r = Some (JStr (Lead.categorize_lead z)) /\
    by_thresholds (Lead.categorize_lead z) z /\
    dict_find "ai_analysis" r = Some (JStr text) /\
    dict_find "recommendations" r =
      Some (jstrs (Lead.get_recommendations (Lead.categorize_lead z) z)).
Proof.
  intros Hd Hv Hai Hjs Hs.
  assert (Han : Lead.analyze_lead_with_ai E (JObj payload) w =
                (Ret (Some text), interact (AiRequest (JObj payload)) w)).
  { unfold Lead.analyze_lead_with_ai, try_except, ai_chat. rewrite Hai. reflexivity. }
  assert (Hex : Lead.extract_score_from_analysis E (Some text) = Ret z).
  { unfold Lead.extract_score_from_analysis. rewrite Hjs. cbn [py_get obind].
    unfold dict_get. rewrite Hs. reflexivity. }
  assert (Hbody : exists r w',
             Lead.process_body E (JObj envelope) w = (Ret (JObj r), w') /\
             dict_find "type" r = Some (JStr "lead_scoring") /\
             dict_find "lead_score" r = Some (JInt z) /\
             dict_find "category" r = Some (JStr (Lead.categorize_lead z)) /\
             dict_find "ai_analysis" r = Some (JStr text) /\
             dict_find "recommendations" r =
               Some (jstrs (Lead.get_recommendations (Lead.categorize_lead z) z))).
  { rewrite (lead_body_to_analysis E envelope payload w Hd Hv).
    rewrite (mbind_ret_step _ _ _ _ _ Han).
    rewrite (bind_lift_ret _ _ _ _ Hex).
    rewrite bind_now. rewrite bind_now. cbv zeta.
    match goal with
    | |- context [mbind (Lead.save_to_database E ?d) _ ?w2] =>
        destruct (lead_save_returns E d w2) as (b & w3 & Hsv);
        rewrite (mbind_ret_step _ _ _ _ _ Hsv);
        destruct (lead_graph_returns E d w3) as (w4 & Hg);
        rewrite (mbind_ret_step _ _ _ _ _ Hg)
    end.
    unfold mret. do 2 eexists. split; [reflexivity|]. repeat split. }
  destruct Hbody as (r & w' & Hb & H1 & H2 & H3 & H4 & H5).
  pose proof (lead_body_saves E (JObj envelope) w) as Hsave. rewrite Hb in Hsave.
  exists r, w'. split; [unfold Lead.process_event; apply try_except_ret; exact Hb|].
  split; [exact Hsave|].
  split; [exact H1|]. split; [exact H2|]. split; [exact H3|].
  split; [apply categorize_lead_thresholds|].
  split; [exact H4 | exact H5].
Qed.

Lemma ai_score_is_taken_as_is_witness :
  exists r w',
    Lead.process_event sober_env sample_lead_event world0 = (Ret (JObj r), w') /\
    dict_find "lead_score" r = Some (JInt 72) /\
    dict_find "category" r = Some (JStr "warm").
Proof.
  destruct (ai_score_is_taken_as_is sober_env
              [ ("data",
                  JObj [ ("name", JStr "Ada"); ("email", JStr "x@acmecorp.com");
                         ("company_size", JStr "1000+ employees");
                         ("title", JStr "VP of Sales"); ("source", JStr "linkedin") ]);
                ("user_id", JInt 7) ]
              [ ("name", JStr "Ada"); ("email", JStr "x@acmecorp.com");
                ("company_size", JStr "1000+ employees");
                ("title", JStr "VP of Sales"); ("source", JStr "linkedin") ]
              [("score", JInt 72)] plain_reply 72 world0
              eq_refl eq_refl eq_refl eq_refl eq_refl)
    as (r & w' & Hr & _ & _ & Hs & Hc & _).
  exists r, w'. split; [exact Hr|]. split; [exact Hs | exact Hc].
Defined.
